(** * Verification of the scraper and report renderer

    Shallow embedding of [enhanced-scraper.js], of the minimal
    [web-scraper.js] and of the report functions of [data-processor.js].

    JavaScript strings are sequences of UTF-16 code units, objects are
    association lists in own-key order, the cheerio document API and the
    host (network, file system, clock, Unicode case mapping) are interfaces
    over which the program is parametric.  A run is a state-passing
    computation over the history of its GETs, delays and file operations;
    console output is left out. *)

From Stdlib Require Import List NArith ZArith Lia Bool String Ascii.
Import ListNotations.

Set Implicit Arguments.

(* ================================================================== *)
(** * JavaScript strings and values *)
(* ================================================================== *)

Module JS.

(** A string is the list of its UTF-16 code units. *)
Definition jsstring := list N.

(** ASCII literals of the source, as code units. *)
Definition str (s : string) : jsstring :=
  map N_of_ascii (list_ascii_of_string s).

Definition cComma : N := 44.
Definition cQuote : N := 34.   (* double quote *)
Definition cApos  : N := 39.   (* single quote *)
Definition cLF    : N := 10.
Definition cAmp   : N := 38.
Definition cLt    : N := 60.
Definition cGt    : N := 62.
Definition cSpace : N := 32.

Definition eqStr (a b : jsstring) : bool :=
  if list_eq_dec N.eq_dec a b then true else false.

(** The characters matched by [\s] in a regular expression, which are also
    the ones [String.prototype.trim] removes: TAB, LF, VT, FF, CR, space,
    NBSP, U+1680, U+2000..U+200A, LS, PS, U+202F, U+205F, U+3000, BOM. *)
Definition isWhiteSpace (c : N) : bool :=
  (((9 <=? c) && (c <=? 13)) || (c =? 32) || (c =? 160) || (c =? 5760)
   || ((8192 <=? c) && (c <=? 8202)) || (c =? 8232) || (c =? 8233)
   || (c =? 8239) || (c =? 8287) || (c =? 12288) || (c =? 65279))%N.

Fixpoint trimStart (s : jsstring) : jsstring :=
  match s with
  | [] => []
  | c :: r => if isWhiteSpace c then trimStart r else s
  end.

Definition trimEnd (s : jsstring) : jsstring := rev (trimStart (rev s)).

(** [s.trim()] *)
Definition trim (s : jsstring) : jsstring := trimEnd (trimStart s).

(** [s.replace(/\s+/g, by)]: every maximal run of white space is replaced
    by [by]; [inRun] tells that the previous unit belonged to a run. *)
Fixpoint replaceWsRuns (inRun : bool) (by_ : jsstring) (s : jsstring)
  : jsstring :=
  match s with
  | [] => []
  | c :: r =>
      if isWhiteSpace c
      then (if inRun then [] else by_) ++ replaceWsRuns true by_ r
      else c :: replaceWsRuns false by_ r
  end.

Definition replaceWhitespace (by_ s : jsstring) : jsstring :=
  replaceWsRuns false by_ s.

(** [s.replace(/c/g, by)] for a one-character pattern. *)
Definition replaceChar (c : N) (by_ : jsstring) (s : jsstring) : jsstring :=
  flat_map (fun x => if N.eqb x c then by_ else [x]) s.

Fixpoint startsWith (s p : jsstring) {struct p} : bool :=
  match p, s with
  | [], _ => true
  | _ :: _, [] => false
  | a :: p', b :: s' => N.eqb a b && startsWith s' p'
  end.

(** [s.includes(sub)] *)
Fixpoint includes (s sub : jsstring) : bool :=
  startsWith s sub ||
  match s with
  | [] => false
  | _ :: r => includes r sub
  end.

(** [arr.join(sep)] *)
Fixpoint join (sep : jsstring) (l : list jsstring) : jsstring :=
  match l with
  | [] => []
  | [x] => x
  | x :: r => x ++ sep ++ join sep r
  end.

Fixpoint uintUnits (d : Decimal.uint) : jsstring :=
  match d with
  | Decimal.Nil => []
  | Decimal.D0 d => 48%N :: uintUnits d
  | Decimal.D1 d => 49%N :: uintUnits d
  | Decimal.D2 d => 50%N :: uintUnits d
  | Decimal.D3 d => 51%N :: uintUnits d
  | Decimal.D4 d => 52%N :: uintUnits d
  | Decimal.D5 d => 53%N :: uintUnits d
  | Decimal.D6 d => 54%N :: uintUnits d
  | Decimal.D7 d => 55%N :: uintUnits d
  | Decimal.D8 d => 56%N :: uintUnits d
  | Decimal.D9 d => 57%N :: uintUnits d
  end.

(** [String(n)] for a natural number (indices and lengths). *)
Definition natToString (n : nat) : jsstring := uintUnits (Nat.to_uint n).

(** The values the program handles.  Numbers are only lengths, counts and
    indices, hence naturals. *)
#[warnings="-register-all"] Inductive value :=
| VUndefined
| VNull
| VBool (b : bool)
| VNum (n : nat)
| VStr (s : jsstring)
| VArr (l : list value)
| VObj (o : list (jsstring * value)).

(** An object: its own enumerable string keys, in [Object.keys] order. *)
Definition obj := list (jsstring * value).

(** Truthiness, as [if (v)], [!v], [a || b] and [a && b] use it. *)
Definition truthy (v : value) : bool :=
  match v with
  | VUndefined | VNull => false
  | VBool b => b
  | VNum n => negb (Nat.eqb n 0)
  | VStr s => match s with [] => false | _ => true end
  | VArr _ | VObj _ => true
  end.

(** [a || b] *)
Definition or_ (a b : value) : value := if truthy a then a else b.

(** [Array.isArray(v)] *)
Definition isArray (v : value) : bool :=
  match v with VArr _ => true | _ => false end.

(** [Object.keys(o)] *)
Definition keys (o : obj) : list jsstring := map fst o.

(** [o[k]] for an own key; a missing key reads as [undefined]. *)
Fixpoint getOwn (o : obj) (k : jsstring) : value :=
  match o with
  | [] => VUndefined
  | (k', v) :: r => if eqStr k' k then v else getOwn r k
  end.

(** [delete o[k]] *)
Definition deleteKey (o : obj) (k : jsstring) : obj :=
  filter (fun kv => negb (eqStr (fst kv) k)) o.

(** [o[k] = v]: an existing key keeps its place, a new one goes last. *)
Fixpoint setKey (o : obj) (k : jsstring) (v : value) : obj :=
  match o with
  | [] => [(k, v)]
  | (k', v') :: r =>
      if eqStr k' k then (k', v) :: r else (k', v') :: setKey r k v
  end.

(** [v.length] of an array *)
Definition arrayLength (v : value) : nat :=
  match v with VArr l => List.length l | _ => 0 end.

(** [v?.k]: [undefined] through [undefined] and [null]; the [length] of an
    array or a string; an own key of an object. *)
Definition optGet (v : value) (k : jsstring) : value :=
  match v with
  | VObj o => getOwn o k
  | VArr l =>
      if eqStr k (str "length") then VNum (List.length l) else VUndefined
  | VStr s =>
      if eqStr k (str "length") then VNum (List.length s) else VUndefined
  | _ => VUndefined
  end.

End JS.
Import JS.

(* ================================================================== *)
(** * The interfaces the program is written against *)
(* ================================================================== *)

(** An error object: [code], [message] and [stack]. *)
Record jsError :=
  { errCode : jsstring; errMessage : jsstring; errStack : jsstring }.

(** The cheerio API.  A selection (what [$(...)] returns) is the list of its
    nodes in document order; [load html] is the document itself, the scope
    of a bare [$(selector)].  [dollarFind] is the call [$.find(selector)]
    on the loaded function [$] itself ([None] for an [undefined] selector):
    the selection it yields, or the error thrown when [$] has no such
    method or its result is no selection. *)
Class Cheerio := {
  node : Type;
  load : jsstring -> list node;
  dollarFind : option jsstring -> jsError + list node;
  find : list node -> jsstring -> list node;      (* sel.find(selector) *)
  prev : list node -> jsstring -> list node;      (* sel.prev(selector) *)
  closest : list node -> jsstring -> list node;   (* sel.closest(selector) *)
  parent : list node -> list node;                (* sel.parent() *)
  text : list node -> jsstring;                   (* sel.text() *)
  attr : list node -> jsstring -> option jsstring;(* sel.attr(name) *)
  hasClass : list node -> jsstring -> bool        (* sel.hasClass(name) *)
}.

(** The host: what the GET of a URL answers at its [n]-th attempt of the run
    (a rejection or the body), what the [n]-th file-system operation
    answers, the clock, the directory of the script and the Unicode
    lower-casing of [String.prototype.toLowerCase]. *)
Class Host := {
  net : jsstring -> nat -> jsError + jsstring;
  fsError : nat -> option jsError;
  now : nat -> jsstring;
  dirname : jsstring;
  toLowerCase : jsstring -> jsstring
}.

(* ================================================================== *)
(** * enhanced-scraper.js: configuration *)
(* ================================================================== *)

Module CONFIG.
Definition baseUrl : jsstring :=
  str "https://clasico.com.do/juegos-nacionales-salesianos-2025/".
Definition requestDelay : N := 1500.
Definition maxRetries : Z := 3.
Definition retryDelay : N := 2000.
Definition timeoutMs : N := 30000.
End CONFIG.

Record sport := { name : jsstring; urlPath : jsstring }.

(** [u] with acute accent, [e] with acute accent. *)
Definition uAcute : N := 250.
Definition eAcute : N := 233.

Definition SPORTS : list sport :=
  [ {| name := str "F" ++ uAcute :: str "tbol"; urlPath := str "futbol" |};
    {| name := str "Atletismo"; urlPath := str "atletismo" |};
    {| name := str "Baloncesto"; urlPath := str "baloncesto" |};
    {| name := str "Ajedrez"; urlPath := str "ajedrez" |};
    {| name := str "Voleibol"; urlPath := str "voleibol" |};
    {| name := str "Tenis de Mesa"; urlPath := str "tenis-de-mesa" |};
    {| name := str "B" ++ eAcute :: str "isbol"; urlPath := str "beisbol" |};
    {| name := str "F" ++ uAcute :: str "tbol Sala";
       urlPath := str "futbol-sala" |} ].

(* ================================================================== *)
(** * The run: state, effects and the fetcher *)
(* ================================================================== *)

(** What a file write carries: the JSON text of a value
    ([JSON.stringify(data, null, 2)]) or plain text. *)
Inductive content :=
| CJson (data : value)
| CText (t : jsstring).

Inductive event :=
| EvGet (url : jsstring)
| EvDelay (ms : N)
| EvMkdir (dir : jsstring)
| EvWrite (file : jsstring) (c : content)
| EvAppend (file : jsstring) (c : content).

(** The state of a run: the number of file-system operations issued so
    far, and everything the run did, oldest first. *)
Record world := { fsOps : nat; events : list event }.

Definition world0 : world := {| fsOps := 0; events := [] |}.

Definition isGet (url : jsstring) (e : event) : bool :=
  match e with EvGet u => eqStr u url | _ => false end.

(** The number of GETs of [url] issued so far. *)
Definition attempts (url : jsstring) (w : world) : nat :=
  List.length (filter (isGet url) (events w)).

(** A computation; an [async] function that can reject returns
    [jsError + A]. *)
Definition M (A : Type) : Type := world -> A * world.

Definition ret {A} (a : A) : M A := fun w => (a, w).
Definition bind {A B} (m : M A) (k : A -> M B) : M B :=
  fun w => let (a, w1) := m w in k a w1.

Notation "x <- m ;; k" := (bind m (fun x => k))
  (at level 61, m at next level, right associativity).
Notation "m ;;; k" := (bind m (fun _ => k))
  (at level 61, right associativity).

Definition emit (e : event) : M unit :=
  fun w => (tt, {| fsOps := fsOps w; events := events w ++ [e] |}).

Section Run.
Context {H : Host}.

(** [await delay(ms)] *)
Definition delay (ms : N) : M unit := emit (EvDelay ms).

(** [new Date().toISOString()] *)
Definition isoNow : M jsstring := fun w => (now (List.length (events w)), w).

(** [await axiosInstance.get(url, options)]: the body, or the rejection. *)
Definition httpGet (url : jsstring) : M (jsError + jsstring) :=
  fun w => (net url (attempts url w),
            {| fsOps := fsOps w; events := events w ++ [EvGet url] |}).

(** One file-system operation: [None] when it succeeds. *)
Definition fsOp (e : event) : M (option jsError) :=
  fun w => (fsError (fsOps w),
            {| fsOps := S (fsOps w); events := events w ++ [e] |}).

(** [fetchWithRetry]: [n] is the number of retries still allowed. *)
Fixpoint fetchLoop (url : jsstring) (n : nat) : M (jsError + jsstring) :=
  r <- httpGet url ;;
  match r with
  | inr response => ret (inr response)
  | inl error =>
      match n with
      | O => ret (inl error)
      | S n' => delay CONFIG.retryDelay ;;; fetchLoop url n'
      end
  end.

(** [fetchWithRetry(url, options, retries)]; [retries <= 0] stops, and each
    retry passes [retries - 1]. *)
Definition fetchWithRetry (url : jsstring) (retries : Z)
  : M (jsError + jsstring) :=
  fetchLoop url (Z.to_nat retries).

Definition pathJoin (a b : jsstring) : jsstring := a ++ str "/" ++ b.

Definition outputDir : jsstring :=
  pathJoin dirname (str "resultados_salesianos_2025").

(** [ensureDirectoryExists]: rejects unless the error code is [EEXIST]. *)
Definition ensureDirectoryExists (dirPath : jsstring) : M (jsError + unit) :=
  r <- fsOp (EvMkdir dirPath) ;;
  match r with
  | None => ret (inr tt)
  | Some error =>
      if eqStr (errCode error) (str "EEXIST") then ret (inr tt)
      else ret (inl error)
  end.

(** [saveToFile]: a failed write is reported and swallowed. *)
Definition saveToFile (filename : jsstring) (data : value) : M bool :=
  r <- fsOp (EvWrite (pathJoin outputDir filename) (CJson data)) ;;
  match r with
  | None => ret true
  | Some _ => ret false
  end.

(** [name.toLowerCase().replace(/\s+/g, '_')] *)
Definition fileStem (sportName : jsstring) : jsstring :=
  replaceWhitespace (str "_") (toLowerCase sportName).

(** [saveHtmlForDebugging]: never rejects. *)
Definition saveHtmlForDebugging (sportName html : jsstring) : M unit :=
  let debugDir := pathJoin outputDir (str "debug") in
  r <- ensureDirectoryExists debugDir ;;
  match r with
  | inl _ => ret tt
  | inr _ =>
      fsOp (EvWrite (pathJoin debugDir (fileStem sportName ++ str ".html"))
                    (CText html)) ;;;
      ret tt
  end.

End Run.

(* ================================================================== *)
(** * enhanced-scraper.js: extraction *)
(* ================================================================== *)

Section Extractor.
Context {C : Cheerio}.

(** [sel.first()], [sel.last()] *)
Definition first (s : list node) : list node := firstn 1 s.
Definition lastOf (s : list node) : list node :=
  match rev s with [] => [] | n :: _ => [n] end.

(** [sel.text().trim()] *)
Definition textTrim (s : list node) : jsstring := trim (text s).

(** [sel.attr(name) || ''] *)
Definition attrOrEmpty (s : list node) (a : jsstring) : jsstring :=
  match attr s a with Some v => v | None => [] end.

(** [a || b] on strings *)
Definition orStr (a b : jsstring) : jsstring :=
  match a with [] => b | _ => a end.

Definition nonEmpty (s : jsstring) : bool :=
  match s with [] => false | _ => true end.

(** [sel.each((i, element) => ...)]: the callback receives the index and
    the node, which the body wraps again as [$(element)]. *)
Fixpoint eachFrom {A} (i : nat) (f : nat -> list node -> A -> A)
  (s : list node) (acc : A) : A :=
  match s with
  | [] => acc
  | n :: r => eachFrom (S i) f r (f i [n] acc)
  end.

Definition each {A} (s : list node) (acc : A)
  (f : nat -> list node -> A -> A) : A :=
  eachFrom 0 f s acc.

(** [arr.push(x)] *)
Definition push {A} (arr : list A) (x : A) : list A := arr ++ [x].

(** [element.find(selector)] where [element] is [context || $]: a
    selection when a context is given, [$] itself otherwise. *)
Definition scopeFind (context : option (list node)) (selector : jsstring)
  : jsError + list node :=
  match context with
  | Some c => inr (find c selector)
  | None => dollarFind (Some selector)
  end.

(** The loop of [extractWithFallbackSelectors]. *)
Fixpoint trySelectors (context : option (list node))
  (selectors : list jsstring) : jsError + option (list node) :=
  match selectors with
  | [] => inr None
  | selector :: rest =>
      match scopeFind context selector with
      | inl error => inl error
      | inr found =>
          let result := first found in
          if 0 <? List.length result then inr (Some result)
          else trySelectors context rest
      end
  end.

(** [extractWithFallbackSelectors($, selectors, context)].  When nothing
    matched, [element.find(selectors[0])] is returned; on a selection,
    [find(undefined)] is empty. *)
Definition extractWithFallbackSelectors (selectors : list jsstring)
  (context : option (list node)) : jsError + list node :=
  match trySelectors context selectors with
  | inl error => inl error
  | inr (Some result) => inr result
  | inr None =>
      match selectors, context with
      | s0 :: _, _ => scopeFind context s0
      | [], Some _ => inr []
      | [], None => dollarFind None
      end
  end.

(** The [sportInfo] record of [scrapeSportPage]; the search of the title
    may throw. *)
Definition sportInfoOf (doc : list node) (sp : sport) (sportUrl : jsstring)
  : jsError + obj :=
  match extractWithFallbackSelectors
          [str "h1"; str ".entry-title"; str ".page-title"] None with
  | inl error => inl error
  | inr found =>
      let sportInfo :=
        [ (str "name", VStr (name sp));
          (str "url", VStr sportUrl);
          (str "title", VStr (orStr (textTrim (first found)) (name sp)));
          (str "description",
            VStr (textTrim (first (find doc
              (str ".description, .intro, .summary"))))) ] in
      let heroImage :=
        attrOrEmpty (first (find doc
          (str "header img, .hero img, .featured-image img"))) (str "src") in
      inr (if nonEmpty heroImage
           then setKey sportInfo (str "heroImage") (VStr heroImage)
           else sportInfo)
  end.

(** The title of the [i]-th table (0-based) of a sport page. *)
Definition tableTitle (table : list node) (i : nat) : jsstring :=
  let tableTitle :=
    orStr (textTrim (prev table (str "h2, h3, h4")))
      (orStr (textTrim (find table (str "caption")))
             (str "Resultados " ++ natToString (i + 1))) in
  let category :=
    orStr (textTrim (prev table (str ".category, .group, .division")))
      (textTrim (first (find
         (closest table (str ".category-container, .group-container"))
         (str "h3, h4, .title")))) in
  if nonEmpty category && negb (includes tableTitle category)
  then category ++ str " - " ++ tableTitle
  else tableTitle.

(** One cell of a results table. *)
Definition cellOf (cell : list node) : value :=
  let cellText := textTrim cell in
  if hasClass cell (str "winner")
     || match attr cell (str "data-winner") with
        | Some v => eqStr v (str "true")
        | None => false
        end
  then VObj [(str "text", VStr cellText); (str "isWinner", VBool true)]
  else if 0 <? List.length (find cell (str "img"))
  then VObj [(str "text", VStr cellText);
             (str "imgSrc",
               VStr (attrOrEmpty (find cell (str "img")) (str "src")))]
  else VStr cellText.

Definition rowDataOf (row : list node) : list value :=
  each (find row (str "th, td")) [] (fun k cell rowData =>
    push rowData (cellOf cell)).

Definition tableDataOf (table : list node) : list value :=
  each (find table (str "tr")) [] (fun j row tableData =>
    let rowData := rowDataOf row in
    if 0 <? List.length rowData then push tableData (VArr rowData)
    else tableData).

Definition resultsOf (doc : list node) : list value :=
  each (find doc (str "table, .table, .results-table")) []
    (fun i table results =>
      let title := tableTitle table i in
      let tableData := tableDataOf table in
      if 0 <? List.length tableData
      then push results
             (VObj [(str "title", VStr title); (str "data", VArr tableData)])
      else results).

End Extractor.

Section SportBuckets.
Context {C : Cheerio}.

(** [find(sel).text().trim()] and [find(sel).first().text().trim()] *)
Definition findText (e : list node) (sel : string) : jsstring :=
  textTrim (find e (str sel)).
Definition findFirstText (e : list node) (sel : string) : jsstring :=
  textTrim (first (find e (str sel))).

(** The candidate match record of one element. *)
Definition matchOf (element : list node) : obj :=
  [ (str "title",
      VStr (findFirstText element "h3, h4, .match-title, .title"));
    (str "teams",
      VArr (map (fun el => VStr (textTrim [el]))
        (find element
          (str ".team-name, .team, .participant, .competitor"))));
    (str "score", VStr (findText element ".score, .result, .match-score"));
    (str "winner", VStr (findText element ".winner, .champion"));
    (str "date",
      VStr (findText element ".date, .match-date, time, .datetime"));
    (str "time", VStr (findText element ".time, .match-time"));
    (str "location", VStr (findText element ".venue, .location, .place"));
    (str "category",
      VStr (orStr (findText element ".category, .division, .group")
        (findFirstText
           (closest element (str ".category-container, .group-container"))
           "h3, .category-title"))) ].

(** [!v || (Array.isArray(v) && v.length === 0)] *)
Definition emptyMatchValue (v : value) : bool :=
  negb (truthy v) || (isArray v && Nat.eqb (arrayLength v) 0).

(** [Object.keys(o).forEach(key => { if (isEmpty(o[key])) delete o[key] })] *)
Definition deleteWhere (isEmpty : value -> bool) (o : obj) : obj :=
  fold_left
    (fun o' key => if isEmpty (getOwn o' key) then deleteKey o' key else o')
    (keys o) o.

(** "Clean up empty properties" of a match. *)
Definition cleanMatch (m : obj) : obj := deleteWhere emptyMatchValue m.

Definition matchesOf (doc : list node) : list value :=
  each (find doc (str ".match, .event, .fixture, .game, article")) []
    (fun i element matches =>
      let m := cleanMatch (matchOf element) in
      if 1 <? List.length (keys m) then push matches (VObj m)
      else matches).

(** The candidate team of one row of a standings block. *)
Definition teamOf (row : list node) : obj :=
  [ (str "position", VStr (findText row "td:nth-child(1)"));
    (str "name", VStr (findText row "td:nth-child(2)"));
    (str "played", VStr (findText row "td:nth-child(3)"));
    (str "won", VStr (findText row "td:nth-child(4)"));
    (str "drawn", VStr (findText row "td:nth-child(5)"));
    (str "lost", VStr (findText row "td:nth-child(6)"));
    (str "points",
      VStr (orStr (findText row "td:nth-child(7)")
                  (textTrim (lastOf (find row (str "td")))))) ].

(** The rows of a standings block, the first one (the header) skipped. *)
Definition teamsOf (element : list node) : list value :=
  each (find element (str "tr")) [] (fun j row teams =>
    if Nat.eqb j 0 then teams
    else
      let team := teamOf row in
      if truthy (getOwn team (str "name"))
         && truthy (getOwn team (str "position"))
      then push teams (VObj team)
      else teams).

Definition standingsOf (doc : list node) : list value :=
  each (find doc
    (str ".standings, .ranking, .leaderboard, .positions, .table-standings"))
    [] (fun i element standings =>
      let teams := teamsOf element in
      let standingData :=
        [ (str "title",
            VStr (orStr (textTrim (prev element (str "h2, h3, h4")))
              (orStr
                (findText element "caption, .table-title, .standings-title")
                (str "Clasificaci" ++ 243%N :: str "n "
                   ++ natToString (i + 1)))));
          (str "category",
            VStr (findFirstText
              (closest element
                 (str ".category-container, .group-container"))
              "h3, .category-title"));
          (str "teams", VArr teams) ] in
      if 0 <? List.length teams then push standings (VObj standingData)
      else standings).

(** The candidate medal item of one list item or row. *)
Definition medalItemOf (item : list node) : obj :=
  [ (str "position",
      VStr (orStr (findText item ".position, .medal-type, .rank")
                  (findText item "td:nth-child(1)")));
    (str "name",
      VStr (orStr (findText item ".name, .athlete, .winner, .team-name")
                  (findText item "td:nth-child(2)")));
    (str "school",
      VStr (orStr (findText item ".school, .institution, .team")
                  (findText item "td:nth-child(3)")));
    (str "result",
      VStr (orStr (findText item ".result, .mark, .time, .score")
                  (findText item "td:nth-child(4)"))) ].

Definition medalItemsOf (element : list node) : list value :=
  each (find element (str "li, tr, .medal-item, .award-item")) []
    (fun j item items =>
      let medalItem := medalItemOf item in
      if truthy (getOwn medalItem (str "name"))
         && truthy (getOwn medalItem (str "position"))
      then push items (VObj medalItem)
      else items).

Definition medalsOf (doc : list node) : list value :=
  each (find doc (str ".medals, .awards, .winners")) []
    (fun i element medals =>
      let items := medalItemsOf element in
      let medalData :=
        [ (str "title",
            VStr (orStr (textTrim (prev element (str "h2, h3, h4")))
              (orStr (findText element "caption, .table-title")
                     (str "Medallero"))));
          (str "items", VArr items) ] in
      if 0 <? List.length items then push medals (VObj medalData)
      else medals).

(** The candidate news item of one element of a sport page. *)
Definition newsItemOf (element : list node) : obj :=
  [ (str "title",
      VStr (findFirstText element
              "h2, h3, .title, .news-title, .post-title"));
    (str "date", VStr (findFirstText element ".date, .posted-on, time"));
    (str "content", VStr (findFirstText element "p, .content, .excerpt"));
    (str "author", VStr (findFirstText element ".author, .byline"));
    (str "imageUrl",
      VStr (attrOrEmpty (first (find element (str "img"))) (str "src"))) ].

(** "Clean up empty properties" of a news item: [!newsItem[key]]. *)
Definition cleanNews (n : obj) : obj :=
  deleteWhere (fun v => negb (truthy v)) n.

Definition newsOf (doc : list node) : list value :=
  each (find doc (str ".news, .post, .update, article, .entry")) []
    (fun i element news =>
      let newsItem := cleanNews (newsItemOf element) in
      if truthy (getOwn newsItem (str "title"))
         || truthy (getOwn newsItem (str "content"))
      then push news (VObj newsItem)
      else news).

Definition galleryOf (doc : list node) : list value :=
  each (find (find doc (str ".gallery, .photos, .images")) (str "img")) []
    (fun i img gallery =>
      let imgSrc := attrOrEmpty img (str "src") in
      let imgTitle :=
        orStr (attrOrEmpty img (str "alt")) (attrOrEmpty img (str "title")) in
      if nonEmpty imgSrc
      then push gallery
        (VObj [ (str "url", VStr imgSrc);
                (str "title", VStr imgTitle);
                (str "caption",
                  VStr (findText (closest img (str "figure"))
                          "figcaption")) ])
      else gallery).

(** [Array.isArray(v) && v.length === 0] *)
Definition isEmptyArray (v : value) : bool :=
  isArray v && Nat.eqb (arrayLength v) 0.

(** The page result around a [sportInfo], empty buckets removed. *)
Definition sportDataWith (doc : list node) (sportInfo : obj) : obj :=
  deleteWhere isEmptyArray
    [ (str "sportInfo", VObj sportInfo);
      (str "results", VArr (resultsOf doc));
      (str "matches", VArr (matchesOf doc));
      (str "standings", VArr (standingsOf doc));
      (str "medals", VArr (medalsOf doc));
      (str "news", VArr (newsOf doc));
      (str "gallery", VArr (galleryOf doc)) ].

(** The page result of a fetched sport page, or what the extraction
    threw. *)
Definition sportDataOf (doc : list node) (sp : sport) (sportUrl : jsstring)
  : jsError + obj :=
  match sportInfoOf doc sp sportUrl with
  | inl error => inl error
  | inr sportInfo => inr (sportDataWith doc sportInfo)
  end.

End SportBuckets.

Section MainPage.
Context {C : Cheerio} {H : Host}.

(** [SPORTS.some(sport => text.toLowerCase().includes(sport.name.toLowerCase())
    || href.includes(sport.urlPath))] *)
Definition isSportLink (linkText href : jsstring) : bool :=
  existsb (fun sp =>
    includes (toLowerCase linkText) (toLowerCase (name sp))
    || includes href (urlPath sp)) SPORTS.

(** The candidate navigation link of one anchor. *)
Definition linkOf (element : list node) : obj :=
  [ (str "text", VStr (textTrim element));
    (str "url", VStr (attrOrEmpty element (str "href")));
    (str "isActive",
      VBool (hasClass element (str "active")
             || hasClass (parent element) (str "active")));
    (str "isSport",
      VBool (isSportLink (textTrim element)
               (attrOrEmpty element (str "href")))) ].

(** [l.url === link.url]; both are strings. *)
Definition sameUrl (l link : obj) : bool :=
  match getOwn l (str "url"), getOwn link (str "url") with
  | VStr a, VStr b => eqStr a b
  | _, _ => false
  end.

(** One turn of the navigation loop: the link is pushed when its text and
    its url are truthy and no collected link has the same url. *)
Definition addLink (navigationLinks : list obj) (link : obj) : list obj :=
  if truthy (getOwn link (str "text"))
     && truthy (getOwn link (str "url"))
     && negb (existsb (fun l => sameUrl l link) navigationLinks)
  then push navigationLinks link
  else navigationLinks.

Definition navigationLinksOf (doc : list node) : list obj :=
  each (find doc (str "nav a, .menu a, .navigation a, .main-menu a")) []
    (fun i element navigationLinks =>
      addLink navigationLinks (linkOf element)).

(** The candidate announcement of one element; its content is trimmed and
    its white space collapsed. *)
Definition announcementOf (element : list node) : obj :=
  [ (str "title",
      VStr (findFirstText element "h2, h3, .title, strong"));
    (str "content",
      VStr (replaceWhitespace (str " ") (textTrim element))) ].

Definition announcementsOf (doc : list node) : list value :=
  each (find doc (str ".announcement, .notice, .alert, .important")) []
    (fun i element announcements =>
      let announcement := announcementOf element in
      if truthy (getOwn announcement (str "title"))
         || truthy (getOwn announcement (str "content"))
      then push announcements (VObj announcement)
      else announcements).

Definition mainNewsItemOf (element : list node) : obj :=
  [ (str "title",
      VStr (findFirstText element "h2, h3, .title, .entry-title"));
    (str "date", VStr (findFirstText element ".date, .posted-on, time"));
    (str "summary", VStr (findFirstText element "p, .excerpt, .summary"));
    (str "imageUrl",
      VStr (attrOrEmpty (first (find element (str "img"))) (str "src")));
    (str "link",
      VStr (attrOrEmpty (first (find element (str "a"))) (str "href"))) ].

Definition mainNewsOf (doc : list node) : list value :=
  each (find doc (str ".news, .post, article, .entry")) []
    (fun i element news =>
      let newsItem := mainNewsItemOf element in
      if truthy (getOwn newsItem (str "title"))
      then push news (VObj newsItem)
      else news).

Definition scheduleItemOf (eventEl : list node) : obj :=
  [ (str "title",
      VStr (findFirstText eventEl "h3, h4, .event-title, .title"));
    (str "date", VStr (findFirstText eventEl ".date, time, .datetime"));
    (str "location",
      VStr (findFirstText eventEl ".venue, .location, .place"));
    (str "description", VStr (findFirstText eventEl "p, .description")) ].

Definition scheduleItemsOf (doc : list node) : list value :=
  each (find doc (str ".schedule, .calendar, .event-list, .fixtures")) []
    (fun i element scheduleItems =>
      each (find element (str "li, .event, .fixture, .match")) scheduleItems
        (fun j eventEl scheduleItems =>
          let item := scheduleItemOf eventEl in
          if truthy (getOwn item (str "title"))
             || truthy (getOwn item (str "date"))
          then push scheduleItems (VObj item)
          else scheduleItems)).

Definition mainStandingsOf (doc : list node) : list value :=
  each (find doc
    (str ".standings, .medal-tally, .results-summary, .leaderboard")) []
    (fun i element standings =>
      let title :=
        orStr (textTrim (prev element (str "h2, h3, h4")))
          (orStr (findText element "caption, .table-title")
                 (str "Standings")) in
      let rows :=
        each (find element (str "tr")) [] (fun j row rows =>
          let cells :=
            each (find row (str "th, td")) [] (fun k cell cells =>
              push cells (VStr (textTrim cell))) in
          if 0 <? List.length cells then push rows (VArr cells) else rows) in
      if 0 <? List.length rows
      then push standings
             (VObj [(str "title", VStr title); (str "rows", VArr rows)])
      else standings).

Definition metaDescription : jsstring :=
  str "meta[name=" ++ cQuote :: str "description" ++ cQuote :: str "]".

Definition generalInfoOf (doc : list node) (lastUpdated : jsstring) : obj :=
  [ (str "title", VStr (findText doc "title"));
    (str "description",
      VStr (attrOrEmpty (find doc metaDescription) (str "content")));
    (str "heroImage",
      VStr (attrOrEmpty
              (first (find doc (str "header img, .hero img, .banner img")))
              (str "src")));
    (str "lastUpdated", VStr lastUpdated) ].

Definition mainPageDataOf (doc : list node) (lastUpdated : jsstring) : obj :=
  let navigationLinks := navigationLinksOf doc in
  [ (str "generalInfo", VObj (generalInfoOf doc lastUpdated));
    (str "announcements", VArr (announcementsOf doc));
    (str "news", VArr (mainNewsOf doc));
    (str "scheduleItems", VArr (scheduleItemsOf doc));
    (str "navigationLinks", VArr (map VObj navigationLinks));
    (str "standings", VArr (mainStandingsOf doc));
    (str "sportLinks",
      VArr (map VObj
        (filter (fun link => truthy (getOwn link (str "isSport")))
                navigationLinks))) ].

(** [scrapeMainPage]: the page data, or [null] when anything rejects. *)
Definition scrapeMainPage : M value :=
  r <- fetchWithRetry CONFIG.baseUrl CONFIG.maxRetries ;;
  match r with
  | inl error => ret VNull
  | inr html =>
      let doc := load html in
      saveHtmlForDebugging (str "main_page") html ;;;
      lastUpdated <- isoNow ;;
      let mainPageData := VObj (mainPageDataOf doc lastUpdated) in
      saveToFile (str "main_page.json") mainPageData ;;;
      ret mainPageData
  end.

Definition sportUrlOf (sp : sport) : jsstring :=
  CONFIG.baseUrl ++ urlPath sp ++ str "/".

(** What the [catch] of [scrapeSportPage] returns. *)
Definition errorResult (sp : sport) (error : jsError) : value :=
  VObj [ (str "sportInfo",
           VObj [ (str "name", VStr (name sp));
                  (str "url", VStr (sportUrlOf sp));
                  (str "error", VStr (errMessage error)) ]) ].

(** [scrapeSportPage(sport)] *)
Definition scrapeSportPage (sp : sport) : M value :=
  let sportUrl := sportUrlOf sp in
  r <- fetchWithRetry sportUrl CONFIG.maxRetries ;;
  match r with
  | inl error => ret (errorResult sp error)
  | inr html =>
      let doc := load html in
      saveHtmlForDebugging (name sp) html ;;;
      match sportDataOf doc sp sportUrl with
      | inl error => ret (errorResult sp error)
      | inr o =>
          let sportData := VObj o in
          saveToFile (fileStem (name sp) ++ str ".json") sportData ;;;
          ret sportData
      end
  end.

End MainPage.

Section RunScraper.
Context {C : Cheerio} {H : Host}.

(** The loop over [SPORTS]: [sportsData[sport.name] = await
    scrapeSportPage(sport)], then the pause between requests. *)
Fixpoint scrapeSports (sports : list sport) (sportsData : obj) : M obj :=
  match sports with
  | [] => ret sportsData
  | sp :: rest =>
      data <- scrapeSportPage sp ;;
      delay CONFIG.requestDelay ;;;
      scrapeSports rest (setKey sportsData (name sp) data)
  end.

(** One entry of the [sports] array of the summary. *)
Definition summaryEntry (sportsData : obj) (sportName : jsstring) : value :=
  let sport := getOwn sportsData sportName in
  VObj [ (str "name", VStr sportName);
         (str "resultsCount",
           or_ (optGet (optGet sport (str "results")) (str "length"))
               (VNum 0));
         (str "matchesCount",
           or_ (optGet (optGet sport (str "matches")) (str "length"))
               (VNum 0));
         (str "hasStandings",
           VBool (truthy
             (optGet (optGet sport (str "standings")) (str "length"))));
         (str "hasMedals",
           VBool (truthy
             (optGet (optGet sport (str "medals")) (str "length"))));
         (str "error",
           optGet (optGet sport (str "sportInfo")) (str "error")) ].

Definition summaryOf (mainPageData : value) (sportsData : obj)
  (lastUpdated : jsstring) : value :=
  VObj [ (str "eventTitle",
           or_ (optGet (optGet mainPageData (str "generalInfo"))
                       (str "title"))
               (VStr (str "Juegos Nacionales Salesianos 2025")));
         (str "lastUpdated", VStr lastUpdated);
         (str "sports",
           VArr (map (summaryEntry sportsData) (keys sportsData))) ].

Definition allDataOf (mainPageData : value) (sportsData : obj)
  (scrapedAt : jsstring) : value :=
  VObj [ (str "mainPage", mainPageData);
         (str "sports", VObj sportsData);
         (str "metadata",
           VObj [ (str "scrapedAt", VStr scrapedAt);
                  (str "version", VStr (str "1.0.0"));
                  (str "config",
                    VObj [ (str "baseUrl", VStr CONFIG.baseUrl);
                           (str "sportsScraped",
                             VArr (map (fun s => VStr (name s)) SPORTS))
                         ]) ]) ].

Definition logFile : jsstring := pathJoin outputDir (str "scraping_log.txt").

(** [await writeFileAsync(logFile, text, { flag: 'a' })] *)
Definition appendLog (t : jsstring) : M (jsError + unit) :=
  r <- fsOp (EvAppend logFile (CText t)) ;;
  match r with
  | None => ret (inr tt)
  | Some error => ret (inl error)
  end.

(** The [try] block of [runScraper], from the scraping of the main page
    on. *)
Definition scrapeAndSave : M (jsError + value) :=
  mainPageData <- scrapeMainPage ;;
  delay CONFIG.requestDelay ;;;
  sportsData <- scrapeSports SPORTS [] ;;
  scrapedAt <- isoNow ;;
  saveToFile (str "all_data.json")
    (allDataOf mainPageData sportsData scrapedAt) ;;;
  lastUpdated <- isoNow ;;
  let summary := summaryOf mainPageData sportsData lastUpdated in
  saveToFile (str "summary.json") summary ;;;
  t1 <- isoNow ;;
  l <- appendLog
    (str "Scraping completed at: " ++ t1 ++ [cLF]
     ++ str "Total sports scraped: "
     ++ natToString (List.length (keys sportsData)) ++ [cLF]
     ++ str "Results saved to: " ++ outputDir ++ [cLF; cLF]) ;;
  match l with
  | inl error => ret (inl error)
  | inr _ => ret (inr summary)
  end.

(** The [try] block of [runScraper]: the output directory, the first line
    of the log, then the scraping. *)
Definition runScraperBody : M (jsError + value) :=
  d <- ensureDirectoryExists outputDir ;;
  match d with
  | inl error => ret (inl error)
  | inr _ =>
      t0 <- isoNow ;;
      l <- appendLog (str "Scraping started at: " ++ t0 ++ [cLF]) ;;
      match l with
      | inl error => ret (inl error)
      | inr _ => scrapeAndSave
      end
  end.

(** [runScraper]: a rejection of the body is logged and thrown again; when
    the log cannot be written that failure is what the caller sees. *)
Definition runScraper : M (jsError + value) :=
  r <- runScraperBody ;;
  match r with
  | inr summary => ret (inr summary)
  | inl error =>
      t <- isoNow ;;
      l <- appendLog (str "ERROR at " ++ t ++ str ": " ++ errMessage error
                      ++ [cLF] ++ errStack error ++ [cLF; cLF]) ;;
      match l with
      | inl error' => ret (inl error')
      | inr _ => ret (inl error)
      end
  end.

End RunScraper.

(* ================================================================== *)
(** * web-scraper.js (the minimal variant) *)
(* ================================================================== *)

Module Minimal.
Section Minimal.
Context {C : Cheerio}.

(** The title of the [i]-th [table] of a sport page. *)
Definition tableTitle (table : list node) (i : nat) : jsstring :=
  orStr (textTrim (prev table (str "h2, h3, h4")))
        (str "Table " ++ natToString (i + 1)).

Definition linkOf (element : list node) : obj :=
  [ (str "text", VStr (textTrim element));
    (str "url", VStr (attrOrEmpty element (str "href"))) ].

Definition navigationLinksOf (doc : list node) : list obj :=
  each (find doc (str "nav a, .menu a, .navigation a")) []
    (fun i element navigationLinks =>
      addLink navigationLinks (linkOf element)).

End Minimal.
End Minimal.

(* ================================================================== *)
(** * data-processor.js: CSV and HTML rendering *)
(* ================================================================== *)

Section Report.

(** [JSON.stringify(value)], the library's. *)
Variable JSON_stringify : value -> jsstring.

(** The text a cell stands for: [''] for [null] and [undefined], the JSON
    text for an array or an object, [String(value)] otherwise. *)
Definition cellString (v : value) : jsstring :=
  match v with
  | VUndefined | VNull => []
  | VArr _ | VObj _ => JSON_stringify v
  | VBool true => str "true"
  | VBool false => str "false"
  | VNum n => natToString n
  | VStr s => s
  end.

(** [formatCSVValue(value)] *)
Definition formatCSVValue (v : value) : jsstring :=
  match v with
  | VUndefined | VNull => []
  | _ =>
      let stringValue := cellString v in
      if includes stringValue [cComma] || includes stringValue [cQuote]
         || includes stringValue [cLF]
      then cQuote :: replaceChar cQuote [cQuote; cQuote] stringValue
             ++ [cQuote]
      else stringValue
  end.

(** One turn of the [forEach] of [convertToCSV] on the pair of the current
    [headers] and [csv].  [None] is a [TypeError]: the keys or a property of
    [null].  A row that is neither an array nor an object adds nothing. *)
Definition csvRow (state : option (list jsstring) * jsstring) (row : value)
  : option (option (list jsstring) * jsstring) :=
  let (headers, csv) := state in
  match row with
  | VArr cells =>
      Some (headers,
            csv ++ join [cComma] (map formatCSVValue cells) ++ [cLF])
  | VObj o =>
      let (headers', csv') :=
        match headers with
        | Some h => (h, csv)
        | None => (keys o, join [cComma] (keys o) ++ [cLF])
        end in
      Some (Some headers',
            csv' ++ join [cComma]
                      (map (fun key => formatCSVValue (getOwn o key))
                           headers')
                 ++ [cLF])
  | VNull =>
      match headers with
      | Some [] => Some (headers, csv ++ [cLF])
      | _ => None
      end
  | _ => Some state
  end.

Fixpoint csvRows (state : option (list jsstring) * jsstring)
  (rows : list value) : option jsstring :=
  match rows with
  | [] => Some (snd state)
  | row :: rest =>
      match csvRow state row with
      | Some state' => csvRows state' rest
      | None => None
      end
  end.

(** [convertToCSV(data, headers)]; [headers] is [None] when not supplied. *)
Definition convertToCSV (data : value) (headers : option (list jsstring))
  : option jsstring :=
  match data with
  | VArr ((_ :: _) as rows) =>
      let csv :=
        match headers with
        | Some h => join [cComma] h ++ [cLF]
        | None => []
        end in
      csvRows (headers, csv) rows
  | _ => Some []
  end.

(** [formatHTMLValue(value)]: the five replacements, in the source's order. *)
Definition formatHTMLValue (v : value) : jsstring :=
  match v with
  | VUndefined | VNull => []
  | _ =>
      replaceChar cApos (str "&#039;")
        (replaceChar cQuote (str "&quot;")
          (replaceChar cGt (str "&gt;")
            (replaceChar cLt (str "&lt;")
              (replaceChar cAmp (str "&amp;") (cellString v)))))
  end.

Definition td (inner : jsstring) : jsstring :=
  str "<td>" ++ inner ++ str "</td>".

(** The cells one row adds between [<tr>] and [</tr>]; [None] is a
    [TypeError] ([headers] or the row is [null] where a property is read). *)
Definition htmlCells (headers : option (list jsstring)) (row : value)
  : option jsstring :=
  match row with
  | VArr cells => Some (List.concat (map (fun cell => td (formatHTMLValue cell))
                                    cells))
  | VObj o =>
      match headers with
      | Some h =>
          Some (List.concat
                  (map (fun key => td (formatHTMLValue (getOwn o key))) h))
      | None => None
      end
  | VNull =>
      match headers with
      | Some [] => Some []
      | _ => None
      end
  | _ => Some []
  end.

Fixpoint htmlRows (headers : option (list jsstring)) (html : jsstring)
  (rows : list value) : option jsstring :=
  match rows with
  | [] => Some html
  | row :: rest =>
      match htmlCells headers row with
      | Some cells =>
          htmlRows headers (html ++ str "<tr>" ++ cells ++ str "</tr>") rest
      | None => None
      end
  end.

Definition attrEq (a v : string) : jsstring :=
  str a ++ str "=" ++ cQuote :: str v ++ [cQuote].

Definition tableOpening (title : jsstring) : jsstring :=
  cLF :: str "    <div " ++ attrEq "class" "table-container" ++ str ">"
  ++ cLF :: str "      <h3>" ++ title ++ str "</h3>"
  ++ cLF :: str "      <table " ++ attrEq "border" "1" ++ str " "
  ++ attrEq "cellpadding" "5" ++ str " " ++ attrEq "cellspacing" "0"
  ++ str ">" ++ cLF :: str "  ".

(** [convertToHTMLTable(data, title, headers)] *)
Definition convertToHTMLTable (data : value) (title : jsstring)
  (headers : option (list jsstring)) : option jsstring :=
  match data with
  | VArr ((row0 :: _) as rows) =>
      let inferred :=
        match headers, row0 with
        | None, VObj o => Some (Some (keys o))
        | None, VNull => None
        | _, _ => Some headers
        end in
      match inferred with
      | None => None
      | Some headers' =>
          let html := tableOpening title in
          let html :=
            match headers' with
            | Some h =>
                html ++ str "<thead><tr>"
                ++ List.concat (map (fun header =>
                     str "<th>" ++ header ++ str "</th>") h)
                ++ str "</tr></thead>"
            | None => html
            end in
          match htmlRows headers' (html ++ str "<tbody>") rows with
          | Some html' => Some (html' ++ str "</tbody></table></div>")
          | None => None
          end
      end
  | _ => Some (str "<p>No data available for " ++ title ++ str "</p>")
  end.

End Report.

(** ** Readers used to state the round trips *)

(** A reader of one CSV record in the dialect [convertToCSV] writes: comma
    separated, a line feed ends the record, a field that starts with a
    double quote runs to its closing quote and a doubled quote inside it is
    one quote.  Every other code unit, the carriage return included, is
    data.  The result is the fields and the unread rest. *)
Inductive csvState := FieldStart | Unquoted | Quoted | QuoteSeen.

Fixpoint readCSVRecord (st : csvState) (cur : jsstring)
  (fields : list jsstring) (s : jsstring)
  : option (list jsstring * jsstring) :=
  match s with
  | [] =>
      match st with
      | Quoted => None
      | _ => Some (fields ++ [cur], [])
      end
  | c :: r =>
      match st with
      | FieldStart =>
          if N.eqb c cQuote then readCSVRecord Quoted cur fields r
          else if N.eqb c cComma
          then readCSVRecord FieldStart [] (fields ++ [cur]) r
          else if N.eqb c cLF then Some (fields ++ [cur], r)
          else readCSVRecord Unquoted (cur ++ [c]) fields r
      | Unquoted =>
          if N.eqb c cComma
          then readCSVRecord FieldStart [] (fields ++ [cur]) r
          else if N.eqb c cLF then Some (fields ++ [cur], r)
          else readCSVRecord Unquoted (cur ++ [c]) fields r
      | Quoted =>
          if N.eqb c cQuote then readCSVRecord QuoteSeen cur fields r
          else readCSVRecord Quoted (cur ++ [c]) fields r
      | QuoteSeen =>
          if N.eqb c cQuote
          then readCSVRecord Quoted (cur ++ [cQuote]) fields r
          else if N.eqb c cComma
          then readCSVRecord FieldStart [] (fields ++ [cur]) r
          else if N.eqb c cLF then Some (fields ++ [cur], r)
          else None
      end
  end.

Definition parseCSVRecord (s : jsstring) : option (list jsstring * jsstring) :=
  readCSVRecord FieldStart [] [] s.

(** The line [convertToCSV] writes for the cells of a row. *)
Definition csvLine (JSON_stringify : value -> jsstring) (cells : list value)
  : jsstring :=
  join [cComma] (map (formatCSVValue JSON_stringify) cells) ++ [cLF].

(** A reader of a whole file: records are read one after the other until
    nothing is left; [fuel] bounds their number. *)
Fixpoint readCSV (fuel : nat) (s : jsstring)
  : option (list (list jsstring)) :=
  match s, fuel with
  | [], _ => Some []
  | _ :: _, O => None
  | _ :: _, S fuel' =>
      match parseCSVRecord s with
      | Some (fields, rest) =>
          match readCSV fuel' rest with
          | Some records => Some (fields :: records)
          | None => None
          end
      | None => None
      end
  end.

(** The text a browser shows for escaped character data: the five entities
    [formatHTMLValue] writes are decoded, anything else is literal.  [skip]
    counts the code units of an entity still to pass over. *)
Fixpoint renderedText (skip : nat) (s : jsstring) : jsstring :=
  match s with
  | [] => []
  | c :: r =>
      match skip with
      | S k => renderedText k r
      | O =>
          if N.eqb c cAmp then
            if startsWith r (str "amp;") then cAmp :: renderedText 4 r
            else if startsWith r (str "lt;") then cLt :: renderedText 3 r
            else if startsWith r (str "gt;") then cGt :: renderedText 3 r
            else if startsWith r (str "quot;") then cQuote :: renderedText 5 r
            else if startsWith r (str "#039;") then cApos :: renderedText 5 r
            else c :: renderedText 0 r
          else c :: renderedText 0 r
      end
  end.

(** Whether some code unit of [s] opens or closes markup or ends an
    attribute value. *)
Definition hasMarkupChar (s : jsstring) : bool :=
  existsb (fun c => N.eqb c cLt || N.eqb c cGt || N.eqb c cQuote
                    || N.eqb c cApos) s.

(* ================================================================== *)
(** * data-processor.js and the command-line script: the pipelines *)
(* ================================================================== *)

Section Pipeline.
Context {C : Cheerio} {H : Host}.

(** [processAllSportsData()], whose body is one [try] that resolves to
    [true] and whose [catch] resolves to [false], and [checkDataExists()],
    which resolves to a boolean in the same way: what they do to the disk
    is left open. *)
Variable processAllSportsData : M bool.
Variable checkDataExists : M bool.

(** [runScraperAndProcessData()] of data-processor.js *)
Definition runScraperAndProcessData : M value :=
  r <- runScraper ;;
  match r with
  | inr summary =>
      processed <- processAllSportsData ;;
      ret (VObj [(str "success", VBool true)])
  | inl error =>
      ret (VObj [ (str "success", VBool false);
                  (str "error", VStr (errMessage error)) ])
  end.

(** [runScraperCommand()] of the command-line script *)
Definition runScraperCommand : M bool :=
  r <- runScraper ;;
  match r with
  | inr _ => ret true
  | inl error => ret false
  end.

(** [processDataCommand()] *)
Definition processDataCommand : M bool :=
  dataExists <- checkDataExists ;;
  if negb dataExists then ret false
  else processAllSportsData ;;; ret true.

(** [runBothCommand()] *)
Definition runBothCommand : M bool :=
  scrapeSuccess <- runScraperCommand ;;
  if negb scrapeSuccess then ret false
  else
    processSuccess <- processDataCommand ;;
    if negb processSuccess then ret false else ret true.

End Pipeline.

(* ================================================================== *)
(** * web-scraper.js (the minimal variant): pages and run *)
(* ================================================================== *)

Module MinimalRun.
Section MinimalRun.
Context {C : Cheerio} {H : Host}.

(** [s.normalize(NFD)], the library's. *)
Variable normalizeNFD : jsstring -> jsstring.

Definition baseUrl : jsstring :=
  str "https://clasico.com.do/juegos-nacionales-salesianos-2025/".

Definition sportsDisciplines : list jsstring :=
  [ str "F" ++ uAcute :: str "tbol"; str "Atletismo"; str "Baloncesto";
    str "Ajedrez"; str "Voleibol"; str "Tenis de Mesa";
    str "B" ++ eAcute :: str "isbol"; str "F" ++ uAcute :: str "tbol Sala" ].

(** A combining mark of the block U+0300..U+036F. *)
Definition isCombiningMark (c : N) : bool := ((768 <=? c) && (c <=? 879))%N.

(** [getSportUrl(sport)]: lower case, accents removed, white space to
    hyphens. *)
Definition getSportUrl (sport : jsstring) : jsstring :=
  let sportLower :=
    replaceWhitespace (str "-")
      (filter (fun c => negb (isCombiningMark c))
              (normalizeNFD (toLowerCase sport))) in
  baseUrl ++ sportLower ++ str "/".

(** [saveToFile]: [writeFileSync] throws what the disk answers. *)
Definition saveToFile (filename : jsstring) (data : value)
  : M (option jsError) :=
  fsOp (EvWrite (pathJoin outputDir filename) (CJson data)).

Definition highlightOf (element : list node) : obj :=
  [ (str "title", VStr (findText element "h2, .title"));
    (str "date", VStr (findText element ".date, .posted-on"));
    (str "summary", VStr (findFirstText element "p"));
    (str "link", VStr (attrOrEmpty (find element (str "a")) (str "href"))) ].

Definition highlightsOf (doc : list node) : list value :=
  each (find doc (str ".entry-content article, .post, .article")) []
    (fun i element highlights =>
      let highlight := highlightOf element in
      if truthy (getOwn highlight (str "title"))
      then push highlights (VObj highlight)
      else highlights).

Definition mainPageDataOf (doc : list node) (lastUpdated : jsstring) : obj :=
  [ (str "generalInfo",
      VObj [ (str "title", VStr (findText doc "title"));
             (str "description",
               VStr (attrOrEmpty (find doc metaDescription)
                       (str "content")));
             (str "lastUpdated", VStr lastUpdated) ]);
    (str "highlights", VArr (highlightsOf doc));
    (str "navigationLinks",
      VArr (map VObj (Minimal.navigationLinksOf doc))) ].

(** [scrapeMainPage]: one GET; [null] when the GET or the write fails. *)
Definition scrapeMainPage : M value :=
  r <- httpGet baseUrl ;;
  match r with
  | inl error => ret VNull
  | inr html =>
      let doc := load html in
      lastUpdated <- isoNow ;;
      let mainPageData := VObj (mainPageDataOf doc lastUpdated) in
      s <- saveToFile (str "main_page.json") mainPageData ;;
      match s with
      | Some error => ret VNull
      | None => ret mainPageData
      end
  end.

Definition rowDataOf (row : list node) : list value :=
  each (find row (str "th, td")) [] (fun k cell rowData =>
    push rowData (VStr (textTrim cell))).

Definition tableDataOf (table : list node) : list value :=
  each (find table (str "tr")) [] (fun j row tableData =>
    let rowData := rowDataOf row in
    if 0 <? List.length rowData then push tableData (VArr rowData)
    else tableData).

Definition resultsOf (doc : list node) : list value :=
  each (find doc (str "table")) [] (fun i table results =>
    let tableTitle := Minimal.tableTitle table i in
    let tableData := tableDataOf table in
    if 0 <? List.length tableData
    then push results
           (VObj [ (str "title", VStr tableTitle);
                   (str "data", VArr tableData) ])
    else results).

Definition matchOf (element : list node) : obj :=
  [ (str "teams",
      VArr (map (fun el => VStr (textTrim [el]))
              (find element (str ".team-name, .participant"))));
    (str "result", VStr (findText element ".score, .result"));
    (str "date", VStr (findText element ".date, .datetime"));
    (str "location", VStr (findText element ".venue, .location")) ].

Definition matchesOf (doc : list node) : list value :=
  each (find doc (str ".match, .event, .fixture, article")) []
    (fun i element matches =>
      let m := matchOf element in
      if (0 <? arrayLength (getOwn m (str "teams")))
         || truthy (getOwn m (str "result"))
      then push matches (VObj m)
      else matches).

Definition newsItemOf (element : list node) : obj :=
  [ (str "title", VStr (findText element "h2, h3, .title"));
    (str "date", VStr (findText element ".date"));
    (str "content", VStr (findText element "p")) ].

Definition newsOf (doc : list node) : list value :=
  each (find doc (str ".news, .post, .update")) []
    (fun i element news =>
      let newsItem := newsItemOf element in
      if truthy (getOwn newsItem (str "title"))
         || truthy (getOwn newsItem (str "content"))
      then push news (VObj newsItem)
      else news).

Definition sportDataOf (doc : list node) (sport sportUrl : jsstring) : obj :=
  [ (str "sportInfo",
      VObj [ (str "sport", VStr sport);
             (str "url", VStr sportUrl);
             (str "title",
               VStr (orStr (findFirstText doc "h1, .entry-title") sport)) ]);
    (str "results", VArr (resultsOf doc));
    (str "matches", VArr (matchesOf doc));
    (str "news", VArr (newsOf doc)) ].

(** [scrapeSportPage(sport)]: one GET; [null] when the GET or the write
    fails. *)
Definition scrapeSportPage (sport : jsstring) : M value :=
  let sportUrl := getSportUrl sport in
  r <- httpGet sportUrl ;;
  match r with
  | inl error => ret VNull
  | inr html =>
      let doc := load html in
      let sportData := VObj (sportDataOf doc sport sportUrl) in
      s <- saveToFile (fileStem sport ++ str ".json") sportData ;;
      match s with
      | Some error => ret VNull
      | None => ret sportData
      end
  end.

(** The loop over [sportsDisciplines] with its pause of one second. *)
Fixpoint scrapeSports (sports : list jsstring) (sportsData : obj) : M obj :=
  match sports with
  | [] => ret sportsData
  | sport :: rest =>
      data <- scrapeSportPage sport ;;
      delay 1000 ;;;
      scrapeSports rest (setKey sportsData sport data)
  end.

(** [runScraper]: rejects when the last write throws. *)
Definition runScraper : M (jsError + unit) :=
  mainPageData <- scrapeMainPage ;;
  sportsData <- scrapeSports sportsDisciplines [] ;;
  scrapedAt <- isoNow ;;
  s <- saveToFile (str "all_data.json")
         (VObj [ (str "mainPage", mainPageData);
                 (str "sports", VObj sportsData);
                 (str "scrapedAt", VStr scrapedAt) ]) ;;
  match s with
  | Some error => ret (inl error)
  | None => ret (inr tt)
  end.

End MinimalRun.
End MinimalRun.


(* ================================================================== *)
(** * Properties the specification names *)
(* ================================================================== *)

Definition startsWithWs (s : jsstring) : bool :=
  match s with c :: _ => isWhiteSpace c | [] => false end.

Fixpoint endsWithWs (s : jsstring) : bool :=
  match s with
  | [] => false
  | [c] => isWhiteSpace c
  | _ :: r => endsWithWs r
  end.

(** Two consecutive white-space code units somewhere in [s]. *)
Fixpoint hasWsRun (s : jsstring) : bool :=
  match s with
  | c1 :: ((c2 :: _) as r) =>
      (isWhiteSpace c1 && isWhiteSpace c2) || hasWsRun r
  | _ => false
  end.

(** The first non-empty candidate, in order; empty when there is none. *)
Fixpoint firstNonEmpty (l : list jsstring) : jsstring :=
  match l with
  | [] => []
  | x :: r => orStr x (firstNonEmpty r)
  end.

(** The title of a table as the specification words it: preceding heading,
    nested caption, heading of the category block, then "Table N". *)
Definition specTableTitle (heading caption categoryHeading : jsstring)
  (i : nat) : jsstring :=
  firstNonEmpty [heading; caption; categoryHeading;
                 str "Table " ++ natToString (i + 1)].

(** The number of fields of a record that the clean-up of a match keeps. *)
Definition filledFields (o : obj) : nat :=
  List.length (filter (fun kv => negb (emptyMatchValue (snd kv))) o).

(** What is read in the identity checks: a field that is a non-empty
    string. *)
Definition filled (o : obj) (k : string) : bool := truthy (getOwn o (str k)).

(** The events of [n] attempts on [url]: GETs with the retry delay between
    them. *)
Fixpoint attemptTrace (url : jsstring) (n : nat) : list event :=
  match n with
  | O => []
  | S O => [EvGet url]
  | S m => EvGet url :: EvDelay CONFIG.retryDelay :: attemptTrace url m
  end.

Fixpoint nodupb (l : list jsstring) : bool :=
  match l with
  | [] => true
  | x :: r => negb (existsb (eqStr x) r) && nodupb r
  end.

(** What a loop that pushes [g i element] when [p i element] holds
    collects from the nodes [s], the first of which has index [i]. *)
Fixpoint collectFrom {C : Cheerio} {A} (i : nat)
  (p : nat -> list node -> bool) (g : nat -> list node -> A)
  (s : list node) : list A :=
  match s with
  | [] => []
  | n :: r =>
      (if p i [n] then [g i [n]] else []) ++ collectFrom (S i) p g r
  end.

(** The selectors of the candidates of three loops. *)
Definition matchSelector : jsstring :=
  str ".match, .event, .fixture, .game, article".
Definition newsSelector : jsstring :=
  str ".news, .post, .update, article, .entry".
Definition medalItemSelector : jsstring :=
  str "li, tr, .medal-item, .award-item".

(** The acceptance tests of the four record loops of a sport page. *)
Definition keepsMatch {C : Cheerio} (e : list node) : bool :=
  1 <? List.length (keys (cleanMatch (matchOf e))).

Definition keepsNews {C : Cheerio} (e : list node) : bool :=
  truthy (getOwn (cleanNews (newsItemOf e)) (str "title"))
  || truthy (getOwn (cleanNews (newsItemOf e)) (str "content")).

Definition keepsTeam {C : Cheerio} (e : list node) : bool :=
  filled (teamOf e) "name" && filled (teamOf e) "position".

Definition keepsMedalItem {C : Cheerio} (e : list node) : bool :=
  filled (medalItemOf e) "name" && filled (medalItemOf e) "position".

(** What the navigation loop maintains: distinct urls, and a non-empty
    string as text and as url of every collected link. *)
Definition linksOk (links : list obj) : Prop :=
  NoDup (map (fun l => getOwn l (str "url")) links)
  /\ Forall (fun l => exists t u,
               getOwn l (str "text") = VStr t /\ t <> []
               /\ getOwn l (str "url") = VStr u /\ u <> []) links.



(** The entity one code unit is escaped to, in a single pass. *)
Definition escapeChar (c : N) : jsstring :=
  if N.eqb c cAmp then str "&amp;"
  else if N.eqb c cLt then str "&lt;"
  else if N.eqb c cGt then str "&gt;"
  else if N.eqb c cQuote then str "&quot;"
  else if N.eqb c cApos then str "&#039;"
  else [c].

(** A comma, a double quote or a line feed somewhere in [s]. *)
Definition needsQuoting (s : jsstring) : bool :=
  existsb (fun c => N.eqb c cComma || N.eqb c cQuote || N.eqb c cLF) s.

(** What the reader does at the delimiter [d] that ends a field. *)
Definition endField (d : N) (cur : jsstring) (fields : list jsstring)
  (rest : jsstring) : option (list jsstring * jsstring) :=
  if N.eqb d cComma then readCSVRecord FieldStart [] (fields ++ [cur]) rest
  else Some (fields ++ [cur], rest).

(* ================================================================== *)
(** * Fixtures: documents and hosts given by tables *)
(* ================================================================== *)

Record fixture := {
  fxFind : list (nat * string * list nat);
  fxPrev : list (nat * string * list nat);
  fxClosest : list (nat * string * list nat);
  fxParent : list (nat * nat);
  fxText : list (nat * jsstring);
  fxAttr : list (nat * string * jsstring);
  fxClass : list (nat * string)
}.

Fixpoint fxLookup {A} (t : list (nat * string * A)) (n : nat) (k : jsstring)
  : option A :=
  match t with
  | [] => None
  | (n', k', a) :: r =>
      if Nat.eqb n' n && eqStr (str k') k then Some a else fxLookup r n k
  end.

Definition fxNodes (t : list (nat * string * list nat)) (s : list nat)
  (k : jsstring) : list nat :=
  flat_map
    (fun n => match fxLookup t n k with Some l => l | None => [] end) s.

Definition fxTextOf (f : fixture) (n : nat) : jsstring :=
  match List.find (fun p => Nat.eqb (fst p) n) (fxText f) with
  | Some p => snd p
  | None => []
  end.

Definition fixtureDom (f : fixture) : Cheerio :=
  {| node := nat;
     load := fun _ => [0];
     dollarFind := fun sel =>
       match sel with
       | Some k => inr (fxNodes (fxFind f) [0] k)
       | None => inr []
       end;
     find := fxNodes (fxFind f);
     prev := fxNodes (fxPrev f);
     closest := fxNodes (fxClosest f);
     parent := fun s =>
       flat_map (fun n =>
         map snd (filter (fun p => Nat.eqb (fst p) n) (fxParent f))) s;
     text := fun s => flat_map (fxTextOf f) s;
     attr := fun s a =>
       match s with
       | [] => None
       | n :: _ => fxLookup (fxAttr f) n a
       end;
     hasClass := fun s c =>
       existsb (fun n =>
         existsb (fun p => Nat.eqb (fst p) n && eqStr (str (snd p)) c)
                 (fxClass f)) s |}.

(** The same document API, on which [$.find] is no function. *)
Definition withoutDollarFind (C : Cheerio) : Cheerio :=
  {| node := @node C;
     load := @load C;
     dollarFind := fun _ =>
       inl {| errCode := [];
              errMessage := str "element.find is not a function";
              errStack := [] |};
     find := @find C;
     prev := @prev C;
     closest := @closest C;
     parent := @parent C;
     text := @text C;
     attr := @attr C;
     hasClass := @hasClass C |}.

Definition asciiLower (s : jsstring) : jsstring :=
  map (fun c => if (65 <=? c)%N && (c <=? 90)%N then (c + 32)%N else c) s.

Definition someError (m : string) : jsError :=
  {| errCode := str "ECONNRESET"; errMessage := str m; errStack := [] |}.

(** A host whose file system never fails. *)
Definition fixtureHost (n : jsstring -> nat -> jsError + jsstring) : Host :=
  {| net := n;
     fsError := fun _ => None;
     now := fun _ => str "2025-07-01T12:00:00.000Z";
     dirname := str "/app";
     toLowerCase := asciiLower |}.

(** An entry of a fixture table: node, selector or name, answer. *)
Definition entry {A} (n : nat) (k : string) (a : A) : nat * string * A :=
  (n, k, a).

(** A page: a [title] with two spaces between its first words; no [h1],
    two [.entry-title] and one [.page-title]; one table without heading or
    caption inside a category block "Grupo A"; a match with a title and
    nothing else and a match with a score and a date but no title; a
    standings block whose first data row has a position and a name only and
    whose second has a name only; a schedule with one event that has a
    title only. *)
Definition sportPageFx : fixture :=
  {| fxFind :=
       [ (entry 0 ".entry-title" [1; 2]);
         (entry 0 ".page-title" [3]);
         (entry 0 "table, .table, .results-table" [10]);
         (entry 11 "h3, h4, .title" [12]);
         (entry 10 "tr" [13]);
         (entry 13 "th, td" [14]);
         (entry 0 ".match, .event, .fixture, .game, article" [20; 21]);
         (entry 20 "h3, h4, .match-title, .title" [22]);
         (entry 21 ".score, .result, .match-score" [23]);
         (entry 21 ".date, .match-date, time, .datetime" [24]);
         (entry 0
            ".standings, .ranking, .leaderboard, .positions, .table-standings"
            [30]);
         (entry 30 "tr" [31; 32; 33]);
         (entry 32 "td:nth-child(1)" [34]);
         (entry 32 "td:nth-child(2)" [35]);
         (entry 32 "td" [34; 35]);
         (entry 33 "td:nth-child(2)" [36]);
         (entry 33 "td" [36]);
         (entry 0 "title" [40]);
         (entry 0 ".schedule, .calendar, .event-list, .fixtures" [50]);
         (entry 50 "li, .event, .fixture, .match" [51]);
         (entry 51 "h3, h4, .event-title, .title" [52]) ];
     fxPrev := [];
     fxClosest :=
       [ (entry 10 ".category-container, .group-container" [11]) ];
     fxParent := [];
     fxText :=
       [ (1, str "  Copa  Don Bosco ");
         (2, str "Otro");
         (3, str "Page");
         (12, str "Grupo A");
         (14, str "x");
         (22, str "Final");
         (23, str "2-1");
         (24, str "Lunes");
         (34, str "1");
         (35, str "Don Bosco");
         (36, str "Solo nombre");
         (40, str " Juegos  Salesianos 2025 ");
         (52, str "Inauguracion") ];
     fxAttr := [];
     fxClass := [] |}.

Definition futbol : sport :=
  {| name := str "F" ++ uAcute :: str "tbol"; urlPath := str "futbol" |}.

(** A host on which every GET of the football page times out and every
    other page is served. *)
Definition futbolDownHost : Host :=
  fixtureHost (fun url _ =>
    if eqStr url (CONFIG.baseUrl ++ str "futbol/")
    then inl (someError "timeout of 30000ms exceeded")
    else inr (str "<html></html>")).

(** ** Measures of a history *)

(** The urls of the GETs of a history, in order. *)
Definition getUrls (evs : list event) : list jsstring :=
  flat_map (fun e => match e with EvGet u => [u] | _ => [] end) evs.

(** The pauses between two pages: delays of [CONFIG.requestDelay]. *)
Definition isPacing (e : event) : bool :=
  match e with EvDelay ms => N.eqb ms CONFIG.requestDelay | _ => false end.

Definition pacingCount (evs : list event) : nat :=
  List.length (filter isPacing evs).

(** The writes of JSON files a history holds, accepted by the disk or not,
    with the value handed over, in order. *)
Definition jsonWrites (evs : list event) : list (jsstring * value) :=
  flat_map (fun e => match e with
                     | EvWrite f (CJson v) => [(f, v)]
                     | _ => []
                     end) evs.

(** [m], started in [w], appends exactly [evs] to the history. *)
Definition adds {A} (m : M A) (w : world) (evs : list event) : Prop :=
  events (snd (m w)) = events w ++ evs.

(** The GETs of the sports [sports], the [i]-th of them repeated as often
    as the [i]-th number of [ks] says. *)
Fixpoint sportGets (sports : list sport) (ks : list nat) : list jsstring :=
  match sports, ks with
  | sp :: sports', k :: ks' =>
      repeat (CONFIG.baseUrl ++ urlPath sp ++ str "/") k
      ++ sportGets sports' ks'
  | _, _ => []
  end.


(** A host whose disk refuses the output directory ([EACCES]) and works
    otherwise, and which serves every page. *)
Definition noDirHost : Host :=
  {| net := fun _ _ => inr (str "<html></html>");
     fsError := fun n =>
       match n with
       | O => Some {| errCode := str "EACCES";
                      errMessage := str "permission denied";
                      errStack := [] |}
       | _ => None
       end;
     now := fun _ => str "2025-07-01T12:00:00.000Z";
     dirname := str "/app";
     toLowerCase := asciiLower |}.


(** A host that serves every page and whose disk refuses every
    operation ([ENOSPC]). *)
Definition fullDiskHost : Host :=
  {| net := fun _ _ => inr (str "<html></html>");
     fsError := fun _ =>
       Some {| errCode := str "ENOSPC";
               errMessage := str "no space left on device";
               errStack := [] |};
     now := fun _ => str "2025-07-01T12:00:00.000Z";
     dirname := str "/app";
     toLowerCase := asciiLower |}.

(** A host that serves every page. *)
Definition servingHost : Host :=
  fixtureHost (fun _ _ => inr (str "<html></html>")).

(** A host on which the main page always times out. *)
Definition mainDownHost : Host :=
  fixtureHost (fun url _ =>
    if eqStr url CONFIG.baseUrl
    then inl (someError "timeout of 30000ms exceeded")
    else inr (str "<html></html>")).

(** The first line of the log, and the world in which the scraping starts
    once the directory and that line are written. *)
Definition startLine {H : Host} : jsstring :=
  str "Scraping started at: " ++ now 1 ++ [cLF].

Definition startedWorld {H : Host} : world :=
  {| fsOps := 2;
     events := [EvMkdir outputDir; EvAppend logFile (CText startLine)] |}.

(* ================================================================== *)
(** * Facts about strings *)
(* ================================================================== *)

Arguments isWhiteSpace : simpl never.

Lemma eqStr_true (a b : jsstring) : eqStr a b = true <-> a = b.
Proof.
  unfold eqStr. destruct (list_eq_dec N.eq_dec a b); split; congruence.
Qed.

Lemma eqStr_false (a b : jsstring) : eqStr a b = false <-> a <> b.
Proof.
  unfold eqStr. destruct (list_eq_dec N.eq_dec a b); split; congruence.
Qed.

Lemma eqStr_refl (a : jsstring) : eqStr a a = true.
Proof. now apply eqStr_true. Qed.

Lemma trimStart_starts (s : jsstring) : startsWithWs (trimStart s) = false.
Proof.
  induction s as [|c r IH]; simpl; trivial.
  destruct (isWhiteSpace c) eqn:E; simpl; trivial.
Qed.

Lemma trimStart_snoc (l : jsstring) (c : N) :
  isWhiteSpace c = false -> trimStart (l ++ [c]) = trimStart l ++ [c].
Proof.
  intros Hc. induction l as [|a l IH]; simpl.
  - now rewrite Hc.
  - destruct (isWhiteSpace a); simpl; trivial.
Qed.

Lemma endsWithWs_snoc (l : jsstring) (c : N) :
  endsWithWs (l ++ [c]) = isWhiteSpace c.
Proof.
  induction l as [|a l IH]; simpl; trivial.
  destruct (l ++ [c]) eqn:E; trivial.
  now destruct l.
Qed.

Lemma endsWithWs_app (p s : jsstring) :
  s <> [] -> endsWithWs (p ++ s) = endsWithWs s.
Proof.
  intros Hs. induction p as [|a p IH]; simpl; trivial.
  destruct (p ++ s) eqn:E; trivial.
  destruct p, s; simpl in E; congruence.
Qed.

Lemma trimEnd_ends (s : jsstring) : endsWithWs (trimEnd s) = false.
Proof.
  unfold trimEnd. pose proof (trimStart_starts (rev s)) as Hs.
  destruct (trimStart (rev s)) as [|c t]; simpl in *; trivial.
  now rewrite endsWithWs_snoc.
Qed.

Lemma trimEnd_starts (s : jsstring) :
  startsWithWs s = false -> startsWithWs (trimEnd s) = false.
Proof.
  destruct s as [|c r]; simpl; intros Hc; trivial.
  unfold trimEnd. simpl. rewrite trimStart_snoc by assumption.
  rewrite rev_app_distr. simpl. assumption.
Qed.

Lemma trim_starts (s : jsstring) : startsWithWs (trim s) = false.
Proof. apply trimEnd_starts, trimStart_starts. Qed.

Lemma trim_ends (s : jsstring) : endsWithWs (trim s) = false.
Proof. apply trimEnd_ends. Qed.

Lemma hasWsRun_cons (c : N) (s : jsstring) :
  hasWsRun (c :: s) = (isWhiteSpace c && startsWithWs s) || hasWsRun s.
Proof. destruct s; simpl; trivial. now rewrite andb_false_r. Qed.

Lemma spaceIsWs : isWhiteSpace cSpace = true.
Proof. reflexivity. Qed.

Lemma collapse_in_run_starts (s : jsstring) :
  startsWithWs (replaceWsRuns true [cSpace] s) = false.
Proof.
  induction s as [|c r IH]; simpl; trivial.
  destruct (isWhiteSpace c) eqn:E; simpl; trivial.
Qed.

Lemma collapse_no_run (b : bool) (s : jsstring) :
  hasWsRun (replaceWsRuns b [cSpace] s) = false.
Proof.
  revert b. induction s as [|c r IH]; intros b; trivial.
  cbn [replaceWsRuns]. destruct (isWhiteSpace c) eqn:E.
  - destruct b; cbn [app]; [apply IH|].
    rewrite hasWsRun_cons, collapse_in_run_starts, IH.
    now rewrite andb_false_r.
  - rewrite hasWsRun_cons, E, IH. reflexivity.
Qed.

Lemma collapse_starts (s : jsstring) :
  startsWithWs s = false ->
  startsWithWs (replaceWhitespace [cSpace] s) = false.
Proof.
  destruct s as [|c r]; trivial. unfold replaceWhitespace.
  cbn [startsWithWs replaceWsRuns]. intros Hc. now rewrite Hc.
Qed.

Lemma collapse_ends (b : bool) (s : jsstring) :
  s <> [] -> endsWithWs s = false ->
  replaceWsRuns b [cSpace] s <> [] /\
  endsWithWs (replaceWsRuns b [cSpace] s) = false.
Proof.
  revert b. induction s as [|c r IH]; intros b Hne He; [congruence|].
  destruct r as [|c2 r'].
  - simpl in He. simpl. rewrite He. split; [discriminate | simpl; exact He].
  - assert (Hr : endsWithWs (c2 :: r') = false) by exact He.
    assert (Hn : c2 :: r' <> []) by discriminate.
    clear He. remember (c2 :: r') as rr eqn:Err. clear Err.
    cbn [replaceWsRuns]. destruct (isWhiteSpace c).
    + destruct (IH true Hn Hr) as [Hx Hy]. split.
      * destruct (if b then [] else [cSpace]); simpl; [exact Hx|discriminate].
      * rewrite endsWithWs_app; assumption.
    + destruct (IH false Hn Hr) as [Hx Hy]. split; [discriminate|].
      change (c :: replaceWsRuns false [cSpace] rr)
        with ([c] ++ replaceWsRuns false [cSpace] rr).
      rewrite endsWithWs_app; assumption.
Qed.

Lemma collapse_ends' (s : jsstring) :
  endsWithWs s = false ->
  endsWithWs (replaceWhitespace [cSpace] s) = false.
Proof.
  intros He. destruct s as [|c r]; [reflexivity|].
  apply collapse_ends; [discriminate | assumption].
Qed.

(* ================================================================== *)
(** * The fallback extraction *)
(* ================================================================== *)

Section ExtractorFacts.
Context {C : Cheerio}.


Lemma trySelectors_miss (context : option (list node))
  (pre rest : list jsstring) :
  (forall s, In s pre -> scopeFind context s = inr []) ->
  trySelectors context (pre ++ rest) = trySelectors context rest.
Proof.
  induction pre as [|s pre IH]; intros Hpre; simpl; trivial.
  rewrite (Hpre s) by now left. simpl. apply IH.
  intros s' Hs'. apply Hpre. now right.
Qed.


(** Nothing matches: the result is the empty selection. *)
Lemma extract_all_miss (s0 : jsstring) (selectors : list jsstring)
  (context : option (list node)) :
  (forall s, In s (s0 :: selectors) -> scopeFind context s = inr []) ->
  extractWithFallbackSelectors (s0 :: selectors) context = inr [].
Proof.
  intros Hall. unfold extractWithFallbackSelectors.
  replace (s0 :: selectors) with ((s0 :: selectors) ++ []) at 1
    by apply app_nil_r.
  rewrite trySelectors_miss by assumption. simpl.
  apply Hall. now left.
Qed.


End ExtractorFacts.


(* ================================================================== *)
(** * Text clean-up *)
(* ================================================================== *)

Section TextFacts.
Context {C : Cheerio}.

(** C2 (amended).  Every text extraction is [text().trim()]: its result has
    no leading and no trailing white space.  The content of an announcement
    is moreover passed through [replace(/\s+/g, ' ')]: it has no leading or
    trailing white space and no run of two white-space characters. *)
Theorem C2_text_is_trimmed_and_announcement_collapsed :
  (forall s : list node,
     startsWithWs (textTrim s) = false /\ endsWithWs (textTrim s) = false)
  /\ (forall element : list node,
        exists c,
          getOwn (announcementOf element) (str "content") = VStr c
          /\ startsWithWs c = false /\ endsWithWs c = false
          /\ hasWsRun c = false).
Proof.
  split.
  - intros s. split; [apply trim_starts | apply trim_ends].
  - intros element.
    exists (replaceWhitespace [cSpace] (textTrim element)).
    split; [reflexivity|]. repeat split.
    + apply collapse_starts, trim_starts.
    + apply collapse_ends', trim_ends.
    + apply collapse_no_run.
Qed.

End TextFacts.

(** The title of the fixture page, a text extraction of [scrapeMainPage],
    keeps the two spaces between its first words. *)
Lemma C2_counterexample :
  getOwn (@generalInfoOf (fixtureDom sportPageFx) [0] [])
         (str "title") = VStr (str "Juegos  Salesianos 2025")
  /\ hasWsRun (str "Juegos  Salesianos 2025") = true
  /\ ~ (forall (C : Cheerio) (s : list node),
          hasWsRun (textTrim s) = false).
Proof.
  split; [vm_compute; reflexivity|]. split; [vm_compute; reflexivity|].
  intros Hall.
  specialize (Hall (fixtureDom sportPageFx) [40]).
  vm_compute in Hall. discriminate.
Qed.

(* ================================================================== *)
(** * Loops and the removal of empty keys *)
(* ================================================================== *)

Section LoopFacts.
Context {C : Cheerio}.

Lemma eachFrom_collect {A} (f : nat -> list node -> list A -> list A)
  (p : nat -> list node -> bool) (g : nat -> list node -> A) :
  (forall i e acc, f i e acc = if p i e then push acc (g i e) else acc) ->
  forall s i acc, eachFrom i f s acc = acc ++ collectFrom i p g s.
Proof.
  intros Hf. induction s as [|n r IH]; intros i acc; simpl.
  - now rewrite app_nil_r.
  - rewrite IH, Hf. destruct (p i [n]); unfold push; simpl; trivial.
    now rewrite <- app_assoc.
Qed.

Lemma each_collect {A} (f : nat -> list node -> list A -> list A)
  (p : nat -> list node -> bool) (g : nat -> list node -> A) :
  (forall i e acc, f i e acc = if p i e then push acc (g i e) else acc) ->
  forall s, each s [] f = collectFrom 0 p g s.
Proof. intros Hf s. unfold each. now rewrite (eachFrom_collect f p g Hf). Qed.

Lemma in_collectFrom {A} (p : nat -> list node -> bool)
  (g : nat -> list node -> A) (s : list node) (i : nat) (x : A) :
  In x (collectFrom i p g s) <->
  exists j n, nth_error s j = Some n /\ p (i + j) [n] = true
              /\ x = g (i + j) [n].
Proof.
  revert i. induction s as [|m r IH]; intros i; simpl.
  - split; [tauto|]. intros [j [n [Hn _]]]. now destruct j.
  - rewrite in_app_iff, IH. split.
    + intros [Hx | [j [n [Hn [Hp Hg]]]]].
      * destruct (p i [m]) eqn:E; [|destruct Hx].
        destruct Hx as [<-|[]]. exists 0, m.
        rewrite Nat.add_0_r. now repeat split.
      * exists (S j), n. rewrite Nat.add_succ_r. now repeat split.
    + intros [[|j] [n [Hn [Hp Hg]]]].
      * simpl in Hn. injection Hn as ->. rewrite Nat.add_0_r in *.
        left. rewrite Hp. now left.
      * right. exists j, n. rewrite Nat.add_succ_r in *. now repeat split.
Qed.

End LoopFacts.

Section ObjectFacts.

Lemma getOwn_in (o : obj) (k : jsstring) (v : value) :
  NoDup (keys o) -> In (k, v) o -> getOwn o k = v.
Proof.
  induction o as [|[k' v'] o IH]; intros Hnd Hin; [destruct Hin|].
  simpl in *. inversion Hnd as [|? ? Hk Hnd']; subst.
  destruct Hin as [E|Hin].
  - injection E as -> ->. now rewrite eqStr_refl.
  - destruct (eqStr k' k) eqn:E.
    + apply eqStr_true in E. subst k'. exfalso. apply Hk.
      change k with (fst (k, v)). now apply in_map.
    + now apply IH.
Qed.

Lemma keys_filter_nodup (f : jsstring * value -> bool) (o : obj) :
  NoDup (keys o) -> NoDup (keys (filter f o)).
Proof.
  induction o as [|kv o IH]; simpl; intros Hnd; [constructor|].
  inversion Hnd as [|? ? Hk Hnd']; subst.
  destruct (f kv); simpl; [constructor|]; auto.
  intros Hin. apply Hk. unfold keys in *.
  apply in_map_iff in Hin. destruct Hin as [x [Hx Hin]].
  apply filter_In in Hin. apply in_map_iff. exists x. tauto.
Qed.

Lemma filter_filter {A} (f g : A -> bool) (l : list A) :
  filter f (filter g l) = filter (fun x => g x && f x) l.
Proof.
  induction l as [|a l IH]; simpl; trivial.
  destruct (g a); simpl; [destruct (f a)|]; now rewrite IH.
Qed.

Lemma deleteLoop_filter (isEmpty : value -> bool) (ks : list jsstring) :
  forall o, NoDup (keys o) ->
  fold_left
    (fun o' key => if isEmpty (getOwn o' key) then deleteKey o' key else o')
    ks o
  = filter (fun kv => negb (existsb (eqStr (fst kv)) ks
                            && isEmpty (snd kv))) o.
Proof.
  induction ks as [|k ks IH]; intros o Hnd; simpl.
  - induction o as [|kv o IHo]; simpl; trivial.
    f_equal. apply IHo. now inversion Hnd.
  - destruct (isEmpty (getOwn o k)) eqn:E.
    + rewrite IH by now apply keys_filter_nodup.
      unfold deleteKey. rewrite filter_filter.
      apply filter_ext_in. intros [k' v'] Hin. simpl.
      destruct (eqStr k' k) eqn:Ek; simpl; trivial.
      apply eqStr_true in Ek. subst k'.
      rewrite <- (@getOwn_in o _ _ Hnd Hin) at 1. now rewrite E.
    + rewrite IH by assumption.
      apply filter_ext_in. intros [k' v'] Hin. simpl.
      destruct (eqStr k' k) eqn:Ek; simpl; trivial.
      apply eqStr_true in Ek. subst k'.
      rewrite <- (@getOwn_in o _ _ Hnd Hin). rewrite E.
      now rewrite !andb_false_r.
Qed.

(** On an object, the clean-up loop keeps exactly the non-empty values. *)
Lemma deleteWhere_filter (isEmpty : value -> bool) (o : obj) :
  NoDup (keys o) ->
  deleteWhere isEmpty o = filter (fun kv => negb (isEmpty (snd kv))) o.
Proof.
  intros Hnd. unfold deleteWhere. rewrite deleteLoop_filter by assumption.
  apply filter_ext_in. intros [k v] Hin. simpl.
  replace (existsb (eqStr k) (keys o)) with true; trivial.
  symmetry. apply existsb_exists. exists k. split; [|apply eqStr_refl].
  change k with (fst (k, v)). now apply in_map.
Qed.

Lemma nodupb_sound (l : list jsstring) : nodupb l = true -> NoDup l.
Proof.
  induction l as [|x l IH]; simpl; intros Hb; [constructor|].
  apply andb_true_iff in Hb. destruct Hb as [Hx Hl].
  constructor; [|now apply IH].
  intros Hin. apply negb_true_iff in Hx.
  assert (existsb (eqStr x) l = true); [|congruence].
  apply existsb_exists. exists x. split; [assumption|apply eqStr_refl].
Qed.

Lemma deleteWhere_nonempty (isEmpty : value -> bool) (o : obj) :
  NoDup (keys o) ->
  Forall (fun kv => isEmpty (snd kv) = false) (deleteWhere isEmpty o).
Proof.
  intros Hnd. rewrite deleteWhere_filter by assumption.
  apply Forall_forall. intros kv Hin. apply filter_In in Hin.
  now apply negb_true_iff.
Qed.

End ObjectFacts.

Section ObjectFacts2.

Lemma VObj_inj (a b : obj) : VObj a = VObj b -> a = b.
Proof. intros E. now injection E. Qed.

Lemma getOwn_absent (o : obj) (k : jsstring) :
  ~ In k (keys o) -> getOwn o k = VUndefined.
Proof.
  induction o as [|[k' v'] o IH]; simpl; intros Hk; trivial.
  destruct (eqStr k' k) eqn:E.
  - apply eqStr_true in E. tauto.
  - apply IH. tauto.
Qed.

(** Reading a field after the clean-up is as truthy as reading it before,
    when the clean-up removes falsy values at least. *)
Lemma truthy_getOwn_filter (isEmpty : value -> bool) (o : obj)
  (k : jsstring) :
  (forall v, truthy v = false -> isEmpty v = true) ->
  (forall v, isEmpty v = true -> v = VArr [] \/ truthy v = false) ->
  NoDup (keys o) ->
  (forall l, getOwn o k <> VArr l) ->
  truthy (getOwn (filter (fun kv => negb (isEmpty (snd kv))) o) k)
  = truthy (getOwn o k).
Proof.
  intros Hfalsy Hempty. induction o as [|[k' v'] o IH]; intros Hnd Harr;
    trivial.
  inversion Hnd as [|? ? Hk Hnd']; subst. simpl in *.
  destruct (eqStr k' k) eqn:E.
  - apply eqStr_true in E. subst k'.
    destruct (isEmpty v') eqn:Ev; simpl.
    + rewrite getOwn_absent.
      * destruct (Hempty _ Ev) as [->|Ht]; [now elim (Harr [])|].
        now rewrite Ht.
      * intros Hin. apply Hk. unfold keys in *.
        apply in_map_iff in Hin. destruct Hin as [x [Hx Hin]].
        apply filter_In in Hin. apply in_map_iff. exists x. tauto.
    + now rewrite eqStr_refl.
  - destruct (isEmpty v') eqn:Ev; simpl; [|rewrite E]; now apply IH.
Qed.

End ObjectFacts2.

(* ================================================================== *)
(** * Normalisation and acceptance of records *)
(* ================================================================== *)

Section RecordFacts.
Context {C : Cheerio}.

Lemma matchOf_nodup (e : list node) : NoDup (keys (matchOf e)).
Proof. apply nodupb_sound. reflexivity. Qed.

Lemma newsItemOf_nodup (e : list node) : NoDup (keys (newsItemOf e)).
Proof. apply nodupb_sound. reflexivity. Qed.

Lemma cleanMatch_filter (e : list node) :
  cleanMatch (matchOf e)
  = filter (fun kv => negb (emptyMatchValue (snd kv))) (matchOf e).
Proof. apply deleteWhere_filter, matchOf_nodup. Qed.

Lemma cleanNews_filter (e : list node) :
  cleanNews (newsItemOf e)
  = filter (fun kv => negb (negb (truthy (snd kv)))) (newsItemOf e).
Proof.
  apply (deleteWhere_filter (fun v => negb (truthy v))), newsItemOf_nodup.
Qed.

Lemma cleanMatch_size (e : list node) :
  List.length (keys (cleanMatch (matchOf e))) = filledFields (matchOf e).
Proof.
  rewrite cleanMatch_filter. unfold keys, filledFields.
  now rewrite length_map.
Qed.

Lemma matchesOf_collect (doc : list node) :
  matchesOf doc
  = collectFrom 0 (fun _ e => keepsMatch e)
      (fun _ e => VObj (cleanMatch (matchOf e))) (find doc matchSelector).
Proof. unfold matchesOf. now apply each_collect. Qed.

Lemma newsOf_collect (doc : list node) :
  newsOf doc
  = collectFrom 0 (fun _ e => keepsNews e)
      (fun _ e => VObj (cleanNews (newsItemOf e))) (find doc newsSelector).
Proof. unfold newsOf. now apply each_collect. Qed.

Lemma teamsOf_collect (element : list node) :
  teamsOf element
  = collectFrom 0 (fun j e => negb (Nat.eqb j 0) && keepsTeam e)
      (fun _ e => VObj (teamOf e)) (find element (str "tr")).
Proof.
  unfold teamsOf. apply each_collect. intros i e acc.
  now destruct (Nat.eqb i 0).
Qed.

Lemma medalItemsOf_collect (element : list node) :
  medalItemsOf element
  = collectFrom 0 (fun _ e => keepsMedalItem e)
      (fun _ e => VObj (medalItemOf e)) (find element medalItemSelector).
Proof. unfold medalItemsOf. now apply each_collect. Qed.

Lemma keepsNews_fields (e : list node) :
  keepsNews e = filled (newsItemOf e) "title"
                || filled (newsItemOf e) "content".
Proof.
  unfold keepsNews, filled. rewrite cleanNews_filter.
  rewrite !(truthy_getOwn_filter (fun v => negb (truthy v))); trivial;
    try apply newsItemOf_nodup; try discriminate;
    try (intros v Hv; now rewrite Hv);
    try (intros v Hv; right; now apply negb_true_iff in Hv).
Qed.

End RecordFacts.

Section RecordTheorems.
Context {C : Cheerio}.

Lemma sportDataWith_buckets (doc : list node) (sportInfo : obj) :
  Forall (fun kv => isEmptyArray (snd kv) = false)
         (sportDataWith doc sportInfo).
Proof.
  unfold sportDataWith. apply deleteWhere_nonempty.
  apply nodupb_sound. reflexivity.
Qed.

Lemma emptyMatchValue_false (v : value) :
  emptyMatchValue v = false ->
  v <> VStr [] /\ v <> VArr [] /\ v <> VUndefined /\ v <> VNull.
Proof.
  intros Hv. repeat split; intros ->; discriminate Hv.
Qed.

(** C3 (amended).  The removal of empty keys is done for the match records
    and the news records of a sport page and for the buckets of its page
    result: in every record of [matches] no key maps to an empty string, an
    empty array, [undefined] or [null]; in every record of [news] every
    value is truthy; the page result has no bucket that is an empty
    array. *)
Theorem C3_cleanup_of_matches_news_and_buckets
  (doc : list node) (sportInfo : obj) :
  Forall (fun r => exists o, r = VObj o /\
            Forall (fun kv => snd kv <> VStr [] /\ snd kv <> VArr []
                              /\ snd kv <> VUndefined /\ snd kv <> VNull) o)
         (matchesOf doc)
  /\ Forall (fun r => exists o, r = VObj o /\
               Forall (fun kv => truthy (snd kv) = true) o)
            (newsOf doc)
  /\ Forall (fun kv => snd kv <> VArr []) (sportDataWith doc sportInfo).
Proof.
  repeat split.
  - apply Forall_forall. intros r Hr. rewrite matchesOf_collect in Hr.
    apply in_collectFrom in Hr. destruct Hr as [j [n [_ [_ ->]]]].
    eexists. split; [reflexivity|].
    eapply Forall_impl; [|apply deleteWhere_nonempty, matchOf_nodup].
    intros kv. apply emptyMatchValue_false.
  - apply Forall_forall. intros r Hr. rewrite newsOf_collect in Hr.
    apply in_collectFrom in Hr. destruct Hr as [j [n [_ [_ ->]]]].
    eexists. split; [reflexivity|].
    eapply Forall_impl;
      [|apply (deleteWhere_nonempty (fun v => negb (truthy v))),
          newsItemOf_nodup].
    intros kv Hkv. now apply negb_false_iff in Hkv.
  - eapply Forall_impl; [|apply sportDataWith_buckets].
    intros kv Hkv E. cbv beta in Hkv. rewrite E in Hkv. discriminate Hkv.
Qed.

(** C4 (amended).  A match candidate with a title is kept exactly when
    another of its fields is non-empty as well, and a match candidate with
    at most one non-empty field is discarded; a news candidate of a sport
    page is kept exactly when its title or its content is non-empty; a row
    of a standings block after the header row, and a medal item, is kept
    exactly when both its name and its position are non-empty. *)
Theorem C4_record_acceptance (doc element : list node) (n : node) :
  (In n (find doc matchSelector) ->
   filled (matchOf [n]) "title" = true ->
   (In (VObj (cleanMatch (matchOf [n]))) (matchesOf doc)
    <-> 2 <= filledFields (matchOf [n])))
  /\ (In n (find doc matchSelector) ->
      filledFields (matchOf [n]) <= 1 ->
      ~ In (VObj (cleanMatch (matchOf [n]))) (matchesOf doc))
  /\ (In n (find doc newsSelector) ->
      (In (VObj (cleanNews (newsItemOf [n]))) (newsOf doc)
       <-> filled (newsItemOf [n]) "title" = true
           \/ filled (newsItemOf [n]) "content" = true))
  /\ (forall j, nth_error (find element (str "tr")) (S j) = Some n ->
      (In (VObj (teamOf [n])) (teamsOf element)
       <-> filled (teamOf [n]) "name" = true
           /\ filled (teamOf [n]) "position" = true))
  /\ (In n (find element medalItemSelector) ->
      (In (VObj (medalItemOf [n])) (medalItemsOf element)
       <-> filled (medalItemOf [n]) "name" = true
           /\ filled (medalItemOf [n]) "position" = true)).
Proof.
  assert (Hm : In n (find doc matchSelector) ->
    (In (VObj (cleanMatch (matchOf [n]))) (matchesOf doc)
     <-> 2 <= filledFields (matchOf [n]))).
  { intros Hn. rewrite matchesOf_collect, in_collectFrom.
    rewrite <- cleanMatch_size. split.
    - intros [j [n' [_ [Hp Hx]]]]. apply VObj_inj in Hx.
      unfold keepsMatch in Hp. rewrite <- Hx in Hp.
      now apply Nat.ltb_lt in Hp.
    - intros H2. apply In_nth_error in Hn. destruct Hn as [j Hj].
      exists j, n. repeat split; trivial.
      unfold keepsMatch. now apply Nat.ltb_lt. }
  assert (Hn : In n (find doc newsSelector) ->
    (In (VObj (cleanNews (newsItemOf [n]))) (newsOf doc)
     <-> filled (newsItemOf [n]) "title" = true
         \/ filled (newsItemOf [n]) "content" = true)).
  { intros Hn. rewrite newsOf_collect, in_collectFrom.
    rewrite <- orb_true_iff, <- keepsNews_fields. split.
    - intros [j [n' [_ [Hp Hx]]]]. apply VObj_inj in Hx.
      unfold keepsNews in *. now rewrite Hx.
    - intros Hk. apply In_nth_error in Hn. destruct Hn as [j Hj].
      now exists j, n. }
  assert (Ht : forall j, nth_error (find element (str "tr")) (S j) = Some n ->
    (In (VObj (teamOf [n])) (teamsOf element)
     <-> filled (teamOf [n]) "name" = true
         /\ filled (teamOf [n]) "position" = true)).
  { intros j Hj. rewrite teamsOf_collect, in_collectFrom.
    rewrite <- andb_true_iff. fold (keepsTeam [n]). split.
    - intros [j' [n' [_ [Hp Hx]]]]. apply VObj_inj in Hx.
      apply andb_true_iff in Hp. destruct Hp as [_ Hp].
      unfold keepsTeam in *. now rewrite Hx.
    - intros Hk. exists (S j), n. repeat split; trivial. }
  assert (Hd : In n (find element medalItemSelector) ->
    (In (VObj (medalItemOf [n])) (medalItemsOf element)
     <-> filled (medalItemOf [n]) "name" = true
         /\ filled (medalItemOf [n]) "position" = true)).
  { intros Hi. rewrite medalItemsOf_collect, in_collectFrom.
    rewrite <- andb_true_iff. fold (keepsMedalItem [n]). split.
    - intros [j' [n' [_ [Hp Hx]]]]. apply VObj_inj in Hx.
      unfold keepsMedalItem in *. now rewrite Hx.
    - intros Hk. apply In_nth_error in Hi. destruct Hi as [j Hj].
      now exists j, n. }
  split; [intros Hi _; now apply Hm|].
  split; [intros Hi Hle Hin; apply Hm in Hin; trivial; lia|].
  split; [exact Hn|]. split; [exact Ht|exact Hd].
Qed.

End RecordTheorems.

(** On the fixture the row "1, Don Bosco" of the standings block is kept
    with its empty [played], [won], [drawn] and [lost] keys, inside a block
    whose [category] is empty as well; the event of the schedule is kept
    with its empty [date]; the main-page result keeps its empty
    [announcements] bucket.  All of them are persisted as they are. *)
Lemma C3_counterexample :
  (exists standing team,
     @standingsOf (fixtureDom sportPageFx) [0] = [VObj standing]
     /\ getOwn standing (str "category") = VStr []
     /\ getOwn standing (str "teams") = VArr [VObj team]
     /\ In (str "played", VStr []) team)
  /\ (exists item,
        @scheduleItemsOf (fixtureDom sportPageFx) [0] = [VObj item]
        /\ In (str "date", VStr []) item)
  /\ getOwn (@mainPageDataOf (fixtureDom sportPageFx) futbolDownHost [0] [])
            (str "announcements") = VArr [].
Proof.
  split; [|split].
  - do 2 eexists. split; [vm_compute; reflexivity|].
    split; [vm_compute; reflexivity|].
    split; [vm_compute; reflexivity|].
    right. right. left. reflexivity.
  - eexists. split; [vm_compute; reflexivity|].
    right. left. reflexivity.
  - vm_compute. reflexivity.
Qed.

(** On the fixture the first match candidate has the title "Final" and no
    other field: its identity field is non-empty and it is discarded. *)
Lemma C4_counterexample :
  In 20 (@find (fixtureDom sportPageFx) [0] matchSelector)
  /\ getOwn (@matchOf (fixtureDom sportPageFx) [20]) (str "title")
     = VStr (str "Final")
  /\ ~ In (VObj (@cleanMatch (@matchOf (fixtureDom sportPageFx) [20])))
          (@matchesOf (fixtureDom sportPageFx) [0]).
Proof.
  split; [vm_compute; tauto|]. split; [vm_compute; reflexivity|].
  intros Hin. vm_compute in Hin. destruct Hin as [E|[]]. discriminate E.
Qed.

(** On the fixture: the match that has a title only is discarded, and the
    standings row with a position and a name is kept. *)
Lemma C4_witness :
  (In 20 (@find (fixtureDom sportPageFx) [0] matchSelector)
   /\ filled (@matchOf (fixtureDom sportPageFx) [20]) "title" = true
   /\ ~ In (VObj (@cleanMatch (@matchOf (fixtureDom sportPageFx) [20])))
           (@matchesOf (fixtureDom sportPageFx) [0]))
  /\ (nth_error (@find (fixtureDom sportPageFx) [30] (str "tr")) 1 = Some 32
      /\ In (VObj (@teamOf (fixtureDom sportPageFx) [32]))
            (@teamsOf (fixtureDom sportPageFx) [30])).
Proof.
  pose proof (@C4_record_acceptance (fixtureDom sportPageFx) [0] [30] 20)
    as (Hm & _).
  pose proof (@C4_record_acceptance (fixtureDom sportPageFx) [0] [30] 32)
    as (_ & _ & _ & Ht & _).
  assert (Hin : In 20 (@find (fixtureDom sportPageFx) [0] matchSelector))
    by (vm_compute; tauto).
  assert (Hf : filled (@matchOf (fixtureDom sportPageFx) [20]) "title" = true)
    by reflexivity.
  assert (Hr : nth_error (@find (fixtureDom sportPageFx) [30] (str "tr")) 1
               = Some 32) by reflexivity.
  split.
  - split; [exact Hin|]. split; [exact Hf|].
    intros Hk. apply (Hm Hin Hf) in Hk. vm_compute in Hk. lia.
  - split; [exact Hr|]. apply (Ht 0 Hr). split; reflexivity.
Defined.

(* ================================================================== *)
(** * The title of a results table *)
(* ================================================================== *)

Section TitleFacts.
Context {C : Cheerio}.

Lemma orStr_nil_r (a : jsstring) : orStr a [] = a.
Proof. now destruct a. Qed.

Lemma orStr_nonempty (a b : jsstring) : b <> [] -> orStr a b <> [].
Proof. destruct a; simpl; [tauto|discriminate]. Qed.

(** C9 (amended).  In the enhanced scraper the title of a table starts from
    the first non-empty of: the text of the preceding heading sibling, the
    text of the nested caption, the label "Resultados N" (N the 1-based
    index).  The category (the text of a preceding category sibling, else
    the heading of the enclosing category block) is not a candidate of that
    search: when it is non-empty and not contained in that title it is put
    in front of it, separated by " - ".  The title is never empty.  In the
    minimal scraper the title is the preceding heading's text, else
    "Table N". *)
Theorem C9_table_title (table : list node) (i : nat) :
  let heading := textTrim (prev table (str "h2, h3, h4")) in
  let caption := textTrim (find table (str "caption")) in
  let base :=
    firstNonEmpty [heading; caption;
                   str "Resultados " ++ natToString (i + 1)] in
  let category :=
    firstNonEmpty
      [textTrim (prev table (str ".category, .group, .division"));
       textTrim (first (find
         (closest table (str ".category-container, .group-container"))
         (str "h3, h4, .title")))] in
  tableTitle table i
    = (if nonEmpty category && negb (includes base category)
       then category ++ str " - " ++ base else base)
  /\ base <> []
  /\ tableTitle table i <> []
  /\ Minimal.tableTitle table i
     = firstNonEmpty [heading; str "Table " ++ natToString (i + 1)].
Proof.
  intros heading caption base category.
  assert (Hb : base <> []).
  { unfold base. cbn [firstNonEmpty]. rewrite orStr_nil_r.
    apply orStr_nonempty, orStr_nonempty. discriminate. }
  assert (Ht : tableTitle table i
    = (if nonEmpty category && negb (includes base category)
       then category ++ str " - " ++ base else base)).
  { unfold tableTitle, base, category. cbn [firstNonEmpty].
    now rewrite !orStr_nil_r. }
  repeat split; trivial.
  rewrite Ht.
  destruct (nonEmpty category && negb (includes base category)) eqn:E;
    trivial.
  apply andb_true_iff in E. destruct E as [E _].
  destruct category; [discriminate E | discriminate].
Qed.

End TitleFacts.

(** The table of the fixture has no preceding heading and no caption and
    lies in the category block "Grupo A": the specification's order makes
    its title "Grupo A"; the enhanced scraper titles it
    "Grupo A - Resultados 1" and the minimal one "Table 1". *)
Lemma C9_counterexample :
  @textTrim (fixtureDom sportPageFx)
     (@prev (fixtureDom sportPageFx) [10] (str "h2, h3, h4")) = []
  /\ @textTrim (fixtureDom sportPageFx)
       (@find (fixtureDom sportPageFx) [10] (str "caption")) = []
  /\ @findFirstText (fixtureDom sportPageFx)
       (@closest (fixtureDom sportPageFx) [10]
          (str ".category-container, .group-container"))
       "h3, h4, .title" = str "Grupo A"
  /\ specTableTitle [] [] (str "Grupo A") 0 = str "Grupo A"
  /\ @tableTitle (fixtureDom sportPageFx) [10] 0
     = str "Grupo A - Resultados 1"
  /\ @Minimal.tableTitle (fixtureDom sportPageFx) [10] 0 = str "Table 1"
  /\ @tableTitle (fixtureDom sportPageFx) [10] 0
     <> specTableTitle [] [] (str "Grupo A") 0
  /\ @Minimal.tableTitle (fixtureDom sportPageFx) [10] 0
     <> specTableTitle [] [] (str "Grupo A") 0.
Proof.
  repeat split; try (vm_compute; reflexivity); vm_compute; discriminate.
Qed.

(* ================================================================== *)
(** * Navigation links *)
(* ================================================================== *)

Section LinkFacts.
Context {C : Cheerio} {H : Host}.

Lemma eachFrom_invariant {A} (P : A -> Prop)
  (f : nat -> list node -> A -> A) :
  (forall i e acc, P acc -> P (f i e acc)) ->
  forall s i acc, P acc -> P (eachFrom i f s acc).
Proof.
  intros Hf. induction s as [|n r IH]; intros i acc Hacc; simpl; auto.
Qed.

Lemma NoDup_snoc {A} (l : list A) (x : A) :
  NoDup l -> ~ In x l -> NoDup (l ++ [x]).
Proof.
  induction l as [|a l IH]; simpl; intros Hnd Hx.
  - constructor; [tauto|constructor].
  - inversion Hnd as [|? ? Ha Hl]; subst. constructor.
    + rewrite in_app_iff. simpl. intros [Hi|[Hi|[]]]; [tauto|].
      apply Hx. now left.
    + apply IH; tauto.
Qed.

Lemma addLink_ok (links : list obj) (link : obj) (t u : jsstring) :
  getOwn link (str "text") = VStr t ->
  getOwn link (str "url") = VStr u ->
  linksOk links -> linksOk (addLink links link).
Proof.
  intros Ht Hu [Hnd Hall]. unfold addLink. rewrite Ht, Hu.
  destruct t as [|t0 t']; [now split|].
  destruct u as [|u0 u']; [now split|].
  cbn [truthy andb].
  destruct (existsb (fun l => sameUrl l link) links) eqn:Ex; cbn [negb];
    [now split|].
  unfold push. split.
  - rewrite map_app. simpl. apply NoDup_snoc; trivial.
    rewrite Hu. intros Hin. apply in_map_iff in Hin.
    destruct Hin as [l [Hl Hin]].
    assert (Hs : sameUrl l link = true).
    { unfold sameUrl. rewrite Hl, Hu. apply eqStr_refl. }
    assert (existsb (fun l => sameUrl l link) links = true); [|congruence].
    apply existsb_exists. now exists l.
  - apply Forall_app. split; trivial. constructor; [|constructor].
    exists (t0 :: t'), (u0 :: u'). repeat split; trivial; discriminate.
Qed.

Lemma navigationLinksOf_ok (doc : list node) :
  linksOk (navigationLinksOf doc).
Proof.
  unfold navigationLinksOf, each. apply eachFrom_invariant.
  - intros i e acc. now apply addLink_ok with (t := textTrim e)
      (u := attrOrEmpty e (str "href")).
  - split; constructor.
Qed.

Lemma minimal_navigationLinksOf_ok (doc : list node) :
  linksOk (Minimal.navigationLinksOf doc).
Proof.
  unfold Minimal.navigationLinksOf, each. apply eachFrom_invariant.
  - intros i e acc. now apply addLink_ok with (t := textTrim e)
      (u := attrOrEmpty e (str "href")).
  - split; constructor.
Qed.

Lemma linksOk_filled (links : list obj) :
  linksOk links ->
  Forall (fun l => filled l "text" = true /\ filled l "url" = true) links.
Proof.
  intros [_ Hall]. eapply Forall_impl; [|exact Hall].
  intros l [t [u [Ht [Hne [Hu Hnu]]]]]. unfold filled.
  rewrite Ht, Hu. destruct t, u; simpl; tauto.
Qed.

(** C10.  The navigation links of a main-page result, in the enhanced and
    in the minimal scraper, have pairwise different urls and a non-empty
    text and url each; a turn of the loop appends the link exactly when its
    text and its url are non-empty and no collected link has an equal
    url, and leaves the collection as it is otherwise. *)
Theorem C10_navigation_links_unique (doc : list node) :
  NoDup (map (fun l => getOwn l (str "url")) (navigationLinksOf doc))
  /\ Forall (fun l => filled l "text" = true /\ filled l "url" = true)
            (navigationLinksOf doc)
  /\ NoDup (map (fun l => getOwn l (str "url"))
                (Minimal.navigationLinksOf doc))
  /\ Forall (fun l => filled l "text" = true /\ filled l "url" = true)
            (Minimal.navigationLinksOf doc)
  /\ forall links link,
       addLink links link
       = if filled link "text" && filled link "url"
            && negb (existsb (fun l => sameUrl l link) links)
         then links ++ [link] else links.
Proof.
  pose proof (navigationLinksOf_ok doc) as He.
  pose proof (minimal_navigationLinksOf_ok doc) as Hm.
  split; [apply He|]. split; [now apply linksOk_filled|].
  split; [apply Hm|]. split; [now apply linksOk_filled|].
  reflexivity.
Qed.

End LinkFacts.

(* ================================================================== *)
(** * The fetcher *)
(* ================================================================== *)

Section FetchFacts.
Context {H : Host}.

(** The definition read as the source is written: a rejected attempt is
    thrown again when [retries <= 0] and retried with [retries - 1] after
    the delay otherwise. *)
Lemma fetchWithRetry_unfold (url : jsstring) (retries : Z) (w : world) :
  fetchWithRetry url retries w
  = let (r, w1) := httpGet url w in
    match r with
    | inr response => (inr response, w1)
    | inl error =>
        if (retries <=? 0)%Z then (inl error, w1)
        else fetchWithRetry url (retries - 1)
               (snd (delay CONFIG.retryDelay w1))
    end.
Proof.
  unfold fetchWithRetry.
  destruct (retries <=? 0)%Z eqn:E.
  - apply Z.leb_le in E. replace (Z.to_nat retries) with 0 by lia.
    cbn [fetchLoop]. unfold bind at 1.
    destruct (httpGet url w) as [[e|b] w1]; reflexivity.
  - apply Z.leb_gt in E.
    replace (Z.to_nat retries) with (S (Z.to_nat (retries - 1))) by lia.
    cbn [fetchLoop]. unfold bind at 1.
    destruct (httpGet url w) as [[e|b] w1]; reflexivity.
Qed.

Lemma attempts_snoc_get (url : jsstring) (w : world) :
  attempts url (snd (httpGet url w)) = S (attempts url w).
Proof.
  unfold attempts, httpGet. simpl. rewrite filter_app, length_app. simpl.
  rewrite eqStr_refl. simpl. lia.
Qed.

Lemma attemptTrace_gets (url : jsstring) (k : nat) :
  List.length (filter (isGet url) (attemptTrace url k)) = k.
Proof.
  induction k as [|k IH]; trivial.
  destruct k as [|k].
  - simpl. now rewrite eqStr_refl.
  - change (attemptTrace url (S (S k)))
      with (EvGet url :: EvDelay CONFIG.retryDelay :: attemptTrace url (S k)).
    cbn [filter isGet]. rewrite eqStr_refl. cbn [List.length]. now rewrite IH.
Qed.

(** Every event of the trace is a GET of [url] or the fixed retry delay. *)
Lemma attemptTrace_shape (url : jsstring) (k : nat) :
  Forall (fun e => e = EvGet url \/ e = EvDelay CONFIG.retryDelay)
         (attemptTrace url k).
Proof.
  induction k as [|k IH]; [constructor|].
  destruct k as [|k].
  - repeat constructor.
  - change (attemptTrace url (S (S k)))
      with (EvGet url :: EvDelay CONFIG.retryDelay :: attemptTrace url (S k)).
    constructor; [now left|]. constructor; [now right|exact IH].
Qed.

Lemma fetchLoop_retry (url : jsstring) (n : nat) (w w1 : world)
  (e : jsError) :
  httpGet url w = (inl e, w1) ->
  fetchLoop url (S n) w
  = fetchLoop url n
      {| fsOps := fsOps w1;
         events := events w1 ++ [EvDelay CONFIG.retryDelay] |}.
Proof. intros E. cbn [fetchLoop]. unfold bind at 1. now rewrite E. Qed.

Lemma fetchLoop_done (url : jsstring) (n : nat) (w w1 : world)
  (b : jsstring) :
  httpGet url w = (inr b, w1) -> fetchLoop url n w = (inr b, w1).
Proof.
  intros E. destruct n; cbn [fetchLoop]; unfold bind at 1; now rewrite E.
Qed.

Lemma fetchLoop_spec (url : jsstring) (n : nat) :
  forall w,
  exists k,
    1 <= k <= 1 + n
    /\ events (snd (fetchLoop url n w)) = events w ++ attemptTrace url k
    /\ fsOps (snd (fetchLoop url n w)) = fsOps w
    /\ (forall j, j < k - 1 ->
          exists e, net url (attempts url w + j) = inl e)
    /\ match fst (fetchLoop url n w) with
       | inr body => net url (attempts url w + (k - 1)) = inr body
       | inl error =>
           k = 1 + n /\ net url (attempts url w + n) = inl error
       end.
Proof.
  induction n as [|n IH]; intros w.
  - exists 1. cbn [fetchLoop]. unfold bind, httpGet, ret.
    rewrite Nat.add_0_r.
    destruct (net url (attempts url w)) as [e|b] eqn:E;
      cbn [fst snd events fsOps];
      (split; [lia|]); (split; [reflexivity|]); (split; [reflexivity|]);
      (split; [intros j Hj; simpl in Hj; lia|]);
      simpl; rewrite ?Nat.add_0_r; auto.
  - destruct (httpGet url w) as [r w1] eqn:Eg.
    assert (Hr : r = net url (attempts url w)) by
      (unfold httpGet in Eg; now injection Eg).
    assert (Hw1 : w1 = snd (httpGet url w)) by now rewrite Eg.
    destruct r as [e|b].
    + rewrite (fetchLoop_retry n Eg).
      set (w2 := {| fsOps := fsOps w1; events := events w1 ++
                      [EvDelay CONFIG.retryDelay] |}).
      destruct (IH w2) as [k [Hk [Hev [Hfs [Hfail Hres]]]]].
      assert (Ha : attempts url w2 = S (attempts url w)).
      { unfold attempts, w2. simpl. rewrite filter_app, length_app. simpl.
        rewrite Nat.add_0_r. fold (attempts url w1). rewrite Hw1.
        apply attempts_snoc_get. }
      exists (S k). split; [lia|]. split; [|split; [|split]].
      * rewrite Hev. unfold w2. simpl. rewrite Hw1. unfold httpGet. simpl.
        rewrite <- !app_assoc. f_equal.
        destruct k as [|k]; [lia|]. reflexivity.
      * rewrite Hfs. unfold w2. simpl. rewrite Hw1. reflexivity.
      * intros j Hj. destruct j as [|j].
        -- exists e. now rewrite Nat.add_0_r.
        -- destruct (Hfail j) as [e' He']; [lia|]. exists e'.
           rewrite Ha in He'. now rewrite Nat.add_succ_r.
      * rewrite Ha in Hres.
        destruct (fst (fetchLoop url n w2)) as [e'|b'].
        -- destruct Hres as [-> Hn]. split; [lia|].
           now rewrite Nat.add_succ_r.
        -- replace (S k - 1) with (S (k - 1)) by lia.
           now rewrite Nat.add_succ_r.
    + rewrite (fetchLoop_done (S n) Eg).
      exists 1. cbn [fst snd]. rewrite Nat.add_0_r.
      rewrite Hw1. unfold httpGet. cbn [fst snd events fsOps].
      split; [lia|]. split; [reflexivity|]. split; [reflexivity|].
      split; [intros j Hj; simpl in Hj; lia|].
      simpl. rewrite ?Nat.add_0_r. now symmetry.
Qed.

(** C6.  [fetchWithRetry] issues its attempts one after the other with the
    same delay of [CONFIG.retryDelay] between two of them, the first
    success ends it, and when the first attempt and every retry of the
    budget fail it rejects with the error of the last attempt.  The number
    of attempts is at least 1 and at most 1 plus the retry budget, which is
    3 by default; the delay is 2000 ms. *)
Theorem C6_fetchWithRetry_bounded_fixed_delay
  (url : jsstring) (retries : Z) (w : world) :
  exists k,
    1 <= k
    /\ (Z.of_nat k <= 1 + Z.max 0 retries)%Z
    /\ events (snd (fetchWithRetry url retries w))
       = events w ++ attemptTrace url k
    /\ attempts url (snd (fetchWithRetry url retries w))
       = attempts url w + k
    /\ Forall (fun e => e = EvGet url \/ e = EvDelay CONFIG.retryDelay)
              (attemptTrace url k)
    /\ (forall j, j < k - 1 ->
          exists e, net url (attempts url w + j) = inl e)
    /\ match fst (fetchWithRetry url retries w) with
       | inr body => net url (attempts url w + (k - 1)) = inr body
       | inl error =>
           Z.of_nat k = (1 + Z.max 0 retries)%Z
           /\ net url (attempts url w + (k - 1)) = inl error
       end
    /\ CONFIG.maxRetries = 3%Z /\ CONFIG.retryDelay = 2000%N.
Proof.
  unfold fetchWithRetry.
  destruct (fetchLoop_spec url (Z.to_nat retries) w)
    as [k [Hk [Hev [Hfs [Hfail Hres]]]]].
  exists k. split; [lia|]. split; [lia|]. split; [exact Hev|].
  split.
  { unfold attempts. rewrite Hev, filter_app, length_app.
    now rewrite attemptTrace_gets. }
  split; [apply attemptTrace_shape|]. split; [exact Hfail|].
  split; [|split; reflexivity].
  destruct (fst (fetchLoop url (Z.to_nat retries) w)) as [e|b]; trivial.
  destruct Hres as [-> Hn]. split; [lia|].
  now replace (1 + Z.to_nat retries - 1) with (Z.to_nat retries) by lia.
Qed.

End FetchFacts.

(* ================================================================== *)
(** * The run: what it adds to the history *)
(* ================================================================== *)

Section GrowFacts.
Context {H : Host}.

Lemma bind_eq {A B} (m : M A) (k : A -> M B) (w : world) :
  bind m k w = k (fst (m w)) (snd (m w)).
Proof. unfold bind. now destruct (m w). Qed.


















End GrowFacts.

(* ================================================================== *)
(** * Failure of one sport page *)
(* ================================================================== *)

Section ObjectFacts3.




End ObjectFacts3.

Section FailureFacts.
Context {C : Cheerio} {H : Host}.







End FailureFacts.

Section RunFacts.
Context {C : Cheerio} {H : Host}.








Lemma ensureDirectoryExists_ok (d : jsstring) (w : world) :
  fsError (fsOps w) = None ->
  ensureDirectoryExists d w
  = (inr tt, {| fsOps := S (fsOps w); events := events w ++ [EvMkdir d] |}).
Proof.
  intros Hok. unfold ensureDirectoryExists. rewrite bind_eq.
  unfold fsOp. cbn [fst snd]. now rewrite Hok.
Qed.

Lemma appendLog_ok (t : jsstring) (w : world) :
  fsError (fsOps w) = None ->
  appendLog t w
  = (inr tt, {| fsOps := S (fsOps w);
                events := events w ++ [EvAppend logFile (CText t)] |}).
Proof.
  intros Hok. unfold appendLog. rewrite bind_eq.
  unfold fsOp. cbn [fst snd]. now rewrite Hok.
Qed.



End RunFacts.


(* ================================================================== *)
(** * HTML cells *)
(* ================================================================== *)

Section HtmlFacts.
Variable JSON_stringify : value -> jsstring.

Lemma flat_map_flat_map {A B D} (f : A -> list B) (g : B -> list D)
  (l : list A) :
  flat_map g (flat_map f l) = flat_map (fun x => flat_map g (f x)) l.
Proof.
  induction l as [|a l IH]; simpl; trivial.
  now rewrite flat_map_app, IH.
Qed.

Lemma replaceChar_one (c x : N) (by_ : jsstring) :
  replaceChar c by_ [x] = if N.eqb x c then by_ else [x].
Proof. unfold replaceChar. simpl. now rewrite app_nil_r. Qed.

(** The five replacements in sequence are one pass of [escapeChar]. *)
Lemma escape_passes (s : jsstring) :
  replaceChar cApos (str "&#039;")
    (replaceChar cQuote (str "&quot;")
      (replaceChar cGt (str "&gt;")
        (replaceChar cLt (str "&lt;")
          (replaceChar cAmp (str "&amp;") s))))
  = flat_map escapeChar s.
Proof.
  unfold replaceChar. rewrite !flat_map_flat_map.
  apply flat_map_ext. intros x. unfold escapeChar.
  destruct (N.eqb_spec x cAmp) as [->|Ha]; [reflexivity|].
  destruct (N.eqb_spec x cLt) as [->|Hl]; [reflexivity|].
  destruct (N.eqb_spec x cGt) as [->|Hg]; [reflexivity|].
  destruct (N.eqb_spec x cQuote) as [->|Hq]; [reflexivity|].
  destruct (N.eqb_spec x cApos) as [->|Hp]; [reflexivity|].
  apply N.eqb_neq in Ha, Hl, Hg, Hq, Hp.
  cbn [flat_map app]. rewrite Hl. cbn [flat_map app]. rewrite Hg.
  cbn [flat_map app]. rewrite Hq. cbn [flat_map app]. now rewrite Hp.
Qed.

Lemma formatHTMLValue_escape (v : value) :
  formatHTMLValue JSON_stringify v
  = flat_map escapeChar (cellString JSON_stringify v).
Proof. destruct v; try reflexivity; apply escape_passes. Qed.

Lemma escapeChar_no_markup (c : N) : hasMarkupChar (escapeChar c) = false.
Proof.
  unfold escapeChar.
  destruct (N.eqb_spec c cAmp) as [->|Ha]; [reflexivity|].
  destruct (N.eqb_spec c cLt) as [->|Hl]; [reflexivity|].
  destruct (N.eqb_spec c cGt) as [->|Hg]; [reflexivity|].
  destruct (N.eqb_spec c cQuote) as [->|Hq]; [reflexivity|].
  destruct (N.eqb_spec c cApos) as [->|Hp]; [reflexivity|].
  apply N.eqb_neq in Hl, Hg, Hq, Hp.
  unfold hasMarkupChar. simpl. now rewrite Hl, Hg, Hq, Hp.
Qed.

Lemma escaped_no_markup (s : jsstring) :
  hasMarkupChar (flat_map escapeChar s) = false.
Proof.
  induction s as [|c s IH]; trivial. cbn [flat_map].
  pose proof (escapeChar_no_markup c) as Hc.
  unfold hasMarkupChar in *. now rewrite existsb_app, IH, Hc.
Qed.

Lemma escaped_renders (s : jsstring) :
  renderedText 0 (flat_map escapeChar s) = s.
Proof.
  induction s as [|c s IH]; trivial.
  cbn [flat_map]. unfold escapeChar at 1.
  destruct (N.eqb_spec c cAmp) as [->|Ha]; [cbn; now rewrite IH|].
  destruct (N.eqb_spec c cLt) as [->|Hl]; [cbn; now rewrite IH|].
  destruct (N.eqb_spec c cGt) as [->|Hg]; [cbn; now rewrite IH|].
  destruct (N.eqb_spec c cQuote) as [->|Hq]; [cbn; now rewrite IH|].
  destruct (N.eqb_spec c cApos) as [->|Hp]; [cbn; now rewrite IH|].
  apply N.eqb_neq in Ha. cbn [app renderedText]. now rewrite Ha, IH.
Qed.

(** C8.  [formatHTMLValue] replaces every [&], [<], [>], double quote and
    single quote of a cell by its entity and nothing else: no such markup
    character is left in the rendered cell, a browser shows the cell's text
    again, [<b>x</b>] is written [&lt;b&gt;x&lt;/b&gt;], and every cell of
    every row of [convertToHTMLTable] goes through it inside its [<td>]. *)
Theorem C8_html_cells_are_escaped (v : value) :
  formatHTMLValue JSON_stringify v
  = flat_map escapeChar (cellString JSON_stringify v)
  /\ hasMarkupChar (formatHTMLValue JSON_stringify v) = false
  /\ renderedText 0 (formatHTMLValue JSON_stringify v)
     = cellString JSON_stringify v
  /\ formatHTMLValue JSON_stringify (VStr (str "<b>x</b>"))
     = str "&lt;b&gt;x&lt;/b&gt;"
  /\ (forall headers cells,
        htmlCells JSON_stringify headers (VArr cells)
        = Some (List.concat
                  (map (fun cell => str "<td>"
                          ++ formatHTMLValue JSON_stringify cell
                          ++ str "</td>") cells)))
  /\ (forall h o,
        htmlCells JSON_stringify (Some h) (VObj o)
        = Some (List.concat
                  (map (fun key => str "<td>"
                          ++ formatHTMLValue JSON_stringify (getOwn o key)
                          ++ str "</td>") h)))
  /\ convertToHTMLTable JSON_stringify
       (VArr [VArr [VStr (str "<b>x</b>")]]) (str "T") None
     = Some (tableOpening (str "T")
             ++ str "<tbody><tr><td>&lt;b&gt;x&lt;/b&gt;</td></tr>"
             ++ str "</tbody></table></div>").
Proof.
  split; [apply formatHTMLValue_escape|].
  split; [rewrite formatHTMLValue_escape; apply escaped_no_markup|].
  split; [rewrite formatHTMLValue_escape; apply escaped_renders|].
  split; [vm_compute; reflexivity|].
  split; [reflexivity|]. split; [reflexivity|].
  vm_compute. reflexivity.
Qed.

End HtmlFacts.

(* ================================================================== *)
(** * CSV cells *)
(* ================================================================== *)

Section CsvFacts.
Variable JSON_stringify : value -> jsstring.

Lemma includes_one (s : jsstring) (c : N) :
  includes s [c] = existsb (fun x => N.eqb x c) s.
Proof.
  induction s as [|a s IH]; trivial.
  cbn [includes startsWith existsb]. rewrite IH, andb_true_r.
  now rewrite N.eqb_sym.
Qed.

Lemma needsQuoting_includes (s : jsstring) :
  includes s [cComma] || includes s [cQuote] || includes s [cLF]
  = needsQuoting s.
Proof.
  rewrite !includes_one. unfold needsQuoting.
  induction s as [|a s IH]; trivial. cbn [existsb]. rewrite <- IH.
  destruct (N.eqb a cComma), (N.eqb a cQuote), (N.eqb a cLF); simpl;
    rewrite ?orb_true_r; trivial.
Qed.

Lemma formatCSVValue_text (v : value) :
  formatCSVValue JSON_stringify v
  = let s := cellString JSON_stringify v in
    if needsQuoting s
    then cQuote :: replaceChar cQuote [cQuote; cQuote] s ++ [cQuote]
    else s.
Proof.
  destruct v; try reflexivity; unfold formatCSVValue;
    now rewrite needsQuoting_includes.
Qed.

Lemma read_plain (s : jsstring) (d : N) :
  needsQuoting s = false -> d = cComma \/ d = cLF ->
  forall cur fields rest,
    readCSVRecord Unquoted cur fields (s ++ d :: rest)
    = endField d (cur ++ s) fields rest.
Proof.
  intros Hs Hd. induction s as [|c s IH]; intros cur fields rest.
  - rewrite app_nil_r. unfold endField.
    destruct Hd as [-> | ->]; reflexivity.
  - unfold needsQuoting in Hs. cbn [existsb] in Hs.
    apply orb_false_iff in Hs. destruct Hs as [Hc Hs].
    apply orb_false_iff in Hc. destruct Hc as [Hc Hl].
    apply orb_false_iff in Hc. destruct Hc as [Hc Hq].
    cbn [app readCSVRecord]. rewrite Hc, Hl, IH by exact Hs.
    now rewrite <- app_assoc.
Qed.

Lemma read_plain_start (s : jsstring) (d : N) :
  needsQuoting s = false -> d = cComma \/ d = cLF ->
  forall fields rest,
    readCSVRecord FieldStart [] fields (s ++ d :: rest)
    = endField d s fields rest.
Proof.
  intros Hs Hd fields rest. destruct s as [|c s].
  - unfold endField. destruct Hd as [-> | ->]; reflexivity.
  - assert (Hs' := Hs). unfold needsQuoting in Hs. cbn [existsb] in Hs.
    apply orb_false_iff in Hs. destruct Hs as [Hc Hs].
    apply orb_false_iff in Hc. destruct Hc as [Hc Hl].
    apply orb_false_iff in Hc. destruct Hc as [Hc Hq].
    cbn [app readCSVRecord]. rewrite Hq, Hc, Hl.
    now rewrite read_plain.
Qed.

Lemma read_quoted (s : jsstring) (d : N) :
  d = cComma \/ d = cLF ->
  forall cur fields rest,
    readCSVRecord Quoted cur fields
      (replaceChar cQuote [cQuote; cQuote] s ++ cQuote :: d :: rest)
    = endField d (cur ++ s) fields rest.
Proof.
  intros Hd. induction s as [|c s IH]; intros cur fields rest.
  - rewrite app_nil_r. unfold endField.
    destruct Hd as [-> | ->]; reflexivity.
  - unfold replaceChar. cbn [flat_map].
    fold (replaceChar cQuote [cQuote; cQuote] s).
    destruct (N.eqb_spec c cQuote) as [->|Hc].
    + cbn [app readCSVRecord]. change (N.eqb cQuote cQuote) with true.
      cbv iota. rewrite IH. now rewrite <- app_assoc.
    + apply N.eqb_neq in Hc. cbn [app readCSVRecord]. rewrite Hc, IH.
      now rewrite <- app_assoc.
Qed.

(** One encoded cell, followed by a delimiter, is read back as its text. *)
Lemma read_cell (v : value) (d : N) :
  d = cComma \/ d = cLF ->
  forall fields rest,
    readCSVRecord FieldStart [] fields
      (formatCSVValue JSON_stringify v ++ d :: rest)
    = endField d (cellString JSON_stringify v) fields rest.
Proof.
  intros Hd fields rest. rewrite formatCSVValue_text. cbv zeta.
  destruct (needsQuoting (cellString JSON_stringify v)) eqn:E.
  - cbn [app readCSVRecord]. change (N.eqb cQuote cQuote) with true.
    cbv iota. rewrite <- app_assoc. cbn [app].
    now rewrite read_quoted.
  - now apply read_plain_start.
Qed.

Lemma read_row (cells : list value) :
  forall (c : value) (fields : list jsstring) (rest : jsstring),
    readCSVRecord FieldStart [] fields
      (join [cComma] (map (formatCSVValue JSON_stringify) (c :: cells))
       ++ cLF :: rest)
    = Some (fields ++ map (cellString JSON_stringify) (c :: cells), rest).
Proof.
  induction cells as [|c2 cells IH]; intros c fields rest.
  - cbn [map join]. rewrite read_cell by now right. reflexivity.
  - change (join [cComma]
              (map (formatCSVValue JSON_stringify) (c :: c2 :: cells)))
      with (formatCSVValue JSON_stringify c ++ [cComma]
            ++ join [cComma]
                 (map (formatCSVValue JSON_stringify) (c2 :: cells))).
    rewrite <- !app_assoc. cbn [app].
    rewrite read_cell by now left. unfold endField.
    change (N.eqb cComma cComma) with true. cbv iota.
    rewrite IH. cbn [map]. now rewrite <- app_assoc.
Qed.

(** Array rows before the first object row do not change the headers: they
    are the keys of that row, and the header line replaces what the array
    rows had written. *)
Lemma convertToCSV_headers_after_arrays (pre : list (list value))
  (o : obj) (post : list value) :
  convertToCSV JSON_stringify (VArr (map VArr pre ++ VObj o :: post)) None
  = convertToCSV JSON_stringify (VArr (VObj o :: post)) (Some (keys o)).
Proof.
  assert (Hgen : forall csv,
    csvRows JSON_stringify (None, csv) (map VArr pre ++ VObj o :: post)
    = csvRows JSON_stringify (None, []) (VObj o :: post)).
  { induction pre as [|cells pre IH]; intros csv; [reflexivity|].
    cbn [map app csvRows csvRow]. apply IH. }
  destruct pre as [|cells pre]; [reflexivity|].
  transitivity (csvRows JSON_stringify (None, []) (VObj o :: post));
    [exact (Hgen []) | reflexivity].
Qed.


End CsvFacts.

(** On the host where the football page always times out: four attempts
    with three delays of 2000 ms between them, then the rejection. *)
Lemma C6_witness :
  exists k,
    k = 4
    /\ events (snd (@fetchWithRetry futbolDownHost (sportUrlOf futbol)
                      CONFIG.maxRetries world0))
       = attemptTrace (sportUrlOf futbol) k
    /\ fst (@fetchWithRetry futbolDownHost (sportUrlOf futbol)
              CONFIG.maxRetries world0)
       = inl (someError "timeout of 30000ms exceeded").
Proof.
  destruct (@C6_fetchWithRetry_bounded_fixed_delay futbolDownHost
              (sportUrlOf futbol) CONFIG.maxRetries world0)
    as [k [Hk [Hmax [Hev [_ [_ [_ [Hres _]]]]]]]].
  exists k.
  assert (E : fst (@fetchWithRetry futbolDownHost (sportUrlOf futbol)
                     CONFIG.maxRetries world0)
              = inl (someError "timeout of 30000ms exceeded"))
    by (vm_compute; reflexivity).
  rewrite E in Hres. destruct Hres as [Hk4 _].
  split; [change (Z.max 0 CONFIG.maxRetries) with 3%Z in Hk4; lia|].
  split; [exact Hev | exact E].
Defined.

(* ================================================================== *)
(** * The model at work *)
(* ================================================================== *)

Example trim_keeps_inner_runs :
  trim (9%N :: str "  a  b " ++ [cLF]) = str "a  b".
Proof. reflexivity. Qed.

Example collapse_makes_single_spaces :
  replaceWhitespace (str " ") (str "a " ++ 9%N :: cLF :: str "b   c")
  = str "a b c".
Proof. reflexivity. Qed.

Example csv_of_array_rows :
  convertToCSV (fun _ => []) 
    (VArr [ VArr [VStr (str "Equipo"); VStr (str "Pts")];
            VArr [VStr (str "Don Bosco, A"); VStr (str "3")] ]) None
  = Some (str "Equipo,Pts" ++ cLF
          :: cQuote :: str "Don Bosco, A" ++ cQuote :: str ",3" ++ [cLF]).
Proof. reflexivity. Qed.

Example csv_of_object_rows :
  convertToCSV (fun _ => [])
    (VArr [ VObj [(str "name", VStr (str "A")); (str "position", VNum 1)];
            VObj [(str "position", VNum 2)] ]) None
  = Some (str "name,position" ++ cLF :: str "A,1" ++ cLF :: str ",2"
          ++ [cLF]).
Proof. reflexivity. Qed.

Example csv_record_is_read_back :
  parseCSVRecord
    (cQuote :: str "a,b" ++ cQuote :: cComma :: cQuote :: str "say "
     ++ cQuote :: cQuote :: str "hi" ++ cQuote :: cQuote :: cQuote
     :: cComma :: str "c" ++ cLF :: str "next")
  = Some ([str "a,b"; str "say " ++ cQuote :: str "hi" ++ [cQuote]; str "c"],
          str "next").
Proof. reflexivity. Qed.

(** A carriage return is not among the characters that make a cell
    quoted. *)
Example csv_carriage_return_is_written_bare :
  formatCSVValue (fun _ => []) (VStr (str "a" ++ 13%N :: str "b"))
  = str "a" ++ 13%N :: str "b".
Proof. reflexivity. Qed.

(** A run on the host where the football page is down: one GET of the main
    page, four of the football page, one of each other page; the football
    page result is the placeholder and the second sport has its table. *)
Example run_with_one_sport_down :
  let w := snd (@runScraper (fixtureDom sportPageFx) futbolDownHost world0) in
  List.length (filter (fun e => match e with EvGet _ => true | _ => false end)
                      (events w)) = 12
  /\ attempts (sportUrlOf futbol) w = 4
  /\ attempts CONFIG.baseUrl w = 1.
Proof. vm_compute. repeat split. Qed.

(* ================================================================== *)
(** * The history of a run, exactly *)
(* ================================================================== *)

Section HistoryFacts.
Context {C : Cheerio} {H : Host}.

Lemma adds_bind {A B} (m : M A) (k : A -> M B) (w : world)
  (e1 e2 : list event) :
  adds m w e1 -> adds (k (fst (m w))) (snd (m w)) e2 ->
  adds (bind m k) w (e1 ++ e2).
Proof.
  unfold adds. intros H1 H2. rewrite bind_eq, H2, H1.
  now rewrite app_assoc.
Qed.

Lemma adds_ret {A} (a : A) (w : world) : adds (ret a) w [].
Proof. unfold adds, ret. simpl. now rewrite app_nil_r. Qed.

Lemma adds_isoNow (w : world) : adds isoNow w [].
Proof. unfold adds, isoNow. simpl. now rewrite app_nil_r. Qed.

Lemma adds_delay (ms : N) (w : world) : adds (delay ms) w [EvDelay ms].
Proof. reflexivity. Qed.

Lemma adds_fsOp (e : event) (w : world) : adds (fsOp e) w [e].
Proof. reflexivity. Qed.

Lemma adds_saveToFile (f : jsstring) (v : value) (w : world) :
  adds (saveToFile f v) w [EvWrite (pathJoin outputDir f) (CJson v)].
Proof.
  unfold saveToFile.
  change [EvWrite (pathJoin outputDir f) (CJson v)]
    with ([EvWrite (pathJoin outputDir f) (CJson v)] ++ []).
  apply adds_bind; [apply adds_fsOp|].
  destruct (fst _); apply adds_ret.
Qed.

Lemma adds_appendLog (t : jsstring) (w : world) :
  adds (appendLog t) w [EvAppend logFile (CText t)].
Proof.
  unfold appendLog.
  change [EvAppend logFile (CText t)]
    with ([EvAppend logFile (CText t)] ++ []).
  apply adds_bind; [apply adds_fsOp|].
  destruct (fst _); apply adds_ret.
Qed.

Lemma adds_ensureDirectoryExists (d : jsstring) (w : world) :
  adds (ensureDirectoryExists d) w [EvMkdir d].
Proof.
  unfold ensureDirectoryExists.
  change [EvMkdir d] with ([EvMkdir d] ++ []).
  apply adds_bind; [apply adds_fsOp|].
  destruct (fst _) as [e|]; [|apply adds_ret].
  destruct (eqStr (errCode e) (str "EEXIST")); apply adds_ret.
Qed.

(** The debug snapshot adds a [mkdir] and at most one text file, and
    nothing else. *)
Lemma adds_saveHtmlForDebugging (n h : jsstring) (w : world) :
  exists evs,
    adds (saveHtmlForDebugging n h) w evs
    /\ getUrls evs = [] /\ pacingCount evs = 0 /\ jsonWrites evs = [].
Proof.
  unfold saveHtmlForDebugging.
  destruct (fst (ensureDirectoryExists
                   (pathJoin outputDir (str "debug")) w)) as [e|u] eqn:E.
  - exists ([EvMkdir (pathJoin outputDir (str "debug"))] ++ []).
    split; [|now repeat split].
    apply adds_bind; [apply adds_ensureDirectoryExists|].
    rewrite E. apply adds_ret.
  - exists ([EvMkdir (pathJoin outputDir (str "debug"))]
            ++ [EvWrite (pathJoin (pathJoin outputDir (str "debug"))
                                  (fileStem n ++ str ".html")) (CText h)]
            ++ []).
    split; [|now repeat split].
    apply adds_bind; [apply adds_ensureDirectoryExists|].
    rewrite E. apply adds_bind; [apply adds_fsOp|apply adds_ret].
Qed.

Lemma getUrls_app (a b : list event) :
  getUrls (a ++ b) = getUrls a ++ getUrls b.
Proof. apply flat_map_app. Qed.

Lemma jsonWrites_app (a b : list event) :
  jsonWrites (a ++ b) = jsonWrites a ++ jsonWrites b.
Proof. apply flat_map_app. Qed.

Lemma pacingCount_app (a b : list event) :
  pacingCount (a ++ b) = pacingCount a + pacingCount b.
Proof. unfold pacingCount. now rewrite filter_app, length_app. Qed.

Lemma attemptTrace_measures (url : jsstring) (k : nat) :
  getUrls (attemptTrace url k) = repeat url k
  /\ pacingCount (attemptTrace url k) = 0
  /\ jsonWrites (attemptTrace url k) = [].
Proof.
  induction k as [|k IH]; [now repeat split|].
  destruct k as [|k]; [now repeat split|].
  change (attemptTrace url (S (S k)))
    with ([EvGet url; EvDelay CONFIG.retryDelay] ++ attemptTrace url (S k)).
  rewrite getUrls_app, pacingCount_app, jsonWrites_app.
  destruct IH as [-> [-> ->]]. now repeat split.
Qed.

Lemma adds_fetchWithRetry (url : jsstring) (w : world) :
  exists k,
    1 <= k <= 4
    /\ adds (fetchWithRetry url CONFIG.maxRetries) w (attemptTrace url k).
Proof.
  unfold fetchWithRetry, adds.
  destruct (fetchLoop_spec url (Z.to_nat CONFIG.maxRetries) w)
    as [k [Hk [Hev _]]].
  exists k. split; [exact Hk | exact Hev].
Qed.

(** What the scraping of one page appends: between one and four GETs of
    the page and of nothing else, no pause between pages, and at most the
    one JSON file of the page. *)
Lemma adds_scrapeSportPage (sp : sport) (w : world) :
  exists evs k,
    adds (scrapeSportPage sp) w evs
    /\ 1 <= k <= 4
    /\ getUrls evs = repeat (sportUrlOf sp) k
    /\ pacingCount evs = 0
    /\ (jsonWrites evs = []
        \/ jsonWrites evs
           = [(pathJoin outputDir (fileStem (name sp) ++ str ".json"),
               fst (scrapeSportPage sp w))]).
Proof.
  unfold scrapeSportPage at 1 2.
  destruct (adds_fetchWithRetry (sportUrlOf sp) w) as [k [Hk Hf]].
  destruct (attemptTrace_measures (sportUrlOf sp) k) as [Hu [Hp Hj]].
  destruct (fst (fetchWithRetry (sportUrlOf sp) CONFIG.maxRetries w))
    as [e|html] eqn:E.
  - exists (attemptTrace (sportUrlOf sp) k ++ []), k.
    split; [apply adds_bind; [exact Hf|rewrite E; apply adds_ret]|].
    rewrite app_nil_r. split; [exact Hk|]. repeat split; auto.
  - destruct (adds_saveHtmlForDebugging (name sp) html
                (snd (fetchWithRetry (sportUrlOf sp) CONFIG.maxRetries w)))
      as [dbg [Hd [Hdu [Hdp Hdj]]]].
    destruct (sportDataOf (load html) sp (sportUrlOf sp)) as [e|o] eqn:Eo.
    + exists (attemptTrace (sportUrlOf sp) k ++ dbg ++ []), k.
      split.
      { apply adds_bind; [exact Hf|]. rewrite E.
        apply adds_bind; [exact Hd|]. rewrite Eo. apply adds_ret. }
      rewrite !getUrls_app, !pacingCount_app, !jsonWrites_app,
        Hu, Hp, Hj, Hdu, Hdp, Hdj.
      simpl. rewrite app_nil_r. split; [exact Hk|]. repeat split; auto.
    + exists (attemptTrace (sportUrlOf sp) k ++ dbg
              ++ [EvWrite (pathJoin outputDir
                             (fileStem (name sp) ++ str ".json"))
                          (CJson (VObj o))] ++ []), k.
      split.
      { apply adds_bind; [exact Hf|]. rewrite E.
        apply adds_bind; [exact Hd|]. rewrite Eo.
        apply adds_bind; [apply adds_saveToFile|apply adds_ret]. }
      rewrite !getUrls_app, !pacingCount_app, !jsonWrites_app,
        Hu, Hp, Hj, Hdu, Hdp, Hdj.
      simpl. rewrite app_nil_r. split; [exact Hk|].
      split; [reflexivity|]. split; [reflexivity|]. right.
      unfold scrapeSportPage. rewrite bind_eq, E, bind_eq, Eo, bind_eq.
      reflexivity.
Qed.

End HistoryFacts.

Section RunHistory.
Context {C : Cheerio} {H : Host}.

Lemma adds_scrapeMainPage (w : world) :
  exists evs k,
    adds scrapeMainPage w evs
    /\ 1 <= k <= 4
    /\ getUrls evs = repeat CONFIG.baseUrl k
    /\ pacingCount evs = 0.
Proof.
  unfold scrapeMainPage.
  destruct (adds_fetchWithRetry CONFIG.baseUrl w) as [k [Hk Hf]].
  destruct (attemptTrace_measures CONFIG.baseUrl k) as [Hu [Hp Hj]].
  destruct (fst (fetchWithRetry CONFIG.baseUrl CONFIG.maxRetries w))
    as [e|html] eqn:E.
  - exists (attemptTrace CONFIG.baseUrl k ++ []), k.
    split; [apply adds_bind; [exact Hf|rewrite E; apply adds_ret]|].
    rewrite app_nil_r. now repeat split.
  - destruct (adds_saveHtmlForDebugging (str "main_page") html
                (snd (fetchWithRetry CONFIG.baseUrl CONFIG.maxRetries w)))
      as [dbg [Hd [Hdu [Hdp Hdj]]]].
    eexists (attemptTrace CONFIG.baseUrl k ++ dbg ++ []
             ++ [EvWrite (pathJoin outputDir (str "main_page.json"))
                         (CJson _)] ++ []), k.
    split.
    { apply adds_bind; [exact Hf|]. rewrite E.
      apply adds_bind; [exact Hd|].
      apply adds_bind; [apply adds_isoNow|].
      apply adds_bind; [apply adds_saveToFile|apply adds_ret]. }
    rewrite !getUrls_app, !pacingCount_app, Hu, Hp, Hdu, Hdp.
    simpl. rewrite app_nil_r. now repeat split.
Qed.

Lemma adds_scrapeSports (sports : list sport) :
  forall (acc : obj) (w : world),
  exists evs ks,
    adds (scrapeSports sports acc) w evs
    /\ List.length ks = List.length sports
    /\ Forall (fun k => 1 <= k <= 4) ks
    /\ getUrls evs = sportGets sports ks
    /\ pacingCount evs = List.length sports.
Proof.
  induction sports as [|sp rest IH]; intros acc w.
  - exists [], []. split; [apply adds_ret|]. now repeat split.
  - destruct (adds_scrapeSportPage sp w) as [e1 [k [H1 [Hk [Hu [Hp _]]]]]].
    destruct (IH (setKey acc (name sp) (fst (scrapeSportPage sp w)))
                 (snd (delay CONFIG.requestDelay
                         (snd (scrapeSportPage sp w)))))
      as [e2 [ks [H2 [Hlen [Hks [Hu2 Hp2]]]]]].
    exists (e1 ++ [EvDelay CONFIG.requestDelay] ++ e2), (k :: ks).
    split.
    { cbn [scrapeSports]. apply adds_bind; [exact H1|].
      apply adds_bind; [apply adds_delay|exact H2]. }
    split; [simpl; now rewrite Hlen|].
    split; [now constructor|].
    rewrite !getUrls_app, !pacingCount_app, Hu, Hp, Hu2, Hp2.
    split; reflexivity.
Qed.

(** The events of the scraping part of a run. *)
Lemma adds_scrapeAndSave (w : world) :
  exists evs k0 ks allData summary before,
    adds scrapeAndSave w evs
    /\ 1 <= k0 <= 4
    /\ List.length ks = List.length SPORTS
    /\ Forall (fun k => 1 <= k <= 4) ks
    /\ getUrls evs = repeat CONFIG.baseUrl k0 ++ sportGets SPORTS ks
    /\ pacingCount evs = 1 + List.length SPORTS
    /\ jsonWrites evs
       = before ++ [(pathJoin outputDir (str "all_data.json"), allData);
                    (pathJoin outputDir (str "summary.json"), summary)]
    /\ (fst (scrapeAndSave w) = inr summary
        \/ exists err, fst (scrapeAndSave w) = inl err)
    /\ exists sportsData scrapedAt lastUpdated,
         allData
         = allDataOf (fst (scrapeMainPage w)) sportsData scrapedAt
         /\ summary
            = summaryOf (fst (scrapeMainPage w)) sportsData lastUpdated
         /\ sportsData
            = fst (scrapeSports SPORTS []
                     (snd (delay CONFIG.requestDelay
                             (snd (scrapeMainPage w))))).
Proof.
  destruct (adds_scrapeMainPage w) as [e1 [k0 [H1 [Hk0 [Hu1 Hp1]]]]].
  set (mp := fst (scrapeMainPage w)).
  set (w2 := snd (delay CONFIG.requestDelay (snd (scrapeMainPage w)))).
  destruct (adds_scrapeSports SPORTS [] w2)
    as [e2 [ks [H2 [Hlen [Hks [Hu2 Hp2]]]]]].
  set (sd := fst (scrapeSports SPORTS [] w2)).
  set (w3 := snd (scrapeSports SPORTS [] w2)).
  set (allData := allDataOf mp sd (fst (isoNow w3))).
  set (w4 := snd (saveToFile (str "all_data.json") allData w3)).
  set (summary := summaryOf mp sd (fst (isoNow w4))).
  set (w5 := snd (saveToFile (str "summary.json") summary w4)).
  set (logText := str "Scraping completed at: " ++ fst (isoNow w5) ++ [cLF]
     ++ str "Total sports scraped: "
     ++ natToString (List.length (keys sd)) ++ [cLF]
     ++ str "Results saved to: " ++ outputDir ++ [cLF; cLF]).
  exists (e1 ++ [EvDelay CONFIG.requestDelay] ++ e2 ++ []
          ++ [EvWrite (pathJoin outputDir (str "all_data.json"))
                      (CJson allData)] ++ []
          ++ [EvWrite (pathJoin outputDir (str "summary.json"))
                      (CJson summary)] ++ []
          ++ [EvAppend logFile (CText logText)] ++ []),
    k0, ks, allData, summary, (jsonWrites e1 ++ jsonWrites e2).
  split.
  { unfold scrapeAndSave.
    apply adds_bind; [exact H1|]. apply adds_bind; [apply adds_delay|].
    apply adds_bind; [exact H2|]. apply adds_bind; [apply adds_isoNow|].
    apply adds_bind; [apply adds_saveToFile|].
    apply adds_bind; [apply adds_isoNow|].
    apply adds_bind; [apply adds_saveToFile|].
    apply adds_bind; [apply adds_isoNow|].
    apply adds_bind; [apply adds_appendLog|].
    match goal with
    | |- adds (match ?x with _ => _ end) _ _ => destruct x
    end; apply adds_ret. }
  split; [exact Hk0|]. split; [exact Hlen|]. split; [exact Hks|].
  rewrite !getUrls_app, !pacingCount_app, !jsonWrites_app,
    Hu1, Hp1, Hu2, Hp2.
  split; [cbn [getUrls flat_map app]; now rewrite !app_nil_r|].
  split; [reflexivity|].
  split; [cbn [jsonWrites flat_map app]; now rewrite <- app_assoc|].
  split.
  - unfold scrapeAndSave. repeat (rewrite bind_eq; cbv beta).
    fold mp. fold w2. fold sd. fold w3.
    change (snd (isoNow w3)) with w3. fold allData. fold w4.
    change (snd (isoNow w4)) with w4. fold summary.
    destruct (fst (appendLog _ _)) as [err|u];
      [right; now exists err | now left].
  - exists sd, (fst (isoNow w3)), (fst (isoNow w4)). now repeat split.
Qed.

(** What [runScraper] adds after its [try] block: nothing, or the line of
    the log about the error. *)
Lemma adds_runScraper_catch (w : world) :
  exists tail,
    events (snd (runScraper w)) = events (snd (runScraperBody w)) ++ tail
    /\ getUrls tail = [] /\ pacingCount tail = 0 /\ jsonWrites tail = [].
Proof.
  unfold runScraper. rewrite bind_eq.
  destruct (fst (runScraperBody w)) as [error|summary].
  - eexists ([] ++ [EvAppend logFile (CText _)] ++ []).
    split; [|now repeat split].
    apply (@adds_bind _ _ isoNow _ (snd (runScraperBody w)));
      [apply adds_isoNow|].
    apply adds_bind; [apply adds_appendLog|].
    match goal with
    | |- adds (match ?x with _ => _ end) _ _ => destruct x
    end; apply adds_ret.
  - exists []. split; [|now repeat split].
    unfold ret. simpl. now rewrite app_nil_r.
Qed.

End RunHistory.

Section RunOutcomes.
Context {C : Cheerio} {H : Host}.

Lemma ensureDirectoryExists_exists (d : jsstring) (w : world) (e : jsError) :
  fsError (fsOps w) = Some e -> errCode e = str "EEXIST" ->
  ensureDirectoryExists d w
  = (inr tt, {| fsOps := S (fsOps w); events := events w ++ [EvMkdir d] |}).
Proof.
  intros He Hc. unfold ensureDirectoryExists. rewrite bind_eq.
  unfold fsOp. cbn [fst snd]. rewrite He, Hc. reflexivity.
Qed.

Lemma ensureDirectoryExists_fails (d : jsstring) (w : world) (e : jsError) :
  fsError (fsOps w) = Some e -> errCode e <> str "EEXIST" ->
  ensureDirectoryExists d w
  = (inl e, {| fsOps := S (fsOps w); events := events w ++ [EvMkdir d] |}).
Proof.
  intros He Hc. unfold ensureDirectoryExists. rewrite bind_eq.
  unfold fsOp. cbn [fst snd]. rewrite He.
  apply eqStr_false in Hc. now rewrite Hc.
Qed.

Lemma appendLog_fails (t : jsstring) (w : world) (e : jsError) :
  fsError (fsOps w) = Some e ->
  appendLog t w
  = (inl e, {| fsOps := S (fsOps w);
               events := events w ++ [EvAppend logFile (CText t)] |}).
Proof.
  intros He. unfold appendLog. rewrite bind_eq.
  unfold fsOp. cbn [fst snd]. now rewrite He.
Qed.

Lemma appendLog_result (t : jsstring) (w : world) :
  fst (appendLog t w)
  = match fsError (fsOps w) with Some e => inl e | None => inr tt end.
Proof.
  unfold appendLog. rewrite bind_eq. unfold fsOp. cbn [fst snd].
  now destruct (fsError (fsOps w)).
Qed.

Lemma ensureDirectoryExists_rejects (d : jsstring) (w : world)
  (e : jsError) :
  fst (ensureDirectoryExists d w) = inl e -> fsError (fsOps w) = Some e.
Proof.
  unfold ensureDirectoryExists. rewrite bind_eq. unfold fsOp.
  cbn [fst snd]. destruct (fsError (fsOps w)) as [e'|]; [|discriminate].
  destruct (eqStr (errCode e') (str "EEXIST")); [discriminate|].
  unfold ret. cbn [fst]. congruence.
Qed.

Lemma runScraperBody_started :
  (fsError 0 = None
   \/ exists e, fsError 0 = Some e /\ errCode e = str "EEXIST") ->
  fsError 1 = None ->
  runScraperBody world0 = scrapeAndSave startedWorld.
Proof.
  intros H0 H1. unfold runScraperBody. rewrite bind_eq.
  assert (E : ensureDirectoryExists outputDir world0
              = (inr tt, {| fsOps := 1; events := [EvMkdir outputDir] |})).
  { destruct H0 as [H0|[e [H0 Hc]]].
    - now rewrite ensureDirectoryExists_ok.
    - now rewrite (@ensureDirectoryExists_exists outputDir world0 e H0 Hc). }
  rewrite E. cbn [fst snd].
  rewrite bind_eq. unfold isoNow. cbn [fst snd].
  rewrite bind_eq, appendLog_ok by exact H1. reflexivity.
Qed.

End RunOutcomes.

Section RunTheorems.
Context {C : Cheerio} {H : Host}.


(** X2.  When the output directory cannot be created (any error but
    [EEXIST]), the run requests no page and writes no JSON file: it appends
    the error to the log and rejects, with that error, or with the error of
    the log write when that fails too. *)
Theorem X2_no_request_when_output_directory_fails (e : jsError) :
  fsError 0 = Some e -> errCode e <> str "EEXIST" ->
  events (snd (runScraper world0))
  = [EvMkdir outputDir;
     EvAppend logFile
       (CText (str "ERROR at " ++ now 1 ++ str ": " ++ errMessage e
               ++ [cLF] ++ errStack e ++ [cLF; cLF]))]
  /\ getUrls (events (snd (runScraper world0))) = []
  /\ jsonWrites (events (snd (runScraper world0))) = []
  /\ fst (runScraper world0)
     = inl (match fsError 1 with Some e' => e' | None => e end).
Proof.
  intros H0 Hc.
  assert (Hb : runScraperBody world0
               = (inl e, {| fsOps := 1; events := [EvMkdir outputDir] |})).
  { unfold runScraperBody. rewrite bind_eq.
    now rewrite (@ensureDirectoryExists_fails H outputDir world0 e H0 Hc). }
  assert (Hr : runScraper world0
    = (inl (match fsError 1 with Some e' => e' | None => e end),
       {| fsOps := 2;
          events := [EvMkdir outputDir;
            EvAppend logFile
              (CText (str "ERROR at " ++ now 1 ++ str ": " ++ errMessage e
                      ++ [cLF] ++ errStack e ++ [cLF; cLF]))] |})).
  { unfold runScraper. rewrite bind_eq, Hb. cbn [fst snd].
    rewrite bind_eq. unfold isoNow. cbn [fst snd events List.length].
    rewrite bind_eq. unfold appendLog. rewrite bind_eq. unfold fsOp.
    cbn [fst snd fsOps events].
    destruct (fsError 1); reflexivity. }
  rewrite Hr. now repeat split.
Qed.

Lemma scrapeAndSave_rejects (w : world) (err : jsError) :
  fst (scrapeAndSave w) = inl err -> exists n, fsError n = Some err.
Proof.
  unfold scrapeAndSave. repeat (rewrite bind_eq; cbv beta).
  match goal with
  | |- context [fst (appendLog ?t ?w')] =>
      rewrite (appendLog_result t w');
      destruct (fsError (fsOps w')) as [e'|] eqn:E
  end; unfold ret; cbn [fst]; [|discriminate].
  intros Hx. injection Hx as <-. eauto.
Qed.

Lemma runScraperBody_rejects (w : world) (err : jsError) :
  fst (runScraperBody w) = inl err -> exists n, fsError n = Some err.
Proof.
  unfold runScraperBody. rewrite bind_eq.
  destruct (fst (ensureDirectoryExists outputDir w)) as [e|u] eqn:Ed.
  - unfold ret. cbn [fst]. intros Hx. injection Hx as <-.
    apply ensureDirectoryExists_rejects in Ed. eauto.
  - repeat (rewrite bind_eq; cbv beta).
    match goal with
    | |- context [fst (appendLog ?t ?w')] =>
        rewrite (appendLog_result t w');
        destruct (fsError (fsOps w')) as [e'|] eqn:E
    end.
    + unfold ret. cbn [fst]. intros Hx. injection Hx as <-. eauto.
    + apply scrapeAndSave_rejects.
Qed.


End RunTheorems.


Lemma X2_witness :
  getUrls (events (snd (@runScraper (fixtureDom sportPageFx) noDirHost
                          world0))) = []
  /\ exists e, fst (@runScraper (fixtureDom sportPageFx) noDirHost world0)
               = inl e /\ errCode e = str "EACCES".
Proof.
  destruct (@X2_no_request_when_output_directory_fails
              (fixtureDom sportPageFx) noDirHost
              {| errCode := str "EACCES";
                 errMessage := str "permission denied";
                 errStack := [] |} eq_refl)
    as [_ [Hu [_ Hr]]].
  - vm_compute. discriminate.
  - split; [exact Hu|]. eexists. split; [exact Hr|reflexivity].
Defined.


Section PageOutcomes.
Context {C : Cheerio} {H : Host}.

Lemma scrapeMainPage_fail (e : nat -> jsError) (w : world) :
  (forall k, k <= 3 ->
     net CONFIG.baseUrl (attempts CONFIG.baseUrl w + k) = inl (e k)) ->
  fst (scrapeMainPage w) = VNull.
Proof.
  intros Hfail. unfold scrapeMainPage. rewrite bind_eq.
  unfold fetchWithRetry.
  destruct (fetchLoop_spec CONFIG.baseUrl (Z.to_nat CONFIG.maxRetries) w)
    as [k [Hk [_ [_ [_ Hres]]]]].
  change (Z.to_nat CONFIG.maxRetries) with 3 in *.
  destruct (fst (fetchLoop CONFIG.baseUrl 3 w)) as [err|body];
    [reflexivity|].
  rewrite Hfail in Hres by lia. discriminate Hres.
Qed.

(** X4.  When the first attempt and the three retries on the main page are
    rejected, [scrapeMainPage] returns [null] and the run goes on: the
    writes of the aggregate and of the summary are still the last two JSON
    writes of the run, the aggregate has [mainPage: null], and the summary
    takes the default event title. *)
Theorem X4_main_page_failure_is_tolerated (e : nat -> jsError) :
  (forall k, k <= 3 -> net CONFIG.baseUrl k = inl (e k)) ->
  (fsError 0 = None
   \/ exists err, fsError 0 = Some err /\ errCode err = str "EEXIST") ->
  fsError 1 = None ->
  fst (scrapeMainPage startedWorld) = VNull
  /\ exists before sportsData scrapedAt lastUpdated,
       jsonWrites (events (snd (runScraper world0)))
       = before
         ++ [(pathJoin outputDir (str "all_data.json"),
              allDataOf VNull sportsData scrapedAt);
             (pathJoin outputDir (str "summary.json"),
              summaryOf VNull sportsData lastUpdated)]
       /\ optGet (allDataOf VNull sportsData scrapedAt) (str "mainPage")
          = VNull
       /\ optGet (summaryOf VNull sportsData lastUpdated) (str "eventTitle")
          = VStr (str "Juegos Nacionales Salesianos 2025").
Proof.
  intros Hfail H0 H1.
  assert (Hnull : fst (scrapeMainPage startedWorld) = VNull)
    by (apply (scrapeMainPage_fail e); intros k Hk; now apply Hfail).
  split; [exact Hnull|].
  destruct (adds_runScraper_catch world0) as [tail [Ht [_ [_ Htj]]]].
  rewrite (runScraperBody_started H0 H1) in Ht.
  destruct (adds_scrapeAndSave startedWorld)
    as (evs & k0 & ks & allData & summary & before & Hadd & _ & _ & _ & _
        & _ & Hj & _ & sd & t1 & t2 & Ha & Hs & _).
  unfold adds in Hadd. rewrite Hadd in Ht.
  rewrite Hnull in Ha, Hs. subst allData summary.
  exists before, sd, t1, t2. split; [|split; reflexivity].
  rewrite Ht, !jsonWrites_app, Hj, Htj. simpl. now rewrite app_nil_r.
Qed.

(** X5.  [scrapeSportPage] saves exactly what it returns, when it returns a
    page result: the one JSON write it issues is to the file of the sport
    and hands over the returned value, which is the data extracted from the
    fetched page.  The error placeholder is returned without any JSON
    write. *)
Theorem X5_sport_file_holds_the_returned_result (sp : sport) (w : world) :
  exists evs,
    adds (scrapeSportPage sp) w evs
    /\ ((exists e, fst (scrapeSportPage sp w) = errorResult sp e
                   /\ jsonWrites evs = [])
        \/ (exists o,
              fst (scrapeSportPage sp w) = VObj o
              /\ sportDataOf
                   (load match fst (fetchWithRetry (sportUrlOf sp)
                                      CONFIG.maxRetries w) with
                         | inr html => html
                         | inl _ => []
                         end) sp (sportUrlOf sp) = inr o
              /\ jsonWrites evs
                 = [(pathJoin outputDir (fileStem (name sp) ++ str ".json"),
                     VObj o)])).
Proof.
  destruct (adds_fetchWithRetry (sportUrlOf sp) w) as [k [Hk Hf]].
  destruct (attemptTrace_measures (sportUrlOf sp) k) as [Hu [Hp Hj]].
  destruct (fst (fetchWithRetry (sportUrlOf sp) CONFIG.maxRetries w))
    as [e|html] eqn:E.
  - exists (attemptTrace (sportUrlOf sp) k ++ []).
    split.
    { unfold scrapeSportPage. apply adds_bind; [exact Hf|].
      rewrite E. apply adds_ret. }
    left. exists e. split.
    + unfold scrapeSportPage. now rewrite bind_eq, E.
    + now rewrite app_nil_r.
  - destruct (adds_saveHtmlForDebugging (name sp) html
                (snd (fetchWithRetry (sportUrlOf sp) CONFIG.maxRetries w)))
      as [dbg [Hd [Hdu [Hdp Hdj]]]].
    destruct (sportDataOf (load html) sp (sportUrlOf sp)) as [e|o] eqn:Eo.
    + exists (attemptTrace (sportUrlOf sp) k ++ dbg ++ []).
      split.
      { unfold scrapeSportPage. apply adds_bind; [exact Hf|]. rewrite E.
        apply adds_bind; [exact Hd|]. rewrite Eo. apply adds_ret. }
      left. exists e. split.
      * unfold scrapeSportPage. now rewrite bind_eq, E, bind_eq, Eo.
      * now rewrite !jsonWrites_app, Hj, Hdj.
    + exists (attemptTrace (sportUrlOf sp) k ++ dbg
              ++ [EvWrite (pathJoin outputDir
                             (fileStem (name sp) ++ str ".json"))
                          (CJson (VObj o))] ++ []).
      split.
      { unfold scrapeSportPage. apply adds_bind; [exact Hf|]. rewrite E.
        apply adds_bind; [exact Hd|]. rewrite Eo.
        apply adds_bind; [apply adds_saveToFile|apply adds_ret]. }
      right. exists o. split; [|split].
      * unfold scrapeSportPage.
        now rewrite bind_eq, E, bind_eq, Eo, bind_eq.
      * reflexivity.
      * now rewrite !jsonWrites_app, Hj, Hdj.
Qed.

(** X6.  An error thrown by the extraction is handled like a failed fetch:
    when the page was fetched but [$.find] throws on the first selector of
    the title, [scrapeSportPage] returns the placeholder with the message
    of that error. *)
Theorem X6_extraction_error_gives_placeholder
  (sp : sport) (w : world) (html : jsstring) (e : jsError) :
  fst (fetchWithRetry (sportUrlOf sp) CONFIG.maxRetries w) = inr html ->
  dollarFind (Some (str "h1")) = inl e ->
  fst (scrapeSportPage sp w)
  = VObj [ (str "sportInfo",
             VObj [ (str "name", VStr (name sp));
                    (str "url", VStr (sportUrlOf sp));
                    (str "error", VStr (errMessage e)) ]) ].
Proof.
  intros Hf Hd. unfold scrapeSportPage. rewrite bind_eq, Hf, bind_eq.
  unfold sportDataOf, sportInfoOf, extractWithFallbackSelectors.
  cbn [trySelectors scopeFind]. rewrite Hd. reflexivity.
Qed.

End PageOutcomes.

Lemma X4_witness :
  fst (@scrapeMainPage (fixtureDom sportPageFx) mainDownHost
         (@startedWorld mainDownHost)) = VNull
  /\ exists before sportsData scrapedAt lastUpdated,
       jsonWrites (events (snd (@runScraper (fixtureDom sportPageFx)
                                  mainDownHost world0)))
       = before
         ++ [(pathJoin (@outputDir mainDownHost) (str "all_data.json"),
              allDataOf VNull sportsData scrapedAt);
             (pathJoin (@outputDir mainDownHost) (str "summary.json"),
              @summaryOf VNull sportsData lastUpdated)].
Proof.
  destruct (@X4_main_page_failure_is_tolerated (fixtureDom sportPageFx)
              mainDownHost
              (fun _ => someError "timeout of 30000ms exceeded"))
    as [Hn [before [sd [t1 [t2 [Hj _]]]]]].
  - intros k _. reflexivity.
  - left. reflexivity.
  - reflexivity.
  - split; [exact Hn|]. exists before, sd, t1, t2. exact Hj.
Defined.

Lemma X6_witness :
  fst (@scrapeSportPage (withoutDollarFind (fixtureDom sportPageFx))
         servingHost futbol world0)
  = VObj [ (str "sportInfo",
             VObj [ (str "name", VStr (name futbol));
                    (str "url", VStr (sportUrlOf futbol));
                    (str "error",
                      VStr (str "element.find is not a function")) ]) ].
Proof.
  apply (@X6_extraction_error_gives_placeholder
           (withoutDollarFind (fixtureDom sportPageFx)) servingHost futbol
           world0 (str "<html></html>")
           {| errCode := [];
              errMessage := str "element.find is not a function";
              errStack := [] |}).
  - vm_compute. reflexivity.
  - reflexivity.
Defined.

Section SummaryFacts.
Context {C : Cheerio} {H : Host}.

Lemma getOwn_filter (f : value -> bool) (o : obj) (k : jsstring) :
  NoDup (keys o) ->
  getOwn (filter (fun kv => negb (f (snd kv))) o) k
  = if f (getOwn o k) then VUndefined else getOwn o k.
Proof.
  induction o as [|[k' v'] o IH]; intros Hnd.
  - simpl. now destruct (f VUndefined).
  - inversion Hnd as [|? ? Hk Hnd']; subst.
    cbn [filter snd getOwn].
    destruct (eqStr k' k) eqn:E.
    + apply eqStr_true in E. subst k'.
      destruct (f v') eqn:Ef; cbn [negb].
      * apply getOwn_absent. intros Hin. apply Hk.
        unfold keys in *. apply in_map_iff in Hin.
        destruct Hin as [kv [Ekv Hin]]. apply filter_In in Hin.
        apply in_map_iff. exists kv. tauto.
      * cbn [getOwn]. now rewrite eqStr_refl.
    + destruct (f v'); cbn [negb]; [now apply IH|].
      cbn [getOwn]. rewrite E. now apply IH.
Qed.

Lemma getOwn_sportDataWith (doc : list node) (info : obj) (k : jsstring) :
  getOwn (sportDataWith doc info) k
  = let v := getOwn [ (str "sportInfo", VObj info);
                      (str "results", VArr (resultsOf doc));
                      (str "matches", VArr (matchesOf doc));
                      (str "standings", VArr (standingsOf doc));
                      (str "medals", VArr (medalsOf doc));
                      (str "news", VArr (newsOf doc));
                      (str "gallery", VArr (galleryOf doc)) ] k in
    if isEmptyArray v then VUndefined else v.
Proof.
  unfold sportDataWith. rewrite deleteWhere_filter.
  2:{ apply nodupb_sound. reflexivity. }
  apply getOwn_filter. apply nodupb_sound. reflexivity.
Qed.

Lemma length_of_bucket (l : list value) :
  optGet (if isEmptyArray (VArr l) then VUndefined else VArr l)
         (str "length")
  = match l with [] => VUndefined | _ => VNum (List.length l) end.
Proof. now destruct l. Qed.

(** X7.  The summary counts what was extracted although the empty buckets
    were deleted from the page result: for a sport whose page result was
    assembled from a document, the entry gives the numbers of results and
    matches found in the document (0 for a deleted bucket), says whether
    any standings and medals were found, and carries the [error] field of
    the sport's [sportInfo]. *)
Theorem X7_summary_counts_the_extracted_buckets
  (sportsData : obj) (sportName : jsstring) (doc : list node) (info : obj) :
  getOwn sportsData sportName = VObj (sportDataWith doc info) ->
  summaryEntry sportsData sportName
  = VObj [ (str "name", VStr sportName);
           (str "resultsCount", VNum (List.length (resultsOf doc)));
           (str "matchesCount", VNum (List.length (matchesOf doc)));
           (str "hasStandings",
             VBool (negb (Nat.eqb (List.length (standingsOf doc)) 0)));
           (str "hasMedals",
             VBool (negb (Nat.eqb (List.length (medalsOf doc)) 0)));
           (str "error", getOwn info (str "error")) ].
Proof.
  intros Hs. unfold summaryEntry. rewrite Hs. cbn [optGet].
  rewrite !getOwn_sportDataWith. cbv zeta.
  change (getOwn _ (str "results")) with (VArr (resultsOf doc)).
  change (getOwn _ (str "matches")) with (VArr (matchesOf doc)).
  change (getOwn _ (str "standings")) with (VArr (standingsOf doc)).
  change (getOwn _ (str "medals")) with (VArr (medalsOf doc)).
  change (getOwn _ (str "sportInfo")) with (VObj info).
  rewrite !length_of_bucket. cbn [isEmptyArray isArray andb optGet].
  destruct (resultsOf doc), (matchesOf doc), (standingsOf doc),
    (medalsOf doc); reflexivity.
Qed.

End SummaryFacts.

(* ================================================================== *)
(** * Tables, blocks and images of a sport page *)
(* ================================================================== *)

Section BucketFacts.
Context {C : Cheerio}.


Lemma positive_length {A} (l : list A) :
  (0 <? List.length l) = true <-> l <> [].
Proof.
  destruct l; simpl; split; intros Hl; try discriminate; trivial.
  now contradiction Hl.
Qed.





Lemma standingsOf_collect (doc : list node) :
  standingsOf doc
  = collectFrom 0 (fun _ element => 0 <? List.length (teamsOf element))
      (fun i element =>
         VObj [ (str "title",
                  VStr (orStr (textTrim (prev element (str "h2, h3, h4")))
                    (orStr
                      (findText element
                         "caption, .table-title, .standings-title")
                      (str "Clasificaci" ++ 243%N :: str "n "
                         ++ natToString (i + 1)))));
                (str "category",
                  VStr (findFirstText
                    (closest element
                       (str ".category-container, .group-container"))
                    "h3, .category-title"));
                (str "teams", VArr (teamsOf element)) ])
      (find doc
         (str ".standings, .ranking, .leaderboard, .positions, .table-standings")).
Proof. unfold standingsOf. now apply each_collect. Qed.

Lemma medalsOf_collect (doc : list node) :
  medalsOf doc
  = collectFrom 0 (fun _ element => 0 <? List.length (medalItemsOf element))
      (fun _ element =>
         VObj [ (str "title",
                  VStr (orStr (textTrim (prev element (str "h2, h3, h4")))
                    (orStr (findText element "caption, .table-title")
                           (str "Medallero"))));
                (str "items", VArr (medalItemsOf element)) ])
      (find doc (str ".medals, .awards, .winners")).
Proof. unfold medalsOf. now apply each_collect. Qed.

Lemma orStr_default (a b c : jsstring) :
  c <> [] -> orStr a (orStr b c) <> [].
Proof.
  intros Hc. destruct a; [|discriminate]. destruct b; [exact Hc|discriminate].
Qed.

(** X9.  A standings block and a medals block are never empty and never
    untitled: every entry of [standings] has a non-empty [title] and a
    non-empty [teams], every team has a non-empty [name] and [position];
    every entry of [medals] has a non-empty [title] and a non-empty
    [items], every item has a non-empty [name] and [position].  A block
    without an accepted row is left out. *)
Theorem X9_standings_and_medals_blocks_are_filled (doc : list node) :
  Forall (fun b =>
    exists title category teams,
      b = VObj [ (str "title", VStr title);
                 (str "category", VStr category);
                 (str "teams", VArr teams) ]
      /\ title <> [] /\ teams <> []
      /\ Forall (fun t => exists o name position,
                   t = VObj o
                   /\ getOwn o (str "name") = VStr name /\ name <> []
                   /\ getOwn o (str "position") = VStr position
                   /\ position <> []) teams)
    (standingsOf doc)
  /\ Forall (fun b =>
       exists title items,
         b = VObj [ (str "title", VStr title); (str "items", VArr items) ]
         /\ title <> [] /\ items <> []
         /\ Forall (fun t => exists o name position,
                      t = VObj o
                      /\ getOwn o (str "name") = VStr name /\ name <> []
                      /\ getOwn o (str "position") = VStr position
                      /\ position <> []) items)
       (medalsOf doc)
  /\ (forall n,
        In n (find doc
          (str ".standings, .ranking, .leaderboard, .positions, .table-standings")) ->
        teamsOf [n] <> [] ->
        exists title category,
          In (VObj [ (str "title", VStr title);
                     (str "category", VStr category);
                     (str "teams", VArr (teamsOf [n])) ])
             (standingsOf doc))
  /\ (forall n,
        In n (find doc (str ".medals, .awards, .winners")) ->
        medalItemsOf [n] <> [] ->
        exists title,
          In (VObj [ (str "title", VStr title);
                     (str "items", VArr (medalItemsOf [n])) ])
             (medalsOf doc)).
Proof.
  split; [|split; [|split]].
  - apply Forall_forall. intros b Hb.
    rewrite standingsOf_collect in Hb. apply in_collectFrom in Hb.
    destruct Hb as [i [n [_ [Hp ->]]]].
    eexists _, _, _. split; [reflexivity|].
    split; [apply orStr_default; discriminate|].
    split; [now apply positive_length|].
    apply Forall_forall. intros t Ht.
    rewrite teamsOf_collect in Ht. apply in_collectFrom in Ht.
    destruct Ht as [j [m [_ [Hk ->]]]].
    apply andb_true_iff in Hk. destruct Hk as [_ Hk].
    apply andb_true_iff in Hk. destruct Hk as [Hn Hpos].
    eexists _, _, _. split; [reflexivity|].
    split; [reflexivity|]. split; [|split; [reflexivity|]].
    + unfold filled in Hn. cbn in Hn |- *.
      now destruct (findText [m] "td:nth-child(2)").
    + unfold filled in Hpos. cbn in Hpos |- *.
      now destruct (findText [m] "td:nth-child(1)").
  - apply Forall_forall. intros b Hb.
    rewrite medalsOf_collect in Hb. apply in_collectFrom in Hb.
    destruct Hb as [i [n [_ [Hp ->]]]].
    eexists _, _. split; [reflexivity|].
    split; [apply orStr_default; discriminate|].
    split; [now apply positive_length|].
    apply Forall_forall. intros t Ht.
    rewrite medalItemsOf_collect in Ht. apply in_collectFrom in Ht.
    destruct Ht as [j [m [_ [Hk ->]]]].
    apply andb_true_iff in Hk. destruct Hk as [Hn Hpos].
    eexists _, _, _. split; [reflexivity|].
    split; [reflexivity|]. split; [|split; [reflexivity|]].
    + unfold filled in Hn. cbn in Hn |- *.
      match goal with |- ?s <> [] => now destruct s end.
    + unfold filled in Hpos. cbn in Hpos |- *.
      match goal with |- ?s <> [] => now destruct s end.
  - intros n Hn Ht. apply In_nth_error in Hn. destruct Hn as [i Hi].
    eexists _, _. rewrite standingsOf_collect. apply in_collectFrom.
    exists i, n. split; [exact Hi|]. split; [now apply positive_length|].
    reflexivity.
  - intros n Hn Ht. apply In_nth_error in Hn. destruct Hn as [i Hi].
    eexists. rewrite medalsOf_collect. apply in_collectFrom.
    exists i, n. split; [exact Hi|]. split; [now apply positive_length|].
    reflexivity.
Qed.

Lemma galleryOf_collect (doc : list node) :
  galleryOf doc
  = collectFrom 0 (fun _ img => nonEmpty (attrOrEmpty img (str "src")))
      (fun _ img =>
         VObj [ (str "url", VStr (attrOrEmpty img (str "src")));
                (str "title",
                  VStr (orStr (attrOrEmpty img (str "alt"))
                              (attrOrEmpty img (str "title"))));
                (str "caption",
                  VStr (findText (closest img (str "figure"))
                          "figcaption")) ])
      (find (find doc (str ".gallery, .photos, .images")) (str "img")).
Proof. unfold galleryOf. now apply each_collect. Qed.

(** X10.  The gallery holds the images with a source and nothing else: an
    image inside a gallery block is listed exactly when its [src] is
    present and not empty, every entry has a non-empty [url], and its
    [title] is the [alt] text, or the [title] attribute when [alt] is
    missing or empty. *)
Theorem X10_gallery_lists_images_with_a_source (doc : list node) :
  (forall g,
     In g (galleryOf doc) <->
     exists n,
       In n (find (find doc (str ".gallery, .photos, .images")) (str "img"))
       /\ attrOrEmpty [n] (str "src") <> []
       /\ g = VObj [ (str "url", VStr (attrOrEmpty [n] (str "src")));
                     (str "title",
                       VStr (firstNonEmpty
                               [attrOrEmpty [n] (str "alt");
                                attrOrEmpty [n] (str "title")]));
                     (str "caption",
                       VStr (textTrim (find (closest [n] (str "figure"))
                                            (str "figcaption")))) ])
  /\ Forall (fun g => exists url, optGet g (str "url") = VStr url
                                  /\ url <> [])
            (galleryOf doc).
Proof.
  assert (Hne : forall s, nonEmpty s = true <-> s <> []).
  { intros s. destruct s; simpl; split; intros Hs; try discriminate; trivial.
    now contradiction Hs. }
  assert (Ht : forall a b, firstNonEmpty [a; b] = orStr a b).
  { intros a b. cbn [firstNonEmpty]. now destruct a, b. }
  split.
  - intros g. rewrite galleryOf_collect, in_collectFrom. cbn [Nat.add].
    split.
    + intros [j [n [Hn [Hp ->]]]]. exists n.
      split; [now apply nth_error_In in Hn|].
      split; [now apply Hne|]. now rewrite Ht.
    + intros [n [Hn [Hs ->]]]. apply In_nth_error in Hn.
      destruct Hn as [j Hj]. exists j, n. split; [exact Hj|].
      split; [now apply Hne|]. now rewrite Ht.
  - apply Forall_forall. intros g Hg.
    rewrite galleryOf_collect in Hg. apply in_collectFrom in Hg.
    destruct Hg as [j [n [_ [Hp ->]]]].
    eexists. split; [reflexivity|]. now apply Hne.
Qed.


End BucketFacts.


(* ================================================================== *)
(** * The records of the main page *)
(* ================================================================== *)

Section MainPageFacts.
Context {C : Cheerio} {H : Host}.

Lemma announcementsOf_collect (doc : list node) :
  announcementsOf doc
  = collectFrom 0
      (fun _ e => filled (announcementOf e) "title"
                  || filled (announcementOf e) "content")
      (fun _ e => VObj (announcementOf e))
      (find doc (str ".announcement, .notice, .alert, .important")).
Proof. unfold announcementsOf. now apply each_collect. Qed.

Lemma mainNewsOf_collect (doc : list node) :
  mainNewsOf doc
  = collectFrom 0 (fun _ e => filled (mainNewsItemOf e) "title")
      (fun _ e => VObj (mainNewsItemOf e))
      (find doc (str ".news, .post, article, .entry")).
Proof. unfold mainNewsOf. now apply each_collect. Qed.

(** The inner loop of the schedule pushes onto the items of the blocks
    before it. *)
Lemma scheduleItemsOf_blocks (doc : list node) :
  scheduleItemsOf doc
  = flat_map (fun n =>
      collectFrom 0
        (fun _ e => filled (scheduleItemOf e) "title"
                    || filled (scheduleItemOf e) "date")
        (fun _ e => VObj (scheduleItemOf e))
        (find [n] (str "li, .event, .fixture, .match")))
      (find doc (str ".schedule, .calendar, .event-list, .fixtures")).
Proof.
  unfold scheduleItemsOf, each.
  assert (Hgen : forall s i acc,
    eachFrom i
      (fun (_ : nat) element scheduleItems =>
         eachFrom 0
           (fun (_ : nat) eventEl scheduleItems0 =>
              let item := scheduleItemOf eventEl in
              if truthy (getOwn item (str "title"))
                 || truthy (getOwn item (str "date"))
              then push scheduleItems0 (VObj item)
              else scheduleItems0)
           (find element (str "li, .event, .fixture, .match"))
           scheduleItems) s acc
    = acc ++ flat_map (fun n =>
        collectFrom 0
          (fun _ e => filled (scheduleItemOf e) "title"
                      || filled (scheduleItemOf e) "date")
          (fun _ e => VObj (scheduleItemOf e))
          (find [n] (str "li, .event, .fixture, .match"))) s).
  { induction s as [|n r IH]; intros i acc; cbn [eachFrom flat_map].
    - now rewrite app_nil_r.
    - rewrite IH.
      rewrite (eachFrom_collect _
                 (fun _ e => filled (scheduleItemOf e) "title"
                             || filled (scheduleItemOf e) "date")
                 (fun _ e => VObj (scheduleItemOf e)))
        by reflexivity.
      now rewrite app_assoc. }
  apply (Hgen _ 0 []).
Qed.

Lemma mainStandingsOf_collect (doc : list node) :
  mainStandingsOf doc
  = collectFrom 0
      (fun _ element =>
         0 <? List.length
           (collectFrom 0
              (fun _ row => 0 <? List.length (find row (str "th, td")))
              (fun _ row =>
                 VArr (map (fun n => VStr (textTrim [n]))
                         (find row (str "th, td"))))
              (find element (str "tr"))))
      (fun _ element =>
         VObj [ (str "title",
                  VStr (orStr (textTrim (prev element (str "h2, h3, h4")))
                    (orStr (findText element "caption, .table-title")
                           (str "Standings"))));
                (str "rows",
                  VArr (collectFrom 0
                    (fun _ row => 0 <? List.length (find row (str "th, td")))
                    (fun _ row =>
                       VArr (map (fun n => VStr (textTrim [n]))
                               (find row (str "th, td"))))
                    (find element (str "tr")))) ])
      (find doc
         (str ".standings, .medal-tally, .results-summary, .leaderboard")).
Proof.
  assert (Hcells : forall row,
    each (find row (str "th, td")) []
      (fun (_ : nat) cell cells => push cells (VStr (textTrim cell)))
    = map (fun n => VStr (textTrim [n])) (find row (str "th, td"))).
  { intros row.
    rewrite (each_collect _ (fun _ _ => true)
               (fun _ e => VStr (textTrim e))) by reflexivity.
    generalize 0. induction (find row (str "th, td")) as [|n r IH];
      intros i; simpl; [reflexivity|]. now rewrite IH. }
  assert (Hrows : forall element,
    each (find element (str "tr")) []
      (fun (_ : nat) row rows =>
         let cells :=
           each (find row (str "th, td")) []
             (fun (_ : nat) cell cells => push cells (VStr (textTrim cell)))
         in
         if 0 <? List.length cells then push rows (VArr cells) else rows)
    = collectFrom 0
        (fun _ row => 0 <? List.length (find row (str "th, td")))
        (fun _ row =>
           VArr (map (fun n => VStr (textTrim [n]))
                   (find row (str "th, td"))))
        (find element (str "tr"))).
  { intros element. apply each_collect. intros i e acc. cbv zeta.
    now rewrite Hcells, length_map. }
  unfold mainStandingsOf. apply each_collect. intros i e acc. cbv zeta.
  now rewrite Hrows.
Qed.

(** X12.  The records of the main page are taken as they are read, empty
    fields included, and on these conditions: an announcement is kept
    exactly when its title or its content is not empty; a news item exactly
    when its title is not empty (its content does not count, unlike on a
    sport page); a schedule item is kept when its title or its date is not
    empty, and every kept one has one of them; a standings table is kept
    only with a row that has a cell, and its title is never empty. *)
Theorem X12_main_page_record_acceptance (doc : list node) (n : node) :
  (In n (find doc (str ".announcement, .notice, .alert, .important")) ->
   (In (VObj (announcementOf [n])) (announcementsOf doc)
    <-> filled (announcementOf [n]) "title" = true
        \/ filled (announcementOf [n]) "content" = true))
  /\ (In n (find doc (str ".news, .post, article, .entry")) ->
      (In (VObj (mainNewsItemOf [n])) (mainNewsOf doc)
       <-> filled (mainNewsItemOf [n]) "title" = true))
  /\ Forall (fun r => exists o,
               r = VObj o
               /\ keys o = [str "title"; str "date"; str "summary";
                            str "imageUrl"; str "link"])
            (mainNewsOf doc)
  /\ (forall block,
        In block
           (find doc (str ".schedule, .calendar, .event-list, .fixtures")) ->
        In n (find [block] (str "li, .event, .fixture, .match")) ->
        filled (scheduleItemOf [n]) "title" = true
        \/ filled (scheduleItemOf [n]) "date" = true ->
        In (VObj (scheduleItemOf [n])) (scheduleItemsOf doc))
  /\ Forall (fun r => exists o,
               r = VObj o
               /\ (filled o "title" = true \/ filled o "date" = true))
            (scheduleItemsOf doc)
  /\ Forall (fun t => exists title rows,
               t = VObj [(str "title", VStr title); (str "rows", VArr rows)]
               /\ title <> [] /\ rows <> []
               /\ Forall (fun r => exists cells,
                            r = VArr cells /\ cells <> []) rows)
            (mainStandingsOf doc).
Proof.
  split; [|split; [|split; [|split; [|split]]]].
  - intros Hn. rewrite announcementsOf_collect, in_collectFrom.
    rewrite <- orb_true_iff. split.
    + intros [j [n' [_ [Hp Hx]]]]. apply VObj_inj in Hx. now rewrite Hx.
    + intros Hk. apply In_nth_error in Hn. destruct Hn as [j Hj].
      now exists j, n.
  - intros Hn. rewrite mainNewsOf_collect, in_collectFrom. split.
    + intros [j [n' [_ [Hp Hx]]]]. apply VObj_inj in Hx. now rewrite Hx.
    + intros Hk. apply In_nth_error in Hn. destruct Hn as [j Hj].
      now exists j, n.
  - apply Forall_forall. intros r Hr. rewrite mainNewsOf_collect in Hr.
    apply in_collectFrom in Hr. destruct Hr as [j [m [_ [_ ->]]]].
    eexists. split; reflexivity.
  - intros block Hb Hn Hk. rewrite scheduleItemsOf_blocks.
    apply in_flat_map. exists block. split; [exact Hb|].
    apply in_collectFrom. apply In_nth_error in Hn. destruct Hn as [j Hj].
    exists j, n. split; [exact Hj|]. split; [|reflexivity].
    now apply orb_true_iff.
  - apply Forall_forall. intros r Hr. rewrite scheduleItemsOf_blocks in Hr.
    apply in_flat_map in Hr. destruct Hr as [block [_ Hr]].
    apply in_collectFrom in Hr. destruct Hr as [j [m [_ [Hp ->]]]].
    eexists. split; [reflexivity|]. now apply orb_true_iff.
  - apply Forall_forall. intros t Ht. rewrite mainStandingsOf_collect in Ht.
    apply in_collectFrom in Ht. destruct Ht as [j [m [_ [Hp ->]]]].
    eexists _, _. split; [reflexivity|].
    split; [apply orStr_default; discriminate|].
    split; [now apply positive_length|].
    apply Forall_forall. intros r Hr. apply in_collectFrom in Hr.
    destruct Hr as [k [row [_ [Hc ->]]]].
    eexists. split; [reflexivity|].
    apply positive_length in Hc. intros E. apply Hc.
    now apply map_eq_nil in E.
Qed.

Lemma navigationLinksOf_from_anchors (doc : list node) :
  Forall (fun l => exists n,
            In n (find doc (str "nav a, .menu a, .navigation a, .main-menu a"))
            /\ l = linkOf [n])
         (navigationLinksOf doc).
Proof.
  unfold navigationLinksOf, each.
  assert (Hgen : forall s i acc,
    Forall (fun l => exists n, In n s /\ l = linkOf [n])
      (skipn (List.length acc)
         (eachFrom i (fun (_ : nat) element navigationLinks =>
                        addLink navigationLinks (linkOf element)) s acc))
    /\ firstn (List.length acc)
         (eachFrom i (fun (_ : nat) element navigationLinks =>
                        addLink navigationLinks (linkOf element)) s acc)
       = acc).
  { induction s as [|n r IH]; intros i acc; cbn [eachFrom].
    - rewrite skipn_all, firstn_all. split; [constructor|reflexivity].
    - destruct (IH (S i) (addLink acc (linkOf [n]))) as [IH1 IH2].
      set (res := eachFrom (S i) _ r (addLink acc (linkOf [n]))) in *.
      unfold addLink in *.
      destruct (truthy (getOwn (linkOf [n]) (str "text"))
                && truthy (getOwn (linkOf [n]) (str "url"))
                && negb (existsb (fun l => sameUrl l (linkOf [n])) acc)).
      + unfold push in *. rewrite length_app in IH1, IH2.
        cbn [List.length] in IH1, IH2.
        assert (E : res = acc ++ linkOf [n] :: skipn (List.length acc + 1) res).
        { rewrite <- (firstn_skipn (List.length acc + 1) res) at 1.
          rewrite IH2. now rewrite <- app_assoc. }
        split.
        * rewrite E at 1. rewrite skipn_app, skipn_all, Nat.sub_diag.
          cbn [skipn app]. constructor.
          -- exists n. split; [now left|reflexivity].
          -- eapply Forall_impl; [|exact IH1].
             intros l [m [Hm ->]]. exists m. split; [now right|reflexivity].
        * rewrite E. rewrite firstn_app, firstn_all, Nat.sub_diag.
          cbn [firstn]. now rewrite app_nil_r.
      + split; [|exact IH2].
        eapply Forall_impl; [|exact IH1].
        intros l [m [Hm ->]]. exists m. split; [now right|reflexivity]. }
  destruct (Hgen (find doc (str "nav a, .menu a, .navigation a, .main-menu a"))
              0 []) as [Hall _].
  exact Hall.
Qed.

(** X13.  The sport links of the main page are the navigation links that
    are marked [isSport], in the same order: nothing else is listed, no
    url occurs twice, and a link is so marked exactly when its text
    contains the name of a sport, case ignored, or its url contains the
    path of a sport. *)
Theorem X13_sport_links_are_the_marked_navigation_links
  (doc : list node) (lastUpdated : jsstring) :
  exists links sportLinks,
    getOwn (mainPageDataOf doc lastUpdated) (str "navigationLinks")
    = VArr (map VObj links)
    /\ getOwn (mainPageDataOf doc lastUpdated) (str "sportLinks")
       = VArr (map VObj sportLinks)
    /\ (forall l, In l sportLinks
                  <-> In l links /\ getOwn l (str "isSport") = VBool true)
    /\ sportLinks
       = filter (fun l => truthy (getOwn l (str "isSport"))) links
    /\ NoDup (map (fun l => getOwn l (str "url")) sportLinks)
    /\ Forall (fun l => exists linkText url,
                 getOwn l (str "text") = VStr linkText
                 /\ getOwn l (str "url") = VStr url
                 /\ getOwn l (str "isSport")
                    = VBool (existsb (fun sp =>
                        includes (toLowerCase linkText)
                                 (toLowerCase (name sp))
                        || includes url (urlPath sp)) SPORTS))
              links.
Proof.
  exists (navigationLinksOf doc),
    (filter (fun l => truthy (getOwn l (str "isSport")))
            (navigationLinksOf doc)).
  pose proof (navigationLinksOf_from_anchors doc) as Hfrom.
  split; [reflexivity|]. split; [reflexivity|]. split; [|split; [reflexivity|split]].
  - intros l. rewrite filter_In. split; intros [Hl Hs]; split; trivial.
    + rewrite Forall_forall in Hfrom. destruct (Hfrom l Hl) as [n [_ ->]].
      cbn in Hs |- *. now rewrite Hs.
    + now rewrite Hs.
  - destruct (navigationLinksOf_ok doc) as [Hnd _].
    clear Hfrom. induction (navigationLinksOf doc) as [|l ls IH];
      [constructor|].
    cbn [map] in Hnd. inversion Hnd as [|? ? Hx Hnd']; subst.
    cbn [filter]. destruct (truthy (getOwn l (str "isSport")));
      [|now apply IH].
    cbn [map]. constructor; [|now apply IH].
    intros Hin. apply Hx. apply in_map_iff in Hin.
    destruct Hin as [l' [El Hl']]. apply filter_In in Hl'.
    apply in_map_iff. exists l'. tauto.
  - eapply Forall_impl; [|exact Hfrom].
    intros l [n [_ ->]]. eexists _, _.
    split; [reflexivity|]. split; reflexivity.
Qed.

End MainPageFacts.

(** The summary entry of the football page of the fixture. *)
Lemma X7_witness :
  summaryEntry
    [ (name futbol,
       VObj (@sportDataWith (fixtureDom sportPageFx) [0] [])) ]
    (name futbol)
  = VObj [ (str "name", VStr (name futbol));
           (str "resultsCount",
             VNum (List.length (@resultsOf (fixtureDom sportPageFx) [0])));
           (str "matchesCount",
             VNum (List.length (@matchesOf (fixtureDom sportPageFx) [0])));
           (str "hasStandings",
             VBool (negb (Nat.eqb
               (List.length (@standingsOf (fixtureDom sportPageFx) [0])) 0)));
           (str "hasMedals",
             VBool (negb (Nat.eqb
               (List.length (@medalsOf (fixtureDom sportPageFx) [0])) 0)));
           (str "error", getOwn [] (str "error")) ].
Proof.
  apply (@X7_summary_counts_the_extracted_buckets (fixtureDom sportPageFx)).
  vm_compute. reflexivity.
Defined.

(* ================================================================== *)
(** * Whole CSV files and HTML tables *)
(* ================================================================== *)

Section ReportFacts.
Variable JSON_stringify : value -> jsstring.

Lemma readCSV_step (fuel : nat) (s : jsstring) :
  s <> [] ->
  readCSV (S fuel) s
  = match parseCSVRecord s with
    | Some (fields, rest) =>
        match readCSV fuel rest with
        | Some records => Some (fields :: records)
        | None => None
        end
    | None => None
    end.
Proof. destruct s; [intros Hs; now contradiction Hs|reflexivity]. Qed.

Lemma csvRows_arrays (rows : list (list value)) :
  forall headers csv,
    csvRows JSON_stringify (headers, csv) (map VArr rows)
    = Some (csv ++ List.concat (map (csvLine JSON_stringify) rows)).
Proof.
  induction rows as [|cells rows IH]; intros headers csv.
  - cbn. now rewrite app_nil_r.
  - cbn [map csvRows csvRow List.concat]. rewrite IH. unfold csvLine.
    now rewrite <- !app_assoc.
Qed.

Lemma csvRows_objects (h : list jsstring) (objs : list obj) :
  forall csv,
    csvRows JSON_stringify (Some h, csv) (map VObj objs)
    = Some (csv ++ List.concat
              (map (fun o => csvLine JSON_stringify (map (fun key => getOwn o key) h)) objs)).
Proof.
  induction objs as [|o objs IH]; intros csv.
  - cbn. now rewrite app_nil_r.
  - cbn [map csvRows csvRow List.concat]. rewrite IH. unfold csvLine.
    now rewrite <- !app_assoc, map_map.
Qed.

Lemma readCSV_lines (rows : list (list value)) :
  Forall (fun cells => cells <> []) rows ->
  forall fuel, List.length rows <= fuel ->
    readCSV fuel (List.concat (map (csvLine JSON_stringify) rows))
    = Some (map (map (cellString JSON_stringify)) rows).
Proof.
  induction rows as [|cells rows IH]; intros Hne fuel Hfuel.
  - now destruct fuel.
  - inversion Hne as [|? ? Hc Hne']; subst.
    destruct cells as [|c cells]; [now contradiction Hc|].
    destruct fuel as [|fuel]; [simpl in Hfuel; lia|].
    cbn [map List.concat]. unfold csvLine at 1. rewrite <- app_assoc.
    cbn [app]. rewrite readCSV_step.
    2:{ destruct (join [cComma]
                    (map (formatCSVValue JSON_stringify) (c :: cells)));
          discriminate. }
    unfold parseCSVRecord.
    rewrite (@read_row JSON_stringify cells c [] _).
    cbn [app]. rewrite IH; trivial. simpl in Hfuel. lia.
Qed.

(** X14.  The file [convertToCSV] writes for rows that are arrays reads
    back as the table: without [headers], and every row having a cell, a
    reader of comma-separated, quote-doubled, line-feed-terminated records
    finds one record for each row, in order, whose fields are the texts of
    the cells of the row. *)
Theorem X14_csv_file_of_array_rows_reads_back (rows : list (list value)) :
  Forall (fun cells => cells <> []) rows ->
  exists csv,
    convertToCSV JSON_stringify (VArr (map VArr rows)) None = Some csv
    /\ forall fuel, List.length rows <= fuel ->
         readCSV fuel csv = Some (map (map (cellString JSON_stringify)) rows).
Proof.
  intros Hne.
  exists (List.concat (map (csvLine JSON_stringify) rows)). split.
  - destruct rows as [|cells rows]; [reflexivity|].
    unfold convertToCSV. cbn [map].
    change (VArr cells :: map VArr rows) with (map VArr (cells :: rows)).
    now rewrite csvRows_arrays.
  - now apply readCSV_lines.
Qed.

Lemma formatCSVValue_plain (s : jsstring) :
  needsQuoting s = false -> formatCSVValue JSON_stringify (VStr s) = s.
Proof.
  intros Hs. rewrite (@formatCSVValue_text JSON_stringify).
  cbv zeta. cbn [cellString]. now rewrite Hs.
Qed.

(** X15.  With [headers], the columns of the file are the headers and
    nothing else: for rows that are objects, and headers that hold no
    comma, quote or line feed, the file reads back as the header record
    followed by one record for each row with exactly one field for each
    header, the text of the row's value at that key and the empty text
    where the row has no such key; a key of a row that is no header is not
    written. *)
Theorem X15_csv_columns_are_the_headers
  (headers : list jsstring) (objs : list obj) :
  headers <> [] ->
  Forall (fun h => needsQuoting h = false) headers ->
  objs <> [] ->
  exists csv,
    convertToCSV JSON_stringify (VArr (map VObj objs)) (Some headers)
    = Some csv
    /\ forall fuel, 1 + List.length objs <= fuel ->
         readCSV fuel csv
         = Some (headers
                 :: map (fun o =>
                      map (fun key => cellString JSON_stringify
                                        (getOwn o key)) headers) objs).
Proof.
  intros Hh Hplain Hobjs.
  assert (Ehead : join [cComma] headers
                  = join [cComma] (map (formatCSVValue JSON_stringify)
                                       (map VStr headers))).
  { f_equal. rewrite map_map. clear Hh.
    induction Hplain as [|h hs Hp _ IH]; [reflexivity|].
    cbn [map]. now rewrite formatCSVValue_plain, <- IH. }
  exists (List.concat
            (map (csvLine JSON_stringify)
               (map VStr headers
                :: map (fun o => map (fun key => getOwn o key) headers)
                     objs))).
  split.
  - destruct objs as [|o objs]; [now contradiction Hobjs|].
    unfold convertToCSV. cbn [map].
    change (VObj o :: map VObj objs) with (map VObj (o :: objs)).
    rewrite csvRows_objects. cbn [map List.concat]. unfold csvLine at 3.
    rewrite <- Ehead. now rewrite map_map.
  - intros fuel Hfuel. rewrite readCSV_lines.
    + cbn [map]. rewrite !map_map. f_equal. f_equal.
      * clear. induction headers as [|h hs IH]; [reflexivity|].
        cbn [map]. now rewrite IH.
      * apply map_ext. intros o. now rewrite map_map.
    + constructor.
      * intros E. apply map_eq_nil in E. now apply Hh.
      * apply Forall_forall. intros cells Hc. apply in_map_iff in Hc.
        destruct Hc as [o [<- _]]. intros E. apply map_eq_nil in E.
        now apply Hh.
    + cbn [List.length]. rewrite length_map. exact Hfuel.
Qed.

End ReportFacts.

Lemma X14_witness :
  exists csv,
    convertToCSV (fun _ => [])
      (VArr [ VArr [VStr (str "Equipo"); VStr (str "Pts")];
              VArr [VStr (str "Don Bosco, A"); VNum 3];
              VArr [VNull] ]) None = Some csv
    /\ readCSV 3 csv
       = Some [ [str "Equipo"; str "Pts"]; [str "Don Bosco, A"; str "3"];
                [[]] ].
Proof.
  destruct (@X14_csv_file_of_array_rows_reads_back (fun _ => [])
              [ [VStr (str "Equipo"); VStr (str "Pts")];
                [VStr (str "Don Bosco, A"); VNum 3];
                [VNull] ]) as [csv [Hc Hr]].
  - repeat constructor; discriminate.
  - exists csv. split; [exact Hc|]. apply (Hr 3). simpl. lia.
Defined.

Lemma X15_witness :
  exists csv,
    convertToCSV (fun _ => [])
      (VArr [ VObj [(str "title", VStr (str "Final"));
                    (str "score", VStr (str "2-1"))];
              VObj [(str "score", VStr (str "0-0"));
                    (str "date", VStr (str "Lunes"))] ])
      (Some [str "title"; str "score"]) = Some csv
    /\ readCSV 3 csv
       = Some [ [str "title"; str "score"]; [str "Final"; str "2-1"];
                [[]; str "0-0"] ].
Proof.
  destruct (@X15_csv_columns_are_the_headers (fun _ => [])
              [str "title"; str "score"]
              [ [(str "title", VStr (str "Final"));
                 (str "score", VStr (str "2-1"))];
                [(str "score", VStr (str "0-0"));
                 (str "date", VStr (str "Lunes"))] ]) as [csv [Hc Hr]].
  - discriminate.
  - repeat constructor.
  - discriminate.
  - exists csv. split; [exact Hc|]. apply (Hr 3). simpl. lia.
Defined.

Section TableFacts.
Variable JSON_stringify : value -> jsstring.

Lemma htmlRows_arrays (headers : option (list jsstring))
  (rows : list (list value)) :
  forall html,
    htmlRows JSON_stringify headers html (map VArr rows)
    = Some (html ++ List.concat
              (map (fun cells =>
                      str "<tr>"
                      ++ List.concat
                           (map (fun cell =>
                                   td (formatHTMLValue JSON_stringify cell))
                                cells)
                      ++ str "</tr>") rows)).
Proof.
  induction rows as [|cells rows IH]; intros html.
  - cbn. now rewrite app_nil_r.
  - cbn [map htmlRows htmlCells List.concat]. rewrite IH.
    now rewrite <- !app_assoc.
Qed.

Lemma htmlRows_objects (h : list jsstring) (objs : list obj) :
  forall html,
    htmlRows JSON_stringify (Some h) html (map VObj objs)
    = Some (html ++ List.concat
              (map (fun o =>
                      str "<tr>"
                      ++ List.concat
                           (map (fun key =>
                                   td (formatHTMLValue JSON_stringify
                                         (getOwn o key))) h)
                      ++ str "</tr>") objs)).
Proof.
  induction objs as [|o objs IH]; intros html.
  - cbn. now rewrite app_nil_r.
  - cbn [map htmlRows htmlCells List.concat]. rewrite IH.
    now rewrite <- !app_assoc.
Qed.

(** X16.  The table [convertToHTMLTable] writes has one [<tr>] for each row
    and one [<td>] for each cell.  Without [headers], rows that are arrays
    get no header row: the first row is a body row like the others.  Rows
    that are objects get the keys of the first row as header row, and each
    row one cell for each of these keys, in that order. *)
Theorem X16_html_table_rows_and_cells
  (title : jsstring) (rows : list (list value)) (o : obj) (objs : list obj) :
  rows <> [] ->
  convertToHTMLTable JSON_stringify (VArr (map VArr rows)) title None
  = Some (tableOpening title ++ str "<tbody>"
          ++ List.concat
               (map (fun cells =>
                       str "<tr>"
                       ++ List.concat
                            (map (fun cell =>
                                    str "<td>"
                                    ++ formatHTMLValue JSON_stringify cell
                                    ++ str "</td>") cells)
                       ++ str "</tr>") rows)
          ++ str "</tbody></table></div>")
  /\ convertToHTMLTable JSON_stringify (VArr (map VObj (o :: objs))) title
       None
     = Some (tableOpening title ++ str "<thead><tr>"
             ++ List.concat
                  (map (fun header => str "<th>" ++ header ++ str "</th>")
                       (keys o))
             ++ str "</tr></thead>" ++ str "<tbody>"
             ++ List.concat
                  (map (fun row =>
                          str "<tr>"
                          ++ List.concat
                               (map (fun key =>
                                       str "<td>"
                                       ++ formatHTMLValue JSON_stringify
                                            (getOwn row key)
                                       ++ str "</td>") (keys o))
                          ++ str "</tr>") (o :: objs))
             ++ str "</tbody></table></div>").
Proof.
  intros Hrows. split.
  - destruct rows as [|cells rows]; [now contradiction Hrows|].
    unfold convertToHTMLTable. cbn [map].
    change (VArr cells :: map VArr rows) with (map VArr (cells :: rows)).
    rewrite htmlRows_arrays. unfold td. now rewrite <- !app_assoc.
  - unfold convertToHTMLTable. cbn [map].
    change (VObj o :: map VObj objs) with (map VObj (o :: objs)).
    rewrite htmlRows_objects. unfold td. now rewrite <- !app_assoc.
Qed.

End TableFacts.

Lemma X16_witness :
  convertToHTMLTable (fun _ => [])
    (VArr [ VArr [VStr (str "Equipo"); VStr (str "Pts")];
            VArr [VStr (str "A&B"); VNum 3] ]) (str "Tabla") None
  = Some (tableOpening (str "Tabla") ++ str "<tbody>"
          ++ str "<tr><td>Equipo</td><td>Pts</td></tr>"
          ++ str "<tr><td>A&amp;B</td><td>3</td></tr>"
          ++ str "</tbody></table></div>").
Proof.
  destruct (@X16_html_table_rows_and_cells (fun _ => []) (str "Tabla")
              [ [VStr (str "Equipo"); VStr (str "Pts")];
                [VStr (str "A&B"); VNum 3] ] [] []) as [Ha _].
  - discriminate.
  - exact Ha.
Defined.

(* ================================================================== *)
(** * File names *)
(* ================================================================== *)

Section FileFacts.
Context {H : Host}.





End FileFacts.

(* ================================================================== *)
(** * The pipelines *)
(* ================================================================== *)

Section PipelineFacts.
Context {C : Cheerio} {H : Host}.
Variable processAllSportsData : M bool.
Variable checkDataExists : M bool.

Lemma runScraper_rejects (w : world) (err : jsError) :
  fst (runScraper w) = inl err -> exists n, fsError n = Some err.
Proof.
  unfold runScraper. rewrite bind_eq.
  destruct (fst (runScraperBody w)) as [error|summary] eqn:Eb;
    [|discriminate].
  repeat (rewrite bind_eq; cbv beta).
  match goal with
  | |- context [fst (appendLog ?t ?w')] =>
      rewrite (appendLog_result t w');
      destruct (fsError (fsOps w')) as [e'|] eqn:E
  end; unfold ret; cbn [fst]; intros Hx; injection Hx as <-.
  - eauto.
  - now apply runScraperBody_rejects with (w := w).
Qed.

(** X18.  What the pipelines report.  [runScraperAndProcessData] answers
    [success: true] whenever the scraper resolves, whatever the processing
    returns, and the processing runs on what the scraper left; when the
    scraper rejects, the answer is [success: false] with the message of a
    file-system error and the processing is not started.  [runBothCommand]
    answers [true] exactly when the scraper resolves and data is found
    afterwards, whatever the processing returns; when the scraper rejects
    nothing else is run. *)
Theorem X18_pipelines_report_the_scraper_only (w : world) :
  (forall summary,
     fst (runScraper w) = inr summary ->
     runScraperAndProcessData processAllSportsData w
     = (VObj [(str "success", VBool true)],
        snd (processAllSportsData (snd (runScraper w))))
     /\ fst (runBothCommand processAllSportsData checkDataExists w)
        = fst (checkDataExists (snd (runScraper w))))
  /\ (forall err,
        fst (runScraper w) = inl err ->
        runScraperAndProcessData processAllSportsData w
        = (VObj [ (str "success", VBool false);
                  (str "error", VStr (errMessage err)) ],
           snd (runScraper w))
        /\ runBothCommand processAllSportsData checkDataExists w
           = (false, snd (runScraper w))
        /\ exists n, fsError n = Some err).
Proof.
  split.
  - intros summary Hr. split.
    + unfold runScraperAndProcessData. rewrite bind_eq, Hr, bind_eq.
      reflexivity.
    + unfold runBothCommand, runScraperCommand, processDataCommand.
      rewrite !bind_eq, Hr. unfold ret. cbn [fst snd negb].
      rewrite !bind_eq.
      destruct (checkDataExists (snd (runScraper w))) as [[|] w'];
        cbn [fst snd negb]; rewrite ?bind_eq; reflexivity.
  - intros err Hr. split; [|split].
    + unfold runScraperAndProcessData. rewrite bind_eq, Hr. reflexivity.
    + unfold runBothCommand, runScraperCommand.
      rewrite !bind_eq, Hr. reflexivity.
    + now apply runScraper_rejects with (w := w).
Qed.

End PipelineFacts.

(** On the host whose disk refuses the output directory, with a processing
    that would fail and data that would be found: both pipelines stop after
    the scraper. *)
Lemma X18_witness :
  @runScraperAndProcessData (fixtureDom sportPageFx) noDirHost (ret false)
    world0
  = (VObj [ (str "success", VBool false);
            (str "error", VStr (str "permission denied")) ],
     snd (@runScraper (fixtureDom sportPageFx) noDirHost world0))
  /\ @runBothCommand (fixtureDom sportPageFx) noDirHost (ret false)
       (ret true) world0
     = (false, snd (@runScraper (fixtureDom sportPageFx) noDirHost world0)).
Proof.
  destruct (@X18_pipelines_report_the_scraper_only
              (fixtureDom sportPageFx) noDirHost (ret false) (ret true)
              world0) as [_ Hfail].
  destruct (Hfail {| errCode := str "EACCES";
                     errMessage := str "permission denied";
                     errStack := [] |}) as [Ha [Hb _]].
  - vm_compute. reflexivity.
  - split; [exact Ha | exact Hb].
Defined.


(* ================================================================== *)
(** * The minimal scraper: pages and run *)
(* ================================================================== *)

Section MinimalRunFacts.
Context {C : Cheerio} {H : Host}.
Variable normalizeNFD : jsstring -> jsstring.















End MinimalRunFacts.


(* ================================================================== *)
(** * What the disk cannot change *)
(* ================================================================== *)

Section MainPageFile.
Context {C : Cheerio} {H : Host}.

(** X22.  [scrapeMainPage] saves exactly what it returns: when the main
    page was fetched it returns a record with its seven keys, empty
    collections included, and the one JSON write it issues is that record
    to main_page.json; when the fetch is exhausted it returns [null] and
    issues no JSON write. *)
Theorem X22_main_page_file_holds_the_returned_result (w : world) :
  exists evs,
    adds scrapeMainPage w evs
    /\ ((exists e,
           fst (fetchWithRetry CONFIG.baseUrl CONFIG.maxRetries w) = inl e
           /\ fst (scrapeMainPage w) = VNull
           /\ jsonWrites evs = [])
        \/ (exists html lastUpdated,
              fst (fetchWithRetry CONFIG.baseUrl CONFIG.maxRetries w)
              = inr html
              /\ fst (scrapeMainPage w)
                 = VObj (mainPageDataOf (load html) lastUpdated)
              /\ keys (mainPageDataOf (load html) lastUpdated)
                 = [ str "generalInfo"; str "announcements"; str "news";
                     str "scheduleItems"; str "navigationLinks";
                     str "standings"; str "sportLinks" ]
              /\ jsonWrites evs
                 = [(pathJoin outputDir (str "main_page.json"),
                     VObj (mainPageDataOf (load html) lastUpdated))])).
Proof.
  destruct (adds_fetchWithRetry CONFIG.baseUrl w) as [k [Hk Hf]].
  destruct (attemptTrace_measures CONFIG.baseUrl k) as [Hu [Hp Hj]].
  destruct (fst (fetchWithRetry CONFIG.baseUrl CONFIG.maxRetries w))
    as [e|html] eqn:E.
  - exists (attemptTrace CONFIG.baseUrl k ++ []). split.
    { unfold scrapeMainPage. apply adds_bind; [exact Hf|].
      rewrite E. apply adds_ret. }
    left. exists e. split; [reflexivity|]. split.
    + unfold scrapeMainPage. now rewrite bind_eq, E.
    + now rewrite app_nil_r.
  - destruct (adds_saveHtmlForDebugging (str "main_page") html
                (snd (fetchWithRetry CONFIG.baseUrl CONFIG.maxRetries w)))
      as [dbg [Hd [Hdu [Hdp Hdj]]]].
    set (w1 := snd (saveHtmlForDebugging (str "main_page") html
                 (snd (fetchWithRetry CONFIG.baseUrl CONFIG.maxRetries w)))).
    exists (attemptTrace CONFIG.baseUrl k ++ dbg ++ []
            ++ [EvWrite (pathJoin outputDir (str "main_page.json"))
                  (CJson (VObj (mainPageDataOf (load html)
                                  (fst (isoNow w1)))))] ++ []).
    split.
    { unfold scrapeMainPage. apply adds_bind; [exact Hf|]. rewrite E.
      apply adds_bind; [exact Hd|].
      apply adds_bind; [apply adds_isoNow|].
      apply adds_bind; [apply adds_saveToFile|apply adds_ret]. }
    right. exists html, (fst (isoNow w1)).
    split; [reflexivity|]. split; [|split; [reflexivity|]].
    + unfold scrapeMainPage. now rewrite bind_eq, E, !bind_eq.
    + now rewrite !jsonWrites_app, Hj, Hdj.
Qed.

End MainPageFile.

Section DiskIndependence.
Context {C : Cheerio}.

Lemma attempts_after_retry (H : Host) (url : jsstring) (w : world) :
  attempts url
    {| fsOps := fsOps (snd (@httpGet H url w));
       events := events (snd (@httpGet H url w))
                 ++ [EvDelay CONFIG.retryDelay] |}
  = S (attempts url w).
Proof.
  unfold attempts, httpGet. cbn [snd events].
  rewrite !filter_app, !length_app. cbn [filter isGet List.length].
  rewrite eqStr_refl. cbn [List.length]. lia.
Qed.

Lemma fetchLoop_reads_the_net_only (H1 H2 : Host) (url : jsstring)
  (n : nat) :
  (forall k, @net H1 url k = @net H2 url k) ->
  forall w1 w2,
    attempts url w1 = attempts url w2 ->
    fst (@fetchLoop H1 url n w1) = fst (@fetchLoop H2 url n w2).
Proof.
  intros Hnet. induction n as [|n IH]; intros w1 w2 Ha.
  - cbn [fetchLoop]. rewrite !bind_eq. unfold httpGet at 1 3.
    cbn [fst]. rewrite Ha, Hnet.
    now destruct (@net H2 url (attempts url w2)).
  - destruct (@httpGet H1 url w1) as [r1 v1] eqn:E1.
    destruct (@httpGet H2 url w2) as [r2 v2] eqn:E2.
    assert (Er : r1 = r2).
    { unfold httpGet in E1, E2. injection E1 as <- _. injection E2 as <- _.
      now rewrite Ha, Hnet. }
    subst r2. destruct r1 as [e|b].
    + rewrite (@fetchLoop_retry H1 url n w1 v1 e E1).
      rewrite (@fetchLoop_retry H2 url n w2 v2 e E2).
      apply IH.
      replace v1 with (snd (@httpGet H1 url w1)) by now rewrite E1.
      replace v2 with (snd (@httpGet H2 url w2)) by now rewrite E2.
      now rewrite !attempts_after_retry, Ha.
    + rewrite (@fetchLoop_done H1 url (S n) w1 v1 b E1).
      now rewrite (@fetchLoop_done H2 url (S n) w2 v2 b E2).
Qed.

(** X23.  The disk cannot change what the enhanced scraper returns for a
    sport page: on two hosts that answer the requests alike, started when
    the page has been asked for equally often, [scrapeSportPage] returns
    the same value, whatever the file-system operations of either host
    do. *)
Theorem X23_disk_never_changes_a_page_result
  (H1 H2 : Host) (sp : sport) (w1 w2 : world) :
  (forall k, @net H1 (sportUrlOf sp) k = @net H2 (sportUrlOf sp) k) ->
  attempts (sportUrlOf sp) w1 = attempts (sportUrlOf sp) w2 ->
  fst (@scrapeSportPage C H1 sp w1) = fst (@scrapeSportPage C H2 sp w2).
Proof.
  intros Hnet Ha. unfold scrapeSportPage. cbv zeta. rewrite !bind_eq.
  unfold fetchWithRetry.
  rewrite (@fetchLoop_reads_the_net_only H1 H2 (sportUrlOf sp)
             (Z.to_nat CONFIG.maxRetries) Hnet w1 w2 Ha).
  destruct (fst (@fetchLoop H2 (sportUrlOf sp)
                   (Z.to_nat CONFIG.maxRetries) w2)) as [e|html];
    [reflexivity|].
  rewrite !bind_eq.
  destruct (sportDataOf (load html) sp (sportUrlOf sp)) as [e|o];
    [reflexivity|].
  now rewrite !bind_eq.
Qed.

End DiskIndependence.

(** With a working disk and with a full one, the football page of the
    fixture gives the same result. *)
Lemma X23_witness :
  fst (@scrapeSportPage (fixtureDom sportPageFx) servingHost futbol world0)
  = fst (@scrapeSportPage (fixtureDom sportPageFx) fullDiskHost futbol
           world0).
Proof.
  apply (@X23_disk_never_changes_a_page_result (fixtureDom sportPageFx)
           servingHost fullDiskHost futbol world0 world0).
  - intros k. reflexivity.
  - reflexivity.
Defined.
